(** * vote-app-backend: voting integrity and results aggregation

    A shallow embedding of the Express/Mongoose handlers of the backend:
    the ballot store ([models/Vote.js]), the session store
    ([models/VotingSession.js]), the user store ([models/User.js]), the
    bearer-token middleware ([middleware/auth.js]) and the controllers that
    cast ballots, aggregate results and delete users.

    Conventions of the embedding.
    - An [ObjectId] is a natural number; only well-formed identifiers are
      modelled (a malformed one makes Mongoose throw a cast error).
    - A JavaScript [Date] is its millisecond value, an integer of [Z]; an
      absent date is [None].
    - A string is a [string] whose characters are the code units of the
      JavaScript string, restricted to the range 0..255.
    - The three collections are lists inside one record [Db]; a handler
      takes the store and returns the response together with the new store.
    - An exception thrown inside a handler is a value of [Thrown]; each
      handler's [catch] block is written out. *)

From Stdlib Require Import List String Ascii Bool Arith ZArith Lia.
From Stdlib Require Import Sorted Permutation.
Import ListNotations.
Local Open Scope string_scope.

(** ** JavaScript strings *)

(** [String.prototype.trim] strips white space and line terminators; in the
    modelled range of code units these are TAB, LF, VT, FF, CR, SPACE and
    NBSP. *)
Definition isWhiteSpace (c : ascii) : bool :=
  let n := nat_of_ascii c in
  (Nat.leb 9 n && Nat.leb n 13) || Nat.eqb n 32 || Nat.eqb n 160.

Fixpoint trimStart (s : string) : string :=
  match s with
  | EmptyString => EmptyString
  | String c rest => if isWhiteSpace c then trimStart rest else s
  end.

Fixpoint trimEnd (s : string) : string :=
  match s with
  | EmptyString => EmptyString
  | String c rest =>
      match trimEnd rest with
      | EmptyString => if isWhiteSpace c then EmptyString else String c EmptyString
      | kept => String c kept
      end
  end.

Definition trim (s : string) : string := trimEnd (trimStart s).

(** [!candidateName || candidateName.trim() === ''] on an optional string:
    [undefined] and the empty string are falsy. *)
Definition blank (name : option string) : bool :=
  match name with
  | None => true
  | Some s => String.eqb s "" || String.eqb (trim s) ""
  end.

(** ** Schemas *)

Definition ObjectId := nat.
Definition Date := Z.

Inductive Role := user | admin.

Definition Role_eqb (a b : Role) : bool :=
  match a, b with
  | user, user | admin, admin => true
  | _, _ => false
  end.

(** [userSchema] (password omitted: no modelled handler reads it). *)
Record UserDoc := mkUser {
  u_id : ObjectId;
  username : string;
  email : string;
  role : Role
}.

(** [votingSessionSchema.status]: enum ['draft', 'active', 'closed']. *)
Inductive SessionStatus := draft | active | closed.

Definition SessionStatus_eqb (a b : SessionStatus) : bool :=
  match a, b with
  | draft, draft | active, active | closed, closed => true
  | _, _ => false
  end.

Record Candidate := mkCandidate {
  c_id : ObjectId;
  c_name : string;
  c_description : string
}.

Record SessionDoc := mkSession {
  s_id : ObjectId;
  title : string;
  candidates : list Candidate;
  assignedUsers : list ObjectId;
  status : SessionStatus;
  startDate : option Date;
  endDate : option Date;
  allowNewCandidates : bool;
  createdBy : ObjectId
}.

(** A stored document of [voteSchema].  A document written before the
    session field existed carries no [votingSessionId]. *)
Record VoteDoc := mkVote {
  v_id : ObjectId;
  userId : ObjectId;
  votingSessionId : option ObjectId;
  candidateId : option ObjectId;
  candidateName : string;
  timestamp : Date;
  isCustomCandidate : bool
}.

(** The argument of [new VoteModel({...})]: every path may be left out. *)
Record VoteInit := mkVoteInit {
  i_userId : option ObjectId;
  i_votingSessionId : option ObjectId;
  i_candidateId : option ObjectId;
  i_candidateName : option string;
  i_isCustomCandidate : option bool
}.

(** The three collections and the source of fresh identifiers. *)
Record Db := mkDb {
  users : list UserDoc;
  sessions : list SessionDoc;
  votes : list VoteDoc;
  nextId : ObjectId
}.

Definition withVotes (db : Db) (vs : list VoteDoc) : Db :=
  mkDb (users db) (sessions db) vs (nextId db).

(** ** Exceptions and responses *)

Inductive Thrown :=
| Error (msg : string)                 (* throw new Error(msg) *)
| ValidationError (paths : list string) (* Mongoose: required paths missing *)
| DuplicateKey                          (* MongoDB E11000 on a unique index *)
| ReferenceError (ident : string).      (* identifier not in scope *)

Definition errorMessage (e : Thrown) : string :=
  match e with
  | Error msg => msg
  | ValidationError _ => "Vote validation failed"
  | DuplicateKey => "E11000 duplicate key error"
  | ReferenceError ident => ident ++ " is not defined"
  end.

Definition optId_eqb (a b : option ObjectId) : bool :=
  match a, b with
  | Some x, Some y => Nat.eqb x y
  | None, None => true
  | _, _ => false
  end.

(** A [TypeError] raised by the engine itself: reading a property of
    [null] or [undefined], or calling what is not a function. *)
Inductive TypeError :=
| CannotReadProperty (prop : string)
| NotAFunction (callee : string).

(** ** Array helpers *)

(** A stable sort, standing for [Array.prototype.sort] and for the [$sort]
    stage and [.sort()] of a query.  MongoDB leaves the order among equal
    keys open; nothing proved below depends on it. *)
Fixpoint insertBy {A : Type} (le : A -> A -> bool) (x : A) (l : list A) : list A :=
  match l with
  | [] => [x]
  | y :: rest => if le x y then x :: l else y :: insertBy le x rest
  end.

Definition sortBy {A : Type} (le : A -> A -> bool) (l : list A) : list A :=
  fold_right (insertBy le) [] l.

(** ** models/User.js *)

Module User.

(** [UserModel.findById(id)] *)
Definition findById (db : Db) (id : ObjectId) : option UserDoc :=
  find (fun u => Nat.eqb (u_id u) id) (users db).

(** [UserModel.findByIdAndDelete(id)]: removes the matching document and
    returns it. *)
Definition deleteById (db : Db) (id : ObjectId) : option UserDoc * Db :=
  match findById db id with
  | Some u =>
      (Some u,
       mkDb (filter (fun x => negb (Nat.eqb (u_id x) id)) (users db))
            (sessions db) (votes db) (nextId db))
  | None => (None, db)
  end.

(** [UserModel.find({})] *)
Definition findAll (db : Db) : list UserDoc := users db.

(** [UserModel.find({ role: 'user' })] *)
Definition findAllUsers (db : Db) : list UserDoc :=
  filter (fun u => Role_eqb (role u) user) (users db).

(** [UserModel.findOne({ username })] *)
Definition findByUsername (db : Db) (name : string) : option UserDoc :=
  find (fun u => String.eqb (username u) name) (users db).

(** [UserModel.findOne({ email })] *)
Definition findByEmail (db : Db) (address : string) : option UserDoc :=
  find (fun u => String.eqb (email u) address) (users db).

(** [String.prototype.toLowerCase] on the modelled code units: A to Z, and
    the capital letters of Latin-1 (0xC0 to 0xDE, the multiplication sign
    0xD7 apart). *)
Definition lowerChar (c : ascii) : ascii :=
  let n := nat_of_ascii c in
  if (Nat.leb 65 n && Nat.leb n 90)
     || (Nat.leb 192 n && Nat.leb n 222 && negb (Nat.eqb n 215))
  then ascii_of_nat (n + 32) else c.

Fixpoint toLowerCase (s : string) : string :=
  match s with
  | EmptyString => EmptyString
  | String c rest => String (lowerChar c) (toLowerCase rest)
  end.

(** What [user.save()] can throw. *)
Inductive SaveError :=
| Invalid (paths : list string)     (* a validator of [userSchema] failed *)
| Duplicate (path : string).        (* a unique index refused the insert *)

(** The validators of [userSchema], run on the values the setters leave:
    [username] is required, trimmed, 3 to 50 long; [email] is required,
    trimmed and lowercased; [password] is required and at least 6 long. *)
Definition invalidPaths (name address password : string) : list string :=
  (let n := String.length (trim name) in
   if Nat.eqb n 0 || Nat.ltb n 3 || Nat.ltb 50 n then ["username"] else []) ++
  (if String.eqb (toLowerCase (trim address)) "" then ["email"] else []) ++
  (if Nat.ltb (String.length password) 6 then ["password"] else []).

(** [new UserModel({ username, email, password, role }).save()]: validation,
    then the insert, which the unique indexes on [username] and [email]
    guard.  The stored password hash is not modelled. *)
Definition save (name address password : string) (r : Role) (db : Db)
  : (SaveError + UserDoc) * Db :=
  match invalidPaths name address password with
  | [] =>
      if existsb (fun u => String.eqb (username u) (trim name)) (users db)
      then (inl (Duplicate "username"), db)
      else if existsb (fun u => String.eqb (email u) (toLowerCase (trim address))) (users db)
      then (inl (Duplicate "email"), db)
      else
        let u := mkUser (nextId db) (trim name) (toLowerCase (trim address)) r in
        (inr u, mkDb (users db ++ [u]) (sessions db) (votes db) (S (nextId db)))
  | paths => (inl (Invalid paths), db)
  end.

(** Creates the default administrator unless a user named 'admin' exists;
    whatever [save] throws is logged and dropped. *)
Definition initializeDefaultAdmin (db : Db) : Db :=
  match findByUsername db "admin" with
  | Some _ => db
  | None => snd (save "admin" "admin@voting-app.com" "admin123" admin db)
  end.

End User.

(** ** models/VotingSession.js *)

Module VotingSession.

(** [VotingSessionModel.findById(id)] (the populated user references are
    not read by the modelled handlers). *)
Definition findById (db : Db) (id : ObjectId) : option SessionDoc :=
  find (fun s => Nat.eqb (s_id s) id) (sessions db).

(** [findByIdAndDelete] *)
Definition deleteById (db : Db) (id : ObjectId) : option SessionDoc * Db :=
  match findById db id with
  | Some s =>
      (Some s,
       mkDb (users db)
            (filter (fun x => negb (Nat.eqb (s_id x) id)) (sessions db))
            (votes db) (nextId db))
  | None => (None, db)
  end.

Definition isUserAssignedToSession (db : Db) (sessionId uid : ObjectId) : bool :=
  match findById db sessionId with
  | None => false
  | Some session => existsb (fun assigned => Nat.eqb assigned uid) (assignedUsers session)
  end.

(** [findByIdAndUpdate(id, update, { new: true })]: the first document with
    the id is replaced, and the new document is the value returned. *)
Fixpoint findByIdAndUpdate (id : ObjectId) (update : SessionDoc -> SessionDoc)
  (docs : list SessionDoc) : option SessionDoc * list SessionDoc :=
  match docs with
  | [] => (None, [])
  | s :: rest =>
      if Nat.eqb (s_id s) id then (Some (update s), update s :: rest)
      else let '(found, rest') := findByIdAndUpdate id update rest in (found, s :: rest')
  end.

Definition withAssignedUsers (s : SessionDoc) (assigned : list ObjectId) : SessionDoc :=
  mkSession (s_id s) (title s) (candidates s) assigned (status s)
            (startDate s) (endDate s) (allowNewCandidates s) (createdBy s).

Definition withCandidates (s : SessionDoc) (cs : list Candidate) : SessionDoc :=
  mkSession (s_id s) (title s) cs (assignedUsers s) (status s)
            (startDate s) (endDate s) (allowNewCandidates s) (createdBy s).

(** [{ $addToSet: { field: { $each: values } } }] *)
Definition addToSet (values set : list ObjectId) : list ObjectId :=
  fold_left (fun acc x => if existsb (Nat.eqb x) acc then acc else (acc ++ [x])%list) values set.

(** [{ $pull: { field: { $in: values } } }] *)
Definition pullIn (values set : list ObjectId) : list ObjectId :=
  filter (fun x => negb (existsb (Nat.eqb x) values)) set.

Definition assignUsersToSession (db : Db) (sessionId : ObjectId) (userIds : list ObjectId)
  : option SessionDoc * Db :=
  let '(found, docs) :=
    findByIdAndUpdate sessionId
      (fun s => withAssignedUsers s (addToSet userIds (assignedUsers s))) (sessions db) in
  (found, mkDb (users db) docs (votes db) (nextId db)).

Definition removeUsersFromSession (db : Db) (sessionId : ObjectId) (userIds : list ObjectId)
  : option SessionDoc * Db :=
  let '(found, docs) :=
    findByIdAndUpdate sessionId
      (fun s => withAssignedUsers s (pullIn userIds (assignedUsers s))) (sessions db) in
  (found, mkDb (users db) docs (votes db) (nextId db)).

(** [{ $push: { candidates: candidate } }]: the pushed subdocument is cast
    to the candidate schema, which gives it an [_id]. *)
Definition addCandidate (db : Db) (sessionId : ObjectId) (name description : string)
  : option SessionDoc * Db :=
  let candidate := mkCandidate (nextId db) (trim name) (trim description) in
  match findByIdAndUpdate sessionId
          (fun s => withCandidates s (candidates s ++ [candidate])) (sessions db) with
  | (Some s, docs) => (Some s, mkDb (users db) docs (votes db) (S (nextId db)))
  | (None, _) => (None, db)
  end.

(** [{ $pull: { candidates: { _id: candidateId } } }] *)
Definition removeCandidate (db : Db) (sessionId candidateId : ObjectId)
  : option SessionDoc * Db :=
  let '(found, docs) :=
    findByIdAndUpdate sessionId
      (fun s => withCandidates s
                  (filter (fun c => negb (Nat.eqb (c_id c) candidateId)) (candidates s)))
      (sessions db) in
  (found, mkDb (users db) docs (votes db) (nextId db)).

(** [find({ assignedUsers: userId, status: 'active' })] *)
Definition findByUserId (db : Db) (uid : ObjectId) : list SessionDoc :=
  filter (fun s => existsb (Nat.eqb uid) (assignedUsers s)
                   && SessionStatus_eqb (status s) active) (sessions db).

(** The filter literal of [getActiveSessionsForUser] writes the key [$or]
    twice; the second one replaces the first, so the query that runs is
    [{ assignedUsers: userId, status: 'active',
       $or: [{ endDate: { $gte: now } }, { endDate: { $exists: false } }] }]
    and the start date plays no part. *)
Definition getActiveSessionsForUser (db : Db) (uid : ObjectId) (now : Date)
  : list SessionDoc :=
  filter (fun s => existsb (Nat.eqb uid) (assignedUsers s)
                   && SessionStatus_eqb (status s) active
                   && match endDate s with
                      | Some finish => Z.geb finish now
                      | None => true
                      end) (sessions db).

(** The validators [session.save()] runs in [create]: the trimmed title is
    required and at most 200 long, the trimmed description at most 1000
    long, and every candidate needs a name that is not empty once trimmed.
    [None] stands for a candidate without a name. *)
Definition invalidPaths (sessionTitle : string) (description : option string)
  (names : list (option string)) : list string :=
  (let n := String.length (trim sessionTitle) in
   if Nat.eqb n 0 || Nat.ltb 200 n then ["title"] else []) ++
  (match description with
   | Some d => if Nat.ltb 1000 (String.length (trim d)) then ["description"] else []
   | None => []
   end) ++
  (if forallb (fun name => match name with
                           | Some n => negb (String.eqb (trim n) "")
                           | None => false
                           end) names
   then [] else ["candidates"]).

(** The candidates of a new session, numbered from [first]. *)
Fixpoint newCandidates (first : ObjectId) (cs : list (option string * string))
  : list Candidate :=
  match cs with
  | [] => []
  | (name, description) :: rest =>
      mkCandidate first (trim (match name with Some n => n | None => "" end))
                  (trim description)
      :: newCandidates (S first) rest
  end.

(** [new VotingSessionModel({ ...sessionData, createdBy }).save()].  The
    status defaults to 'draft'.  [description], [multipleChoice] and
    [maxChoices] are stored too but no modelled handler reads them back;
    the value [inl paths] is the validation error thrown. *)
Definition create (sessionTitle : string) (description : option string)
  (cs : list (option string * string)) (assigned : list ObjectId)
  (allowNew : bool) (start finish : option Date) (createdById : ObjectId) (db : Db)
  : (list string + SessionDoc) * Db :=
  match invalidPaths sessionTitle description (map fst cs) with
  | [] =>
      let session :=
        mkSession (nextId db) (trim sessionTitle) (newCandidates (S (nextId db)) cs)
                  assigned draft start finish allowNew createdById in
      (inr session,
       mkDb (users db) (sessions db ++ [session]) (votes db)
            (S (nextId db) + List.length cs))
  | paths => (inl paths, db)
  end.

End VotingSession.

(** ** models/Poll.js *)

Module Poll.

(** [pollSchema.status]: enum ['draft', 'active', 'ended', 'cancelled']. *)
Inductive Status := draft | active | ended | cancelled.

Definition Status_eqb (a b : Status) : bool :=
  match a, b with
  | draft, draft | active, active | ended, ended | cancelled, cancelled => true
  | _, _ => false
  end.

Record PollDoc := mkPoll {
  p_id : ObjectId;
  p_title : string;
  p_description : string;
  p_candidates : list Candidate;
  p_assignedUsers : list ObjectId;
  p_createdBy : ObjectId;
  p_startDate : Date;
  p_endDate : Date;
  p_status : Status;
  p_allowNewCandidates : bool;
  p_maxVotesPerUser : Z;
  p_isAnonymous : bool
}.

(** The poll collection and its source of fresh identifiers. *)
Record Polls := mkPolls {
  docs : list PollDoc;
  fresh : ObjectId
}.

(** The virtual [isActive], read at time [now]. *)
Definition isActive (poll : PollDoc) (now : Date) : bool :=
  Status_eqb (p_status poll) active
  && Z.leb (p_startDate poll) now
  && Z.gtb (p_endDate poll) now.

(** The virtual [hasEnded], read at time [now]. *)
Definition hasEnded (poll : PollDoc) (now : Date) : bool :=
  Status_eqb (p_status poll) ended || Z.leb (p_endDate poll) now.

Definition withStatus (poll : PollDoc) (st : Status) : PollDoc :=
  mkPoll (p_id poll) (p_title poll) (p_description poll) (p_candidates poll)
         (p_assignedUsers poll) (p_createdBy poll) (p_startDate poll) (p_endDate poll)
         st (p_allowNewCandidates poll) (p_maxVotesPerUser poll) (p_isAnonymous poll).

Definition withAssignedUsers (poll : PollDoc) (assigned : list ObjectId) : PollDoc :=
  mkPoll (p_id poll) (p_title poll) (p_description poll) (p_candidates poll)
         assigned (p_createdBy poll) (p_startDate poll) (p_endDate poll)
         (p_status poll) (p_allowNewCandidates poll) (p_maxVotesPerUser poll)
         (p_isAnonymous poll).

(** [PollModel.findById(pollId)] *)
Definition findById (polls : Polls) (pollId : ObjectId) : option PollDoc :=
  find (fun p => Nat.eqb (p_id p) pollId) (docs polls).

(** [PollModel.findByIdAndUpdate(pollId, update, { new: true })] *)
Fixpoint updateFirst (pollId : ObjectId) (update : PollDoc -> PollDoc)
  (l : list PollDoc) : option PollDoc * list PollDoc :=
  match l with
  | [] => (None, [])
  | p :: rest =>
      if Nat.eqb (p_id p) pollId then (Some (update p), update p :: rest)
      else let '(found, rest') := updateFirst pollId update rest in (found, p :: rest')
  end.

Definition findByIdAndUpdate (pollId : ObjectId) (update : PollDoc -> PollDoc)
  (polls : Polls) : option PollDoc * Polls :=
  let '(found, l) := updateFirst pollId update (docs polls) in
  (found, mkPolls l (fresh polls)).

Definition activatePoll (polls : Polls) (pollId : ObjectId) : option PollDoc * Polls :=
  findByIdAndUpdate pollId (fun p => withStatus p active) polls.

Definition endPoll (polls : Polls) (pollId : ObjectId) : option PollDoc * Polls :=
  findByIdAndUpdate pollId (fun p => withStatus p ended) polls.

(** [{ $addToSet: { assignedUsers: { $each: userIds } } }] *)
Definition assignUsers (polls : Polls) (pollId : ObjectId) (userIds : list ObjectId)
  : option PollDoc * Polls :=
  findByIdAndUpdate pollId
    (fun p => withAssignedUsers p (VotingSession.addToSet userIds (p_assignedUsers p))) polls.

(** [{ $pullAll: { assignedUsers: userIds } }] *)
Definition removeUsers (polls : Polls) (pollId : ObjectId) (userIds : list ObjectId)
  : option PollDoc * Polls :=
  findByIdAndUpdate pollId
    (fun p => withAssignedUsers p (VotingSession.pullIn userIds (p_assignedUsers p))) polls.

(** [PollModel.findByIdAndDelete(pollId)] *)
Definition deletePoll (polls : Polls) (pollId : ObjectId) : option PollDoc * Polls :=
  match findById polls pollId with
  | Some p =>
      (Some p, mkPolls (filter (fun x => negb (Nat.eqb (p_id x) pollId)) (docs polls))
                       (fresh polls))
  | None => (None, polls)
  end.

(** [find({ assignedUsers: userId, status: 'active',
            startDate: { $lte: now }, endDate: { $gt: now } })] *)
Definition getActiveUserPolls (polls : Polls) (uid : ObjectId) (now : Date) : list PollDoc :=
  filter (fun p => existsb (Nat.eqb uid) (p_assignedUsers p)
                   && Status_eqb (p_status p) active
                   && Z.leb (p_startDate p) now
                   && Z.gtb (p_endDate p) now) (docs polls).

(** The validators [poll.save()] runs: title and description are required
    once trimmed and at most 200 and 1000 long, every candidate needs a
    name, and [maxVotesPerUser] is at least 1. *)
Definition invalidPaths (pollTitle description : string) (names : list (option string))
  (maxVotes : Z) : list string :=
  (let n := String.length (trim pollTitle) in
   if Nat.eqb n 0 || Nat.ltb 200 n then ["title"] else []) ++
  (let n := String.length (trim description) in
   if Nat.eqb n 0 || Nat.ltb 1000 n then ["description"] else []) ++
  (if forallb (fun name => match name with
                           | Some n => negb (String.eqb (trim n) "")
                           | None => false
                           end) names
   then [] else ["candidates"]) ++
  (if Z.ltb maxVotes 1 then ["maxVotesPerUser"] else []).

(** The data [createPoll] of the controller hands to the model. *)
Record PollData := mkPollData {
  pd_title : string;
  pd_description : string;
  pd_candidates : list (option string * string);
  pd_assignedUsers : list ObjectId;
  pd_createdBy : ObjectId;
  pd_startDate : Date;
  pd_endDate : Date;
  pd_allowNewCandidates : bool;
  pd_maxVotesPerUser : Z;
  pd_isAnonymous : bool;
  pd_status : Status
}.

(** [new PollModel(pollData).save()]; [inl paths] is the validation error
    thrown. *)
Definition createPoll (pollData : PollData) (polls : Polls)
  : (list string + PollDoc) * Polls :=
  match invalidPaths (pd_title pollData) (pd_description pollData)
                     (map fst (pd_candidates pollData)) (pd_maxVotesPerUser pollData) with
  | [] =>
      let poll :=
        mkPoll (fresh polls) (trim (pd_title pollData)) (trim (pd_description pollData))
               (VotingSession.newCandidates (S (fresh polls)) (pd_candidates pollData))
               (pd_assignedUsers pollData) (pd_createdBy pollData)
               (pd_startDate pollData) (pd_endDate pollData) (pd_status pollData)
               (pd_allowNewCandidates pollData) (pd_maxVotesPerUser pollData)
               (pd_isAnonymous pollData) in
      (inr poll,
       mkPolls (docs polls ++ [poll])
               (S (fresh polls) + List.length (pd_candidates pollData)))
  | paths => (inl paths, polls)
  end.

End Poll.

(** ** models/Vote.js *)

(** One group of the [$group] stage of [getSessionResults]. *)
Record Group := mkGroup {
  g_key : string;
  g_voteCount : nat;
  g_customCandidateCount : nat
}.

(** One projected entry of the [results] array. *)
Record ResultEntry := mkEntry {
  r_candidateName : string;
  r_voteCount : nat;
  r_customCandidateCount : nat
}.

Record Results := mkResults {
  results : list ResultEntry;
  totalVotes : nat;
  totalCandidates : nat;
  candidateNames : list string      (* the [candidates] field *)
}.

Record CandidateData := mkCandidateData {
  cd_candidateId : option ObjectId;
  cd_candidateName : string;
  cd_isCustomCandidate : bool
}.

Module Vote.

(** The key of the unique compound index [{ userId: 1, votingSessionId: 1 }];
    a missing session field is indexed as null. *)
Definition indexKey (v : VoteDoc) : ObjectId * option ObjectId :=
  (userId v, votingSessionId v).

Definition sameKey (uid : ObjectId) (sid : option ObjectId) (v : VoteDoc) : bool :=
  Nat.eqb (userId v) uid && optId_eqb (votingSessionId v) sid.

(** [VoteModel.findOne({ userId, votingSessionId })] *)
Definition findOne (db : Db) (uid sid : ObjectId) : option VoteDoc :=
  find (sameKey uid (Some sid)) (votes db).

(** [VoteModel.findOne({ userId, votingSessionId: { $exists: false } })] *)
Definition findOneLegacy (db : Db) (uid : ObjectId) : option VoteDoc :=
  find (sameKey uid None) (votes db).

(** The [required: true] validators of [voteSchema]; a required string is
    also rejected when empty, after the [trim: true] setter ran. *)
Definition missingPaths (d : VoteInit) : list string :=
  (match i_userId d with Some _ => [] | None => ["userId"] end) ++
  (match i_votingSessionId d with Some _ => [] | None => ["votingSessionId"] end) ++
  (match i_candidateName d with
   | Some name => if String.eqb (trim name) "" then ["candidateName"] else []
   | None => ["candidateName"]
   end).

(** [vote.save()]: schema validation, then the insert, which the unique
    index rejects when the key is taken.  Defaults: [timestamp] is
    [Date.now], [isCustomCandidate] is false. *)
Definition save (d : VoteInit) (now : Date) (db : Db) : (Thrown + VoteDoc) * Db :=
  match missingPaths d, i_userId d, i_candidateName d with
  | [], Some uid, Some name =>
      if existsb (sameKey uid (i_votingSessionId d)) (votes db)
      then (inl DuplicateKey, db)
      else
        let v := mkVote (nextId db) uid (i_votingSessionId d) (i_candidateId d)
                        (trim name) now
                        (match i_isCustomCandidate d with Some b => b | None => false end) in
        (inr v, mkDb (users db) (sessions db) (votes db ++ [v]) (S (nextId db)))
  | paths, _, _ => (inl (ValidationError paths), db)
  end.

(** Legacy method for the single global poll. *)
Definition createVote (uid : ObjectId) (name : string) (now : Date) (db : Db)
  : (Thrown + VoteDoc) * Db :=
  match findOneLegacy db uid with
  | Some existingVote =>
      if negb (String.eqb (candidateName existingVote) "")
      then (inl (Error "User has already voted"), db)
      else save (mkVoteInit (Some uid) None None (Some (trim name)) None) now db
  | None => save (mkVoteInit (Some uid) None None (Some (trim name)) None) now db
  end.

(** Session-scoped cast.  The value returned is the saved document, read
    back by [findById(vote._id)]. *)
Definition castVoteInSession (uid sid : ObjectId) (cd : CandidateData) (now : Date) (db : Db)
  : (Thrown + VoteDoc) * Db :=
  match findOne db uid sid with
  | Some _ => (inl (Error "User has already voted in this voting session"), db)
  | None =>
      save (mkVoteInit (Some uid) (Some sid) (cd_candidateId cd)
                       (Some (trim (cd_candidateName cd)))
                       (Some (cd_isCustomCandidate cd))) now db
  end.

(** [VoteModel.deleteMany(filter)] keeps the documents the filter misses. *)
Definition deleteMany (matches : VoteDoc -> bool) (db : Db) : nat * Db :=
  (List.length (filter matches (votes db)),
   withVotes db (filter (fun v => negb (matches v)) (votes db))).

Definition deleteAllVotes (db : Db) : bool * Db :=
  (true, snd (deleteMany (fun _ => true) db)).

Definition deleteVotesByUserId (uid : ObjectId) (db : Db) : bool * Db :=
  let '(deletedCount, db') := deleteMany (fun v => Nat.eqb (userId v) uid) db in
  (Nat.ltb 0 deletedCount, db').

Definition inSession (sid : ObjectId) (v : VoteDoc) : bool :=
  optId_eqb (votingSessionId v) (Some sid).

Definition deleteVotesBySessionId (sid : ObjectId) (db : Db) : bool * Db :=
  let '(deletedCount, db') := deleteMany (inSession sid) db in
  (Nat.ltb 0 deletedCount, db').

(** The [$group] stage: one accumulator per [_id: '$candidateName'], with
    [voteCount: { $sum: 1 }] and
    [customCandidateCount: { $sum: { $cond: ['$isCustomCandidate', 1, 0] } }]. *)
Definition cond (v : VoteDoc) : nat := if isCustomCandidate v then 1 else 0.

Fixpoint accumulate (v : VoteDoc) (groups : list Group) : list Group :=
  match groups with
  | [] => [mkGroup (candidateName v) 1 (cond v)]
  | g :: rest =>
      if String.eqb (g_key g) (candidateName v)
      then mkGroup (g_key g) (S (g_voteCount g)) (g_customCandidateCount g + cond v) :: rest
      else g :: accumulate v rest
  end.

Definition group (docs : list VoteDoc) : list Group :=
  fold_left (fun groups v => accumulate v groups) docs [].

(** The [$sort: { voteCount: -1 }] stage. *)
Definition sortByVoteCountDesc (groups : list Group) : list Group :=
  sortBy (fun a b => Nat.leb (g_voteCount b) (g_voteCount a)) groups.

(** The [$project] stage. *)
Definition project (g : Group) : ResultEntry :=
  mkEntry (g_key g) (g_voteCount g) (g_customCandidateCount g).

(** [VoteModel.aggregate([ $match, $group, $sort, $project ])] *)
Definition aggregate (sid : ObjectId) (db : Db) : list ResultEntry :=
  map project (sortByVoteCountDesc (group (filter (inSession sid) (votes db)))).

(** [VoteModel.countDocuments({ votingSessionId })] *)
Definition countDocuments (sid : ObjectId) (db : Db) : nat :=
  List.length (filter (inSession sid) (votes db)).

(** [VoteModel.distinct('candidateName', { votingSessionId })] *)
Definition distinct (sid : ObjectId) (db : Db) : list string :=
  nodup string_dec (map candidateName (filter (inSession sid) (votes db))).

Definition getSessionResults (sid : ObjectId) (db : Db) : Results :=
  let results := aggregate sid db in
  let totalVotes := countDocuments sid db in
  let candidates := distinct sid db in
  mkResults results totalVotes (List.length candidates) (sortBy String.leb candidates).

(** [find({ votingSessionId }).sort({ timestamp: -1 })] *)
Definition getSessionVotes (sid : ObjectId) (db : Db) : list VoteDoc :=
  sortBy (fun a b => Z.leb (timestamp b) (timestamp a)) (filter (inSession sid) (votes db)).

(** [VoteModel.findOne({ userId })]: a ballot of the user in any session. *)
Definition getUserVote (db : Db) (uid : ObjectId) : option VoteDoc :=
  find (fun v => Nat.eqb (userId v) uid) (votes db).

Definition hasUserVoted (db : Db) (uid : ObjectId) : bool :=
  match getUserVote db uid with Some _ => true | None => false end.

(** [VoteModel.findOne({ userId, votingSessionId })], populated. *)
Definition getUserVoteInSession (db : Db) (uid sid : ObjectId) : option VoteDoc :=
  findOne db uid sid.

Definition hasUserVotedInSession (db : Db) (uid sid : ObjectId) : bool :=
  match findOne db uid sid with Some _ => true | None => false end.

(** [VoteModel.find()] *)
Definition getAllVotes (db : Db) : list VoteDoc := votes db.

(** [VoteModel.find({ candidateName })] *)
Definition getVotesByCandidate (db : Db) (name : string) : list VoteDoc :=
  filter (fun v => String.eqb (candidateName v) name) (votes db).

(** The legacy results: the pipeline of [getSessionResults] without its
    [$match] stage, and unfiltered [countDocuments()] and [distinct]. *)
Definition getVoteResults (db : Db) : Results :=
  let results := map project (sortByVoteCountDesc (group (votes db))) in
  let totalVotes := List.length (votes db) in
  let candidates := nodup string_dec (map candidateName (votes db)) in
  mkResults results totalVotes (List.length candidates) (sortBy String.leb candidates).

Definition getAllCandidates (db : Db) : list string :=
  sortBy String.leb (nodup string_dec (map candidateName (votes db))).

Definition deleteSessionVotes (sid : ObjectId) (db : Db) : bool * Db :=
  let '(deletedCount, db') := deleteMany (inSession sid) db in
  (Nat.ltb 0 deletedCount, db').

(** One element of the array [getUserVotes] returns. *)
Record UserVoteView := mkUserVoteView {
  uv_id : ObjectId;
  uv_votingSession : ObjectId;
  uv_votingSessionTitle : string;
  uv_candidateName : string;
  uv_isCustomCandidate : bool;
  uv_timestamp : Date
}.

(** [populate('votingSessionId', 'title status')]: null when the ballot
    names no session or a session that is gone. *)
Definition populateSession (db : Db) (v : VoteDoc) : option SessionDoc :=
  match votingSessionId v with
  | Some sid => VotingSession.findById db sid
  | None => None
  end.

(** [votes.map(vote => ({ ..., votingSession: vote.votingSessionId._id, ... }))]:
    the callback throws on the first ballot whose session is null. *)
Fixpoint userVoteViews (db : Db) (ballots : list VoteDoc) : TypeError + list UserVoteView :=
  match ballots with
  | [] => inr []
  | vote :: rest =>
      match populateSession db vote with
      | None => inl (CannotReadProperty "_id")
      | Some session =>
          match userVoteViews db rest with
          | inl e => inl e
          | inr views =>
              inr (mkUserVoteView (v_id vote) (s_id session) (title session)
                                  (candidateName vote) (isCustomCandidate vote)
                                  (timestamp vote) :: views)
          end
      end
  end.

(** [find({ userId }).populate(...).sort({ timestamp: -1 })], then the map;
    the [catch] block rethrows. *)
Definition getUserVotes (db : Db) (uid : ObjectId) : TypeError + list UserVoteView :=
  userVoteViews db
    (sortBy (fun a b => Z.leb (timestamp b) (timestamp a))
            (filter (fun v => Nat.eqb (userId v) uid) (votes db))).

End Vote.

(** ** HTTP responses *)

(** A vote as [getVotingSessionById] returns it; [vv_user] is the populated
    [userId] (username and email), null when the user is gone. *)
Record VoteView := mkVoteView {
  vv_id : ObjectId;
  vv_candidateName : string;
  vv_user : option (ObjectId * string * string);
  vv_timestamp : Date;
  vv_isCustomCandidate : bool
}.

Inductive Payload :=
| NoPayload
| VotePayload (vote : VoteDoc)
| ResultsPayload (votingSession : SessionDoc) (r : Results)
| SessionPayload (votingSession : SessionDoc) (r : Results) (votes : list VoteView)
| DeletedUserPayload (deletedUser : option UserDoc).

(** [res.status(code).json({ message, ... })] *)
Record Response := mkResponse {
  res_status : nat;
  res_message : string;
  res_payload : Payload
}.

Definition reply (code : nat) (msg : string) : Response :=
  mkResponse code msg NoPayload.

(** The error taxonomy of the design: how a response reads as an error
    kind.  Status 400 carries both invalid input and invalid state; the
    messages about the session's status, time window and candidate policy
    are the invalid-state ones. *)
Inductive ErrorKind :=
| InvalidInput | InvalidState | Unauthenticated | Forbidden
| NotFound | Conflict | Internal.

Definition stateMessages : list string :=
  [ "Voting session is not active";
    "Voting session has not started yet";
    "Voting session has ended";
    "Adding new candidates is not allowed for this voting session";
    "Poll is not currently active" ].

Definition errorKind (r : Response) : option ErrorKind :=
  match res_status r with
  | 400 => if existsb (String.eqb (res_message r)) stateMessages
           then Some InvalidState else Some InvalidInput
  | 401 => Some Unauthenticated
  | 403 => Some Forbidden
  | 404 => Some NotFound
  | 409 => Some Conflict
  | 500 => Some Internal
  | _ => None
  end.

(** A response whose payload is typed by the handler that sends it. *)
Record Answer (A : Type) := mkAnswer {
  ans_status : nat;
  ans_message : string;
  ans_body : option A
}.

Arguments mkAnswer {A} _ _ _.
Arguments ans_status {A} _.
Arguments ans_message {A} _.
Arguments ans_body {A} _.

(** [res.status(code).json({ message })] *)
Definition refuse {A : Type} (code : nat) (msg : string) : Answer A :=
  mkAnswer code msg None.

(** [res.json({ message, ...payload })], status 200 unless set. *)
Definition send {A : Type} (code : nat) (msg : string) (payload : A) : Answer A :=
  mkAnswer code msg (Some payload).

(** ** middleware/auth.js *)

(** [s.split(sep)] for a one-character separator. *)
Fixpoint split (sep : ascii) (s : string) : list string :=
  match s with
  | EmptyString => [EmptyString]
  | String c rest =>
      if Ascii.eqb c sep then EmptyString :: split sep rest
      else match split sep rest with
           | [] => [String c EmptyString]
           | piece :: pieces => String c piece :: pieces
           end
  end.

Inductive Passed :=
| Next (reqUser : UserDoc)     (* req.user = fullUser; next() *)
| Rejected (r : Response).

Module auth.

(** [authHeader && authHeader.split(' ')[1]]: [None] stands for a value that
    is [undefined] or the empty header. *)
Definition bearerToken (authHeader : option string) : option string :=
  match authHeader with
  | None => None
  | Some h => if String.eqb h "" then None else nth_error (split " "%char h) 1
  end.

Section WithSecret.

(** [jwt.verify(token, process.env.JWT_SECRET)]: [None] when it throws
    (bad signature, malformed or expired token), else [decoded.id]. *)
Variable verify : string -> option ObjectId.

Definition authenticateToken (authHeader : option string) (db : Db) : Passed :=
  match bearerToken authHeader with
  | None => Rejected (reply 401 "Access token required")
  | Some tok =>
      if String.eqb tok "" then Rejected (reply 401 "Access token required")
      else
        match verify tok with
        | None => Rejected (reply 403 "Invalid or expired token")
        | Some id =>
            match User.findById db id with
            | None => Rejected (reply 404 "User not found")
            | Some fullUser => Next fullUser
            end
        end
  end.

End WithSecret.

Definition requireAdmin (reqUser : UserDoc) : Passed :=
  if negb (Role_eqb (role reqUser) admin)
  then Rejected (reply 403 "Admin access required")
  else Next reqUser.

Definition requireUser (reqUser : UserDoc) : Passed :=
  if negb (Role_eqb (role reqUser) admin) && negb (Role_eqb (role reqUser) user)
  then Rejected (reply 403 "User access required")
  else Next reqUser.

End auth.

(** ** controllers/voteController.js *)

(** [req.body] of POST /voting-sessions/vote. *)
Record CastBody := mkCastBody {
  b_votingSessionId : option ObjectId;
  b_candidateName : option string;
  b_candidateId : option ObjectId;
  b_isCustomCandidate : option bool
}.

Module voteController.

(** [now < votingSession.startDate] guarded by the date being set. *)
Definition notStarted (votingSession : SessionDoc) (now : Date) : bool :=
  match startDate votingSession with
  | Some start => Z.ltb now start
  | None => false
  end.

(** [now > votingSession.endDate] guarded by the date being set. *)
Definition hasEnded (votingSession : SessionDoc) (now : Date) : bool :=
  match endDate votingSession with
  | Some finish => Z.gtb now finish
  | None => false
  end.

(** [votingSession.candidates.some(c => c._id.toString() === candidateId)],
    under [!isCustomCandidate && candidateId]. *)
Definition candidateMissing (votingSession : SessionDoc) (isCustom : bool)
  (cid : option ObjectId) : bool :=
  match cid with
  | Some id => negb isCustom && negb (existsb (fun c => Nat.eqb (c_id c) id) (candidates votingSession))
  | None => false
  end.

(** The [catch] block of [castVoteInSession]. *)
Definition castCatch (error : Thrown) : Response :=
  if String.eqb (errorMessage error) "User has already voted in this voting session"
  then reply 409 (errorMessage error)
  else reply 500 "Server error during vote casting".

Definition castVoteInSession (body : CastBody) (reqUser : UserDoc) (now : Date) (db : Db)
  : Response * Db :=
  let isCustom := match b_isCustomCandidate body with Some b => b | None => false end in
  let uid := u_id reqUser in
  match b_votingSessionId body with
  | None => (reply 400 "Voting session ID is required", db)
  | Some sid =>
  if blank (b_candidateName body)
  then (reply 400 "Candidate name is required", db) else
  let name := match b_candidateName body with Some s => s | None => "" end in
  match VotingSession.findById db sid with
  | None => (reply 404 "Voting session not found", db)
  | Some votingSession =>
  if negb (VotingSession.isUserAssignedToSession db sid uid)
  then (reply 403 "You are not assigned to this voting session", db) else
  if negb (SessionStatus_eqb (status votingSession) active)
  then (reply 400 "Voting session is not active", db) else
  if notStarted votingSession now
  then (reply 400 "Voting session has not started yet", db) else
  if hasEnded votingSession now
  then (reply 400 "Voting session has ended", db) else
  if isCustom && negb (allowNewCandidates votingSession)
  then (reply 400 "Adding new candidates is not allowed for this voting session", db) else
  if candidateMissing votingSession isCustom (b_candidateId body)
  then (reply 400 "Candidate not found in this voting session", db) else
  let candidateData := mkCandidateData (b_candidateId body) (trim name) isCustom in
  match Vote.castVoteInSession uid sid candidateData now db with
  | (inr vote, db') => (mkResponse 201 "Vote cast successfully" (VotePayload vote), db')
  | (inl error, db') => (castCatch error, db')
  end
  end
  end.

(** Legacy cast, POST /votes. *)
Definition castVote (name : option string) (reqUser : UserDoc) (now : Date) (db : Db)
  : Response * Db :=
  if blank name
  then (reply 400 "Candidate name is required", db) else
  let trimmedCandidateName := trim (match name with Some s => s | None => "" end) in
  match Vote.createVote (u_id reqUser) trimmedCandidateName now db with
  | (inr vote, db') => (mkResponse 201 "Vote cast successfully" (VotePayload vote), db')
  | (inl error, db') =>
      if String.eqb (errorMessage error) "User has already voted"
      then (reply 409 (errorMessage error), db')
      else (reply 500 "Server error during vote casting", db')
  end.

(** GET /voting-sessions/:votingSessionId/results *)
Definition getSessionResults (sid : ObjectId) (reqUser : UserDoc) (db : Db) : Response :=
  match VotingSession.findById db sid with
  | None => reply 404 "Voting session not found"
  | Some votingSession =>
      if negb (Role_eqb (role reqUser) admin)
         && negb (VotingSession.isUserAssignedToSession db sid (u_id reqUser))
      then reply 403 "You are not assigned to this voting session"
      else mkResponse 200 "Voting session results retrieved successfully"
             (ResultsPayload votingSession (Vote.getSessionResults sid db))
  end.

(** DELETE /votes/all *)
Definition deleteAllVotes (db : Db) : Response * Db :=
  (reply 200 "All votes deleted successfully", snd (Vote.deleteAllVotes db)).

(** The test of [castVoteInPoll] that answers 'Poll is not currently
    active': [poll.status !== 'active' || poll.startDate > now ||
    poll.endDate <= now], with the poll's status read as active or not. *)
Definition pollNotCurrentlyActive (pollActive : bool) (start finish now : Date) : bool :=
  negb pollActive || Z.gtb start now || Z.leb finish now.

(** GET /votes/user/my-votes *)
Definition getUserVotes (reqUser : UserDoc) (db : Db)
  : Answer (list Vote.UserVoteView * nat) :=
  match Vote.getUserVotes db (u_id reqUser) with
  | inr votes => send 200 "User votes retrieved successfully" (votes, List.length votes)
  | inl _ => refuse 500 "Server error retrieving user votes"
  end.

(** GET /votes/results *)
Definition getResults (db : Db) : Answer Results :=
  send 200 "Vote results retrieved successfully" (Vote.getVoteResults db).

(** GET /votes/candidates *)
Definition getCandidates (db : Db) : Answer (list string) :=
  send 200 "Candidates retrieved successfully" (Vote.getAllCandidates db).

End voteController.

(** ** controllers/userController.js *)

Module userController.

(** What an identifier is bound to where the body of [deleteUser] runs. *)
Inductive Binding :=
| IdValue (id : ObjectId)   (* a route parameter *)
| Object.                   (* a request, a response, a model or a function *)

(** The bindings in scope in [deleteUser]: its parameters, the [id] it
    destructures from [req.params], and the constants of the module. *)
Definition deleteUserScope (id : ObjectId) : list (string * Binding) :=
  [ ("req", Object); ("res", Object); ("id", IdValue id);
    ("User", Object); ("Vote", Object);
    ("getAllUsers", Object); ("getUsersWithVoteStatus", Object);
    ("getUserById", Object); ("deleteUser", Object); ("getUserStats", Object) ].

Fixpoint resolve (ident : string) (scope : list (string * Binding)) : Thrown + Binding :=
  match scope with
  | [] => inl (ReferenceError ident)
  | (name, b) :: outer => if String.eqb name ident then inr b else resolve ident outer
  end.

(** DELETE /users/:id.  The model calls are not awaited: [userToDelete] and
    [deletedUser] are pending promises, which are truthy and have no
    [role], so neither 'User not found' nor 'Cannot delete admin users' can
    be answered from them. *)
Definition deleteUser (id : ObjectId) (reqUser : UserDoc) (db : Db) : Response * Db :=
  if Nat.eqb id (u_id reqUser)
  then (reply 403 "Cannot delete your own account", db) else
  match resolve "userId" (deleteUserScope id) with
  | inl _ => (reply 500 "Server error deleting user", db)
  | inr Object => (reply 500 "Server error deleting user", db)
  | inr (IdValue userId) =>
      let '(_, db1) := Vote.deleteVotesByUserId userId db in
      let '(_, db2) := User.deleteById db1 userId in
      (mkResponse 200 "User and associated votes deleted successfully"
                  (DeletedUserPayload None), db2)
  end.

(** A user with the voting status [getUserById] and
    [getUsersWithVoteStatus] add. *)
Record UserWithVote := mkUserWithVote {
  uw_user : UserDoc;
  uw_hasVoted : bool;
  uw_votedFor : option string;
  uw_voteTimestamp : option Date
}.

Definition withVoteStatus (db : Db) (u : UserDoc) : UserWithVote :=
  let hasVoted := Vote.hasUserVoted db (u_id u) in
  let userVote := if hasVoted then Vote.getUserVote db (u_id u) else None in
  mkUserWithVote u hasVoted
    (match userVote with Some v => Some (candidateName v) | None => None end)
    (match userVote with Some v => Some (timestamp v) | None => None end).


(** GET /users/with-votes: the payload is the users, their number and
    [votedCount]. *)
Definition getUsersWithVoteStatus (db : Db) : Answer (list UserWithVote * nat * nat) :=
  let usersWithVoteStatus := map (withVoteStatus db) (User.findAllUsers db) in
  send 200 "Users with vote status retrieved successfully"
       (usersWithVoteStatus, List.length usersWithVoteStatus,
        List.length (filter uw_hasVoted usersWithVoteStatus)).

(** GET /users/:id *)
Definition getUserById (id : ObjectId) (db : Db) : Answer UserWithVote :=
  match User.findById db id with
  | None => refuse 404 "User not found"
  | Some u => send 200 "User retrieved successfully" (withVoteStatus db u)
  end.

Record Stats := mkStats {
  st_totalUsers : nat;
  st_regularUsers : nat;
  st_adminUsers : nat;
  st_usersWhoVoted : nat;
  st_usersWhoNotVoted : nat;
  st_totalVotes : nat
}.

(** GET /users/stats.  [Vote.getAllVotes] populates [userId]; the callback
    [vote => vote.userId._id?.toString() || vote.userId.toString()] throws
    on a ballot whose user is gone, and the handler answers 500.
    [regularUsers.length - usersWhoVoted.length] is a subtraction of
    numbers, which never goes below zero here. *)
Definition getUserStats (db : Db) : Answer Stats :=
  let allUsers := User.findAll db in
  let regularUsers := User.findAllUsers db in
  let adminUsers := filter (fun u => Role_eqb (role u) admin) allUsers in
  let allVotes := Vote.getAllVotes db in
  if forallb (fun vote => match User.findById db (userId vote) with
                          | Some _ => true
                          | None => false
                          end) allVotes
  then
    let votedUserIds := map userId allVotes in
    let usersWhoVoted :=
      filter (fun u => existsb (Nat.eqb (u_id u)) votedUserIds) regularUsers in
    send 200 "User statistics retrieved successfully"
         (mkStats (List.length allUsers) (List.length regularUsers)
                  (List.length adminUsers) (List.length usersWhoVoted)
                  (List.length regularUsers - List.length usersWhoVoted)
                  (List.length allVotes))
  else refuse 500 "Server error retrieving user statistics".

End userController.

(** ** controllers/votingSessionController.js *)

Module votingSessionController.

(** [populate('userId', 'username email')] *)
Definition populateUser (db : Db) (uid : ObjectId) : option (ObjectId * string * string) :=
  match User.findById db uid with
  | Some u => Some (u_id u, username u, email u)
  | None => None
  end.

Definition voteView (db : Db) (vote : VoteDoc) : VoteView :=
  mkVoteView (v_id vote) (candidateName vote) (populateUser db (userId vote))
             (timestamp vote) (isCustomCandidate vote).

(** GET /voting-sessions/:id *)
Definition getVotingSessionById (id : ObjectId) (reqUser : UserDoc) (db : Db) : Response :=
  match VotingSession.findById db id with
  | None => reply 404 "Voting session not found"
  | Some votingSession =>
      let results := Vote.getSessionResults id db in
      let votes := Vote.getSessionVotes id db in
      mkResponse 200 "Voting session retrieved successfully"
                 (SessionPayload votingSession results (map (voteView db) votes))
  end.

(** DELETE /voting-sessions/:id *)
Definition deleteVotingSession (id : ObjectId) (db : Db) : Response * Db :=
  match VotingSession.deleteById db id with
  | (None, db1) => (reply 404 "Voting session not found", db1)
  | (Some _, db1) =>
      (reply 200 "Voting session and associated votes deleted successfully",
       snd (Vote.deleteVotesBySessionId id db1))
  end.

(** POST /voting-sessions/:id/assign-users; [None] stands for a [userIds]
    that is not an array. *)
Definition assignUsersToSession (id : ObjectId) (userIds : option (list ObjectId)) (db : Db)
  : Answer SessionDoc * Db :=
  match userIds with
  | None | Some [] => (refuse 400 "User IDs array is required", db)
  | Some ids =>
      if negb (forallb (fun uid => match User.findById db uid with
                                   | Some _ => true
                                   | None => false
                                   end) ids)
      then (refuse 400 "Some user IDs are invalid", db)
      else
        match VotingSession.assignUsersToSession db id ids with
        | (None, db') => (refuse 404 "Voting session not found", db')
        | (Some votingSession, db') =>
            (send 200 "Users assigned to voting session successfully" votingSession, db')
        end
  end.

(** POST /voting-sessions/:id/remove-users *)
Definition removeUsersFromSession (id : ObjectId) (userIds : option (list ObjectId)) (db : Db)
  : Answer SessionDoc * Db :=
  match userIds with
  | None | Some [] => (refuse 400 "User IDs array is required", db)
  | Some ids =>
      match VotingSession.removeUsersFromSession db id ids with
      | (None, db') => (refuse 404 "Voting session not found", db')
      | (Some votingSession, db') =>
          (send 200 "Users removed from voting session successfully" votingSession, db')
      end
  end.

(** POST /voting-sessions/:id/candidates; [description] defaults to ''.
    The payload is the session and [addedCandidate]. *)
Definition addCandidateToSession (id : ObjectId) (name description : option string) (db : Db)
  : Answer (SessionDoc * (string * string)) * Db :=
  if blank name
  then (refuse 400 "Candidate name is required", db) else
  let candidateName := trim (match name with Some n => n | None => "" end) in
  let candidateDescription := trim (match description with Some d => d | None => "" end) in
  match VotingSession.addCandidate db id candidateName candidateDescription with
  | (None, db') => (refuse 404 "Voting session not found", db')
  | (Some votingSession, db') =>
      (send 200 "Candidate added to voting session successfully"
            (votingSession, (candidateName, candidateDescription)), db')
  end.

(** DELETE /voting-sessions/:id/candidates/:candidateId *)
Definition removeCandidateFromSession (id candidateId : ObjectId) (db : Db)
  : Answer SessionDoc * Db :=
  match VotingSession.removeCandidate db id candidateId with
  | (None, db') => (refuse 404 "Voting session not found", db')
  | (Some votingSession, db') =>
      (send 200 "Candidate removed from voting session successfully" votingSession, db')
  end.

(** A session with the voting status [getUserVotingSessions] adds. *)
Record SessionWithVote := mkSessionWithVote {
  sw_session : SessionDoc;
  sw_hasVoted : bool;
  sw_userVote : option (string * Date * bool)
}.

(** GET /voting-sessions/my-sessions *)
Definition getUserVotingSessions (reqUser : UserDoc) (now : Date) (db : Db)
  : Answer (list SessionWithVote * nat) :=
  let userId := u_id reqUser in
  let votingSessions := VotingSession.getActiveSessionsForUser db userId now in
  let sessionsWithVoteStatus :=
    map (fun session =>
           let hasVoted := Vote.hasUserVotedInSession db userId (s_id session) in
           let userVote :=
             if hasVoted then Vote.getUserVoteInSession db userId (s_id session) else None in
           mkSessionWithVote session hasVoted
             (match userVote with
              | Some v => Some (candidateName v, timestamp v, isCustomCandidate v)
              | None => None
              end)) votingSessions in
  send 200 "User voting sessions retrieved successfully"
       (sessionsWithVoteStatus, List.length sessionsWithVoteStatus).

(** [req.body] of POST /voting-sessions.  Dates are the parsed values of
    the date strings sent. *)
Record SessionBody := mkSessionBody {
  sb_title : option string;
  sb_description : option string;
  sb_candidates : list (option string * option string);
  sb_assignedUsers : list ObjectId;
  sb_allowNewCandidates : option bool;
  sb_startDate : option Date;
  sb_endDate : option Date
}.

(** POST /voting-sessions.  [multipleChoice] and [maxChoices] of the body
    only set fields that no modelled handler reads. *)
Definition createVotingSession (body : SessionBody) (reqUser : UserDoc) (db : Db)
  : Answer SessionDoc * Db :=
  if blank (sb_title body)
  then (refuse 400 "Title is required", db) else
  let invalidUsers :=
    filter (fun uid => negb (existsb (fun u => Nat.eqb (u_id u) uid) (User.findAll db)))
           (sb_assignedUsers body) in
  if Nat.ltb 0 (List.length invalidUsers)
  then (refuse 400 "Some assigned users do not exist", db) else
  match VotingSession.create
          (trim (match sb_title body with Some t => t | None => "" end))
          (match sb_description body with Some d => Some (trim d) | None => None end)
          (map (fun c => (match fst c with Some n => Some (trim n) | None => None end,
                          match snd c with Some d => trim d | None => "" end))
               (sb_candidates body))
          (sb_assignedUsers body)
          (match sb_allowNewCandidates body with Some b => b | None => false end)
          (sb_startDate body) (sb_endDate body) (u_id reqUser) db with
  | (inr votingSession, db') =>
      (send 201 "Voting session created successfully" votingSession, db')
  | (inl _, db') => (refuse 500 "Server error creating voting session", db')
  end.

End votingSessionController.

(** ** controllers/pollController.js *)

(** [req.body] of POST /polls; dates are the parsed values of the date
    strings sent. *)
Record PollBody := mkPollBody {
  pb_title : option string;
  pb_description : option string;
  pb_candidates : list (option string * option string);
  pb_assignedUsers : list ObjectId;
  pb_startDate : option Date;
  pb_endDate : option Date;
  pb_allowNewCandidates : option bool;
  pb_maxVotesPerUser : option Z;
  pb_isAnonymous : option bool
}.

Module pollController.

(** [!value] on an optional string. *)
Definition falsy (value : option string) : bool :=
  match value with
  | None => true
  | Some s => String.eqb s ""
  end.

(** POST /polls *)
Definition createPoll (body : PollBody) (reqUser : UserDoc) (now : Date)
  (db : Db) (polls : Poll.Polls) : Answer Poll.PollDoc * Poll.Polls :=
  match pb_startDate body, pb_endDate body with
  | Some start, Some finish =>
      if falsy (pb_title body) || falsy (pb_description body)
      then (refuse 400 "Title, description, start date, and end date are required", polls) else
      if Z.ltb start now
      then (refuse 400 "Start date cannot be in the past", polls) else
      if Z.leb finish start
      then (refuse 400 "End date must be after start date", polls) else
      let invalidUsers :=
        filter (fun uid => negb (existsb (fun u => Nat.eqb (u_id u) uid) (User.findAll db)))
               (pb_assignedUsers body) in
      if Nat.ltb 0 (List.length invalidUsers)
      then (refuse 400 "Some assigned users do not exist", polls) else
      let pollData :=
        Poll.mkPollData
          (match pb_title body with Some t => t | None => "" end)
          (match pb_description body with Some d => d | None => "" end)
          (map (fun c => (fst c, match snd c with Some d => d | None => "" end))
               (pb_candidates body))
          (pb_assignedUsers body) (u_id reqUser) start finish
          (match pb_allowNewCandidates body with Some b => b | None => true end)
          (match pb_maxVotesPerUser body with Some n => n | None => 1%Z end)
          (match pb_isAnonymous body with Some b => b | None => false end)
          Poll.draft in
      match Poll.createPoll pollData polls with
      | (inr poll, polls') =>
          (mkAnswer 201 "Poll created successfully" (Poll.findById polls' (Poll.p_id poll)),
           polls')
      | (inl _, polls') => (refuse 500 "Server error creating poll", polls')
      end
  | _, _ => (refuse 400 "Title, description, start date, and end date are required", polls)
  end.


(** [poll.createdBy._id.toString() === req.user._id.toString()] on the
    populated creator: reading [_id] of a creator who is gone throws. *)
Definition isCreator (db : Db) (poll : Poll.PollDoc) (reqUser : UserDoc)
  : TypeError + bool :=
  match User.findById db (Poll.p_createdBy poll) with
  | None => inl (CannotReadProperty "_id")
  | Some creator => inr (Nat.eqb (u_id creator) (u_id reqUser))
  end.

(** POST /polls/:pollId/activate *)
Definition activatePoll (pollId : ObjectId) (reqUser : UserDoc)
  (db : Db) (polls : Poll.Polls) : Answer Poll.PollDoc * Poll.Polls :=
  match Poll.findById polls pollId with
  | None => (refuse 404 "Poll not found", polls)
  | Some poll =>
      let isAdmin := Role_eqb (role reqUser) admin in
      match isCreator db poll reqUser with
      | inl _ => (refuse 500 "Server error activating poll", polls)
      | inr creator =>
          if negb isAdmin && negb creator
          then (refuse 403 "Access denied", polls) else
          if negb (Poll.Status_eqb (Poll.p_status poll) Poll.draft)
          then (refuse 400 "Only draft polls can be activated", polls) else
          let '(updatedPoll, polls') := Poll.activatePoll polls pollId in
          (mkAnswer 200 "Poll activated successfully" updatedPoll, polls')
      end
  end.

(** POST /polls/:pollId/end *)
Definition endPoll (pollId : ObjectId) (reqUser : UserDoc)
  (db : Db) (polls : Poll.Polls) : Answer Poll.PollDoc * Poll.Polls :=
  match Poll.findById polls pollId with
  | None => (refuse 404 "Poll not found", polls)
  | Some poll =>
      let isAdmin := Role_eqb (role reqUser) admin in
      match isCreator db poll reqUser with
      | inl _ => (refuse 500 "Server error ending poll", polls)
      | inr creator =>
          if negb isAdmin && negb creator
          then (refuse 403 "Access denied", polls) else
          if Poll.Status_eqb (Poll.p_status poll) Poll.ended
          then (refuse 400 "Poll is already ended", polls) else
          let '(updatedPoll, polls') := Poll.endPoll polls pollId in
          (mkAnswer 200 "Poll ended successfully" updatedPoll, polls')
      end
  end.

(** POST /polls/:pollId/assign; [None] stands for a [userIds] that is not
    an array. *)
Definition assignUsers (pollId : ObjectId) (userIds : option (list ObjectId))
  (reqUser : UserDoc) (db : Db) (polls : Poll.Polls) : Answer Poll.PollDoc * Poll.Polls :=
  match userIds with
  | None | Some [] => (refuse 400 "User IDs array is required", polls)
  | Some ids =>
      match Poll.findById polls pollId with
      | None => (refuse 404 "Poll not found", polls)
      | Some poll =>
          let isAdmin := Role_eqb (role reqUser) admin in
          match isCreator db poll reqUser with
          | inl _ => (refuse 500 "Server error assigning users", polls)
          | inr creator =>
              if negb isAdmin && negb creator
              then (refuse 403 "Access denied", polls) else
              let '(updatedPoll, polls') := Poll.assignUsers polls pollId ids in
              (mkAnswer 200 "Users assigned successfully" updatedPoll, polls')
          end
      end
  end.

(** POST /polls/:pollId/remove *)
Definition removeUsers (pollId : ObjectId) (userIds : option (list ObjectId))
  (reqUser : UserDoc) (db : Db) (polls : Poll.Polls) : Answer Poll.PollDoc * Poll.Polls :=
  match userIds with
  | None | Some [] => (refuse 400 "User IDs array is required", polls)
  | Some ids =>
      match Poll.findById polls pollId with
      | None => (refuse 404 "Poll not found", polls)
      | Some poll =>
          let isAdmin := Role_eqb (role reqUser) admin in
          match isCreator db poll reqUser with
          | inl _ => (refuse 500 "Server error removing users", polls)
          | inr creator =>
              if negb isAdmin && negb creator
              then (refuse 403 "Access denied", polls) else
              let '(updatedPoll, polls') := Poll.removeUsers polls pollId ids in
              (mkAnswer 200 "Users removed successfully" updatedPoll, polls')
          end
      end
  end.

(** DELETE /polls/:pollId.  After the permission check the handler calls
    [Vote.deletePollVotes], which the class [Vote] does not define: the
    call throws before [Poll.deletePoll] is reached. *)
Definition deletePoll (pollId : ObjectId) (reqUser : UserDoc)
  (db : Db) (polls : Poll.Polls) : Answer unit * Poll.Polls :=
  match Poll.findById polls pollId with
  | None => (refuse 404 "Poll not found", polls)
  | Some poll =>
      let isAdmin := Role_eqb (role reqUser) admin in
      match isCreator db poll reqUser with
      | inl _ => (refuse 500 "Server error deleting poll", polls)
      | inr creator =>
          if negb isAdmin && negb creator
          then (refuse 403 "Access denied", polls)
          else (refuse 500 "Server error deleting poll", polls)
      end
  end.

End pollController.

(** ** routes/votingSessions.js *)

Module votingSessionsRouter.

Section WithSecret.

Variable verify : string -> option ObjectId.

(** [router.get('/:id', authenticateToken, getVotingSessionById)] *)
Definition get_id (authHeader : option string) (id : ObjectId) (db : Db) : Response :=
  match auth.authenticateToken verify authHeader db with
  | Rejected r => r
  | Next reqUser => votingSessionController.getVotingSessionById id reqUser db
  end.

(** [router.get('/:votingSessionId/results', authenticateToken, getSessionResults)] *)
Definition get_results (authHeader : option string) (sid : ObjectId) (db : Db) : Response :=
  match auth.authenticateToken verify authHeader db with
  | Rejected r => r
  | Next reqUser => voteController.getSessionResults sid reqUser db
  end.

(** [router.post('/vote', authenticateToken, castVoteInSession)] *)
Definition post_vote (authHeader : option string) (body : CastBody) (now : Date) (db : Db)
  : Response * Db :=
  match auth.authenticateToken verify authHeader db with
  | Rejected r => (r, db)
  | Next reqUser => voteController.castVoteInSession body reqUser now db
  end.

End WithSecret.

End votingSessionsRouter.

(** ** Reachable stores *)

(** Every write to the ballot collection goes through one of the modelled
    handlers; users and sessions change freely. *)
Inductive Write :=
| CastInSession (body : CastBody) (reqUser : UserDoc) (now : Date)
| CastLegacy (name : option string) (reqUser : UserDoc) (now : Date)
| DeleteUser (id : ObjectId) (reqUser : UserDoc)
| DeleteSession (id : ObjectId)
| DeleteAllVotes
| DeleteVotesOfUser (uid : ObjectId)
| Administer (newUsers : list UserDoc) (newSessions : list SessionDoc).

Definition perform (w : Write) (db : Db) : Db :=
  match w with
  | CastInSession body reqUser now => snd (voteController.castVoteInSession body reqUser now db)
  | CastLegacy name reqUser now => snd (voteController.castVote name reqUser now db)
  | DeleteUser id reqUser => snd (userController.deleteUser id reqUser db)
  | DeleteSession id => snd (votingSessionController.deleteVotingSession id db)
  | DeleteAllVotes => snd (voteController.deleteAllVotes db)
  | DeleteVotesOfUser uid => snd (Vote.deleteVotesByUserId uid db)
  | Administer newUsers newSessions => mkDb newUsers newSessions (votes db) (nextId db)
  end.


(** The number of ballots of user [uid] in session [sid]. *)
Definition ballotsOf (uid sid : ObjectId) (db : Db) : nat :=
  List.length (filter (Vote.sameKey uid (Some sid)) (votes db)).

(** The unique index holds of the collection. *)
Definition uniqueIndex (db : Db) : Prop :=
  NoDup (map Vote.indexKey (votes db)).

(** ** Counting ballots *)

(** The ballots of a list that name candidate [n], and those among them
    that were custom submissions. *)
Definition votesFor (n : string) (docs : list VoteDoc) : nat :=
  List.length (filter (fun v => String.eqb (candidateName v) n) docs).

Definition customVotesFor (n : string) (docs : list VoteDoc) : nat :=
  List.length (filter (fun v => String.eqb (candidateName v) n && isCustomCandidate v) docs).

(** The counts that a list of groups holds for key [n]. *)
Definition countIn (n : string) (groups : list Group) : nat :=
  list_sum (map g_voteCount (filter (fun g => String.eqb (g_key g) n) groups)).

Definition customIn (n : string) (groups : list Group) : nat :=
  list_sum (map g_customCandidateCount (filter (fun g => String.eqb (g_key g) n) groups)).

(** ** The guards of a cast *)

(** The guards of [castVoteInSession] that a request has to pass before
    the ballot model is called. *)
Definition passesGuards (body : CastBody) (reqUser : UserDoc) (now : Date) (db : Db)
  (sid : ObjectId) (s : SessionDoc) : Prop :=
  let isCustom := match b_isCustomCandidate body with Some b => b | None => false end in
  b_votingSessionId body = Some sid /\
  blank (b_candidateName body) = false /\
  VotingSession.findById db sid = Some s /\
  VotingSession.isUserAssignedToSession db sid (u_id reqUser) = true /\
  status s = active /\
  voteController.notStarted s now = false /\
  voteController.hasEnded s now = false /\
  isCustom && negb (allowNewCandidates s) = false /\
  voteController.candidateMissing s isCustom (b_candidateId body) = false.

Definition candidateDataOf (body : CastBody) : CandidateData :=
  mkCandidateData (b_candidateId body)
    (trim (match b_candidateName body with Some n => n | None => "" end))
    (match b_isCustomCandidate body with Some b => b | None => false end).

(** Case analysis on the next guard of a handler. *)
Ltac peel_guard :=
  match goal with
  | |- context [if ?c then _ else _] => destruct c eqn:?
  | |- context [match ?o with Some _ => _ | None => _ end] => destruct o eqn:?
  end.

(** ** Sample data *)

Definition root : UserDoc := mkUser 1 "admin" "admin@voting-app.com" admin.
Definition alice : UserDoc := mkUser 2 "alice" "alice@example.com" user.
Definition bob : UserDoc := mkUser 3 "bob" "bob@example.com" user.
Definition carol : UserDoc := mkUser 4 "carol" "carol@example.com" user.
Definition dave : UserDoc := mkUser 6 "dave" "dave@example.com" user.

Definition people : list UserDoc := [root; alice; bob; carol; dave].

(** A session with candidates Alice and Bob, open from 100 to 200, to
    which alice, bob and carol are assigned and dave is not. *)
Definition board (st : SessionStatus) : SessionDoc :=
  mkSession 10 "Board election"
            [mkCandidate 11 "Alice" ""; mkCandidate 12 "Bob" ""]
            [2; 3; 4] st (Some 100%Z) (Some 200%Z) false 1.

(** A second session, without candidates or dates. *)
Definition annex : SessionDoc :=
  mkSession 30 "Annex" [] [2] active None None true 1.

Definition sampleDb (st : SessionStatus) : Db :=
  mkDb people [board st] [] 20.

(** Three ballots in session 10: two for "A", one of them a custom
    submission, and one for "B"; and one ballot in the other session. *)
Definition tallyDb : Db :=
  mkDb people [board active; annex]
       [ mkVote 20 2 (Some 10) None "A" 110%Z false;
         mkVote 21 3 (Some 10) None "B" 120%Z false;
         mkVote 22 4 (Some 10) None "A" 130%Z true;
         mkVote 23 2 (Some 30) None "C" 140%Z false ] 24.

(** A second administrator, and a store that holds it. *)
Definition deputy : UserDoc := mkUser 5 "admin2" "admin2@example.com" admin.

Definition staffedDb : Db :=
  mkDb (people ++ [deputy]) (sessions tallyDb) (votes tallyDb) 24.

(** A verifier that accepts three tokens: carol's, dave's, and one issued
    to a user (id 99) who has been deleted since. *)
Definition sampleVerify (token : string) : option ObjectId :=
  if String.eqb token "carol.jwt" then Some 4
  else if String.eqb token "dave.jwt" then Some 6
  else if String.eqb token "ghost.jwt" then Some 99
  else None.

(** ** Middleware chains *)

(** How a rejection of the middleware reads in a typed answer. *)
Definition rejection {A : Type} (r : Response) : Answer A :=
  refuse (res_status r) (res_message r).

Section Chains.

Variable verify : string -> option ObjectId.

Context {R : Type} (reject : Response -> R).

(** [router.verb(path, authenticateToken, handler)] *)
Definition authenticated (authHeader : option string)
  (handler : UserDoc -> Db -> R * Db) (db : Db) : R * Db :=
  match auth.authenticateToken verify authHeader db with
  | Rejected r => (reject r, db)
  | Next reqUser => handler reqUser db
  end.

(** [router.verb(path, authenticateToken, requireAdmin, handler)] *)
Definition adminOnly (authHeader : option string)
  (handler : UserDoc -> Db -> R * Db) (db : Db) : R * Db :=
  match auth.authenticateToken verify authHeader db with
  | Rejected r => (reject r, db)
  | Next reqUser =>
      match auth.requireAdmin reqUser with
      | Rejected r => (reject r, db)
      | Next reqAdmin => handler reqAdmin db
      end
  end.

(** [router.verb(path, authenticateToken, requireUser, handler)] *)
Definition anyUser (authHeader : option string)
  (handler : UserDoc -> Db -> R * Db) (db : Db) : R * Db :=
  match auth.authenticateToken verify authHeader db with
  | Rejected r => (reject r, db)
  | Next reqUser =>
      match auth.requireUser reqUser with
      | Rejected r => (reject r, db)
      | Next passed => handler passed db
      end
  end.

End Chains.

(** ** routes/users.js *)

Module usersRouter.

Section WithSecret.

Variable verify : string -> option ObjectId.



(** [router.get('/:id', authenticateToken, requireAdmin, getUserById)] *)
Definition get_id (authHeader : option string) (id : ObjectId) (db : Db) :=
  adminOnly verify rejection authHeader (fun _ d => (userController.getUserById id d, d)) db.

(** [router.delete('/:id', authenticateToken, requireAdmin, deleteUser)] *)
Definition delete_id (authHeader : option string) (id : ObjectId) (db : Db) :=
  adminOnly verify (fun r => r) authHeader (fun u d => userController.deleteUser id u d) db.

End WithSecret.

End usersRouter.

(** ** routes/votes.js *)

Module votesRouter.

Section WithSecret.

Variable verify : string -> option ObjectId.

(** [router.post('/', authenticateToken, requireUser, castVote)] *)
Definition post_root (authHeader : option string) (name : option string) (now : Date)
  (db : Db) :=
  anyUser verify (fun r => r) authHeader (fun u d => voteController.castVote name u now d) db.

(** [router.get('/user/my-votes', authenticateToken, requireUser, getUserVotes)] *)
Definition get_my_votes (authHeader : option string) (db : Db) :=
  anyUser verify rejection authHeader (fun u d => (voteController.getUserVotes u d, d)) db.

(** [router.get('/results', authenticateToken, requireAdmin, getResults)] *)
Definition get_results (authHeader : option string) (db : Db) :=
  adminOnly verify rejection authHeader (fun _ d => (voteController.getResults d, d)) db.


End WithSecret.

End votesRouter.

(** ** routes/votingSessions.js, the administrator's routes *)

Module votingSessionsAdmin.

Section WithSecret.

Variable verify : string -> option ObjectId.

(** [router.post('/', authenticateToken, requireAdmin, createVotingSession)] *)
Definition post_root (authHeader : option string)
  (body : votingSessionController.SessionBody) (db : Db) :=
  adminOnly verify rejection authHeader
            (fun u d => votingSessionController.createVotingSession body u d) db.

(** [router.delete('/:id', authenticateToken, requireAdmin, deleteVotingSession)] *)
Definition delete_id (authHeader : option string) (id : ObjectId) (db : Db) :=
  adminOnly verify (fun r => r) authHeader
            (fun _ d => votingSessionController.deleteVotingSession id d) db.





(** [router.get('/my-sessions', authenticateToken, getUserVotingSessions)] *)
Definition get_my_sessions (authHeader : option string) (now : Date) (db : Db) :=
  authenticated verify rejection authHeader
                (fun u d => (votingSessionController.getUserVotingSessions u now d, d)) db.

End WithSecret.

End votingSessionsAdmin.

(** ** Integrity of references *)

(** Every ballot names a session that exists. *)
Definition ballotsHaveSessions (db : Db) : Prop :=
  forall v, In v (votes db) ->
            exists sid s, votingSessionId v = Some sid /\ VotingSession.findById db sid = Some s.

(** The ballots of a user, in any session. *)
Definition ballotsBy (uid : ObjectId) (db : Db) : list VoteDoc :=
  filter (fun v => Nat.eqb (userId v) uid) (votes db).

(** A string without the space character. *)
Fixpoint spaceless (s : string) : bool :=
  match s with
  | EmptyString => true
  | String c rest => negb (Ascii.eqb c " "%char) && spaceless rest
  end.

(** ** More sample data *)

Definition emptyPolls : Poll.Polls := Poll.mkPolls [] 100.

(** A draft poll of alice's, open from 100 to 200, to which bob is
    assigned. *)
Definition survey (st : Poll.Status) : Poll.PollDoc :=
  Poll.mkPoll 50 "Survey" "Which one" [mkCandidate 51 "Yes" ""; mkCandidate 52 "No" ""]
              [3] 2 100%Z 200%Z st true 1%Z false.

Definition samplePolls (st : Poll.Status) : Poll.Polls :=
  Poll.mkPolls [survey st] 100.

(** ** Every write of the modelled handlers *)

(** The writes of [Write], and those of the handlers that manage users,
    sessions and candidates. *)
Inductive Step :=
| Ballots (w : Write)
| AssignUsers (id : ObjectId) (userIds : option (list ObjectId))
| RemoveUsers (id : ObjectId) (userIds : option (list ObjectId))
| AddCandidate (id : ObjectId) (name description : option string)
| RemoveCandidate (id candidateId : ObjectId)
| CreateSession (body : votingSessionController.SessionBody) (reqUser : UserDoc)
| SaveUser (name address password : string) (r : Role)
| InitializeDefaultAdmin.

Definition step (st : Step) (db : Db) : Db :=
  match st with
  | Ballots w => perform w db
  | AssignUsers id userIds =>
      snd (votingSessionController.assignUsersToSession id userIds db)
  | RemoveUsers id userIds =>
      snd (votingSessionController.removeUsersFromSession id userIds db)
  | AddCandidate id name description =>
      snd (votingSessionController.addCandidateToSession id name description db)
  | RemoveCandidate id candidateId =>
      snd (votingSessionController.removeCandidateFromSession id candidateId db)
  | CreateSession body reqUser =>
      snd (votingSessionController.createVotingSession body reqUser db)
  | SaveUser name address password r => snd (User.save name address password r db)
  | InitializeDefaultAdmin => User.initializeDefaultAdmin db
  end.

(** The store after a history of steps. *)
Definition steps (history : list Step) (db : Db) : Db :=
  fold_left (fun d st => step st d) history db.

(** A step that is not the free rewriting of users and sessions. *)
Definition handled (st : Step) : Prop :=
  match st with
  | Ballots (Administer _ _) => False
  | _ => True
  end.

(** How an element of [getUserVotes] relates to the ballot it shows. *)
Definition shows (view : Vote.UserVoteView) (v : VoteDoc) : Prop :=
  Vote.uv_id view = v_id v /\
  votingSessionId v = Some (Vote.uv_votingSession view) /\
  Vote.uv_candidateName view = candidateName v /\
  Vote.uv_isCustomCandidate view = isCustomCandidate v /\
  Vote.uv_timestamp view = timestamp v.

(** The administrator or the creator of a poll, as the permission test
    reads it. *)
Definition mayManage (reqUser : UserDoc) (poll : Poll.PollDoc) : bool :=
  Role_eqb (role reqUser) admin || Nat.eqb (Poll.p_createdBy poll) (u_id reqUser).

(** How the ballots and the session ids of a store relate to those of the
    store before: every ballot was there before and keeps its session, or
    names a session of the new store. *)
Definition refines (db db' : Db) : Prop :=
  forall v, In v (votes db') ->
    (In v (votes db) /\
     forall sid, votingSessionId v = Some sid -> In sid (map s_id (sessions db)) ->
                 In sid (map s_id (sessions db'))) \/
    (exists sid, votingSessionId v = Some sid /\ In sid (map s_id (sessions db'))).

(** * Verification *)

(** ** Facts about strings *)

Lemma trimEnd_cons_kept (c : ascii) (s : string) :
  isWhiteSpace c = false -> trimEnd (String c s) = String c (trimEnd s).
Proof.
  intros Hc. simpl. rewrite Hc. now destruct (trimEnd s).
Qed.

Lemma trimEnd_idempotent (s : string) : trimEnd (trimEnd s) = trimEnd s.
Proof.
  induction s as [|c rest IH]; [reflexivity|].
  simpl. destruct (trimEnd rest) as [|d kept] eqn:E.
  - destruct (isWhiteSpace c) eqn:W; simpl; [reflexivity|now rewrite W].
  - change (trimEnd (String c (String d kept)))
      with (match trimEnd (String d kept) with
            | EmptyString => if isWhiteSpace c then EmptyString else String c EmptyString
            | k => String c k
            end).
    now rewrite IH.
Qed.

Lemma trimStart_head (s : string) :
  trimStart s = EmptyString \/
  exists c rest, trimStart s = String c rest /\ isWhiteSpace c = false.
Proof.
  induction s as [|c rest IH]; [now left|].
  simpl. destruct (isWhiteSpace c) eqn:W; [exact IH|].
  right. now exists c, rest.
Qed.

Lemma trim_idempotent (s : string) : trim (trim s) = trim s.
Proof.
  unfold trim. destruct (trimStart_head s) as [E|(c & rest & E & W)]; rewrite E.
  - reflexivity.
  - rewrite (trimEnd_cons_kept c rest W). simpl trimStart. rewrite W.
    rewrite <- (trimEnd_cons_kept c rest W). apply trimEnd_idempotent.
Qed.

Lemma blank_false (name : string) : trim name <> "" -> blank (Some name) = false.
Proof.
  intros H. unfold blank. apply orb_false_iff. split; apply String.eqb_neq.
  - intros ->. now apply H.
  - exact H.
Qed.

Lemma blank_false_inv (o : option string) :
  blank o = false -> exists name, o = Some name /\ trim name <> "".
Proof.
  destruct o as [name|]; [|discriminate]. unfold blank. intros H.
  apply orb_false_iff in H as [_ H]. apply String.eqb_neq in H. now exists name.
Qed.

(** ** Facts about lists *)

Lemma find_none_existsb {A : Type} (p : A -> bool) (l : list A) :
  find p l = None <-> existsb p l = false.
Proof.
  induction l as [|x l IH]; simpl; [tauto|].
  destruct (p x); simpl; [split; discriminate|exact IH].
Qed.

Lemma find_none_filter {A : Type} (p : A -> bool) (l : list A) :
  find p l = None -> filter p l = [].
Proof.
  induction l as [|x l IH]; simpl; [reflexivity|].
  destruct (p x); [discriminate|exact IH].
Qed.


Section Sorting.

Context {A : Type} (le : A -> A -> bool).

Lemma insertBy_perm (x : A) (l : list A) : Permutation (insertBy le x l) (x :: l).
Proof.
  induction l as [|y l IH]; simpl; [reflexivity|].
  destruct (le x y); [reflexivity|].
  rewrite IH. apply perm_swap.
Qed.

Lemma sortBy_perm (l : list A) : Permutation (sortBy le l) l.
Proof.
  induction l as [|x l IH]; simpl; [reflexivity|].
  rewrite insertBy_perm. now constructor.
Qed.

Hypothesis le_total : forall a b, le a b = true \/ le b a = true.

Lemma insertBy_sorted (x : A) (l : list A) :
  Sorted (fun a b => le a b = true) l ->
  Sorted (fun a b => le a b = true) (insertBy le x l).
Proof.
  induction l as [|y l IH]; simpl; intros Hs.
  - repeat constructor.
  - destruct (le x y) eqn:E.
    + constructor; [exact Hs|now constructor].
    + apply Sorted_inv in Hs as [Hs Hd]. constructor; [now apply IH|].
      assert (Hyx : le y x = true) by (destruct (le_total x y); congruence).
      destruct l as [|z l]; simpl.
      * now constructor.
      * destruct (le x z); constructor; trivial.
        now inversion Hd.
Qed.

Lemma sortBy_sorted (l : list A) : Sorted (fun a b => le a b = true) (sortBy le l).
Proof.
  induction l as [|x l IH]; simpl; [constructor|now apply insertBy_sorted].
Qed.

End Sorting.

(** ** Casting a ballot in a session: the order of the checks *)

(** C1, as the spec words it, fails: a cast with an empty candidate name
    against a session that does not exist is answered 400 'Candidate name is
    required' (invalid input), not 404. *)
Lemma empty_name_missing_session_is_invalid_input :
  let r := fst (voteController.castVoteInSession
                  (mkCastBody (Some 99) (Some "") None None) alice 150%Z (sampleDb active)) in
  VotingSession.findById (sampleDb active) 99 = None /\
  r = reply 400 "Candidate name is required" /\
  errorKind r = Some InvalidInput /\
  errorKind r <> Some NotFound.
Proof.
  cbv zeta. repeat split. discriminate.
Qed.

(** C1, amended: with a session id supplied, the candidate name is checked
    before the session is looked up.  A blank name (absent, empty, or white
    space only) is answered 400 'Candidate name is required' whatever the
    store holds; a cast against a session that does not exist is answered
    404 'Voting session not found' only when the name is not blank.  The
    store is unchanged in both cases. *)
Theorem castVoteInSession_name_before_session
  (body : CastBody) (reqUser : UserDoc) (now : Date) (db : Db) (sid : ObjectId) :
  b_votingSessionId body = Some sid ->
  (blank (b_candidateName body) = true ->
   voteController.castVoteInSession body reqUser now db
   = (reply 400 "Candidate name is required", db)) /\
  (VotingSession.findById db sid = None ->
   voteController.castVoteInSession body reqUser now db
   = (if blank (b_candidateName body)
      then reply 400 "Candidate name is required"
      else reply 404 "Voting session not found", db)).
Proof.
  intros Hsid. unfold voteController.castVoteInSession. rewrite Hsid. split.
  - intros ->. reflexivity.
  - intros ->. now destruct (blank (b_candidateName body)).
Qed.

Lemma castVoteInSession_name_before_session_witness :
  voteController.castVoteInSession (mkCastBody (Some 10) (Some "   ") (Some 11) None)
                                   alice 150%Z (sampleDb active)
  = (reply 400 "Candidate name is required", sampleDb active) /\
  voteController.castVoteInSession (mkCastBody (Some 99) (Some "Alice") None None)
                                   alice 150%Z (sampleDb active)
  = (reply 404 "Voting session not found", sampleDb active).
Proof.
  split.
  - exact (proj1 (castVoteInSession_name_before_session
                    (mkCastBody (Some 10) (Some "   ") (Some 11) None)
                    alice 150%Z (sampleDb active) 10 eq_refl) eq_refl).
  - exact (proj2 (castVoteInSession_name_before_session
                    (mkCastBody (Some 99) (Some "Alice") None None)
                    alice 150%Z (sampleDb active) 99 eq_refl) eq_refl).
Defined.

Lemma SessionStatus_eqb_eq (a b : SessionStatus) : SessionStatus_eqb a b = true <-> a = b.
Proof. destruct a, b; simpl; split; congruence. Qed.

Lemma castVoteInSession_past_guards body reqUser now db sid s :
  passesGuards body reqUser now db sid s ->
  voteController.castVoteInSession body reqUser now db =
  match Vote.castVoteInSession (u_id reqUser) sid (candidateDataOf body) now db with
  | (inr vote, db') => (mkResponse 201 "Vote cast successfully" (VotePayload vote), db')
  | (inl error, db') => (voteController.castCatch error, db')
  end.
Proof.
  intros (Hsid & Hblank & Hfind & Hassigned & Hstatus & Hstart & Hend & Hcustom & Hcand).
  unfold voteController.castVoteInSession.
  rewrite Hsid, Hblank, Hfind, Hassigned, Hstatus, Hstart, Hend, Hcustom, Hcand.
  reflexivity.
Qed.

(** Whatever does not pass the guards is refused and writes nothing. *)
Lemma castVoteInSession_guards_or_refused body reqUser now db :
  (exists sid s, passesGuards body reqUser now db sid s) \/
  (snd (voteController.castVoteInSession body reqUser now db) = db /\
   res_status (fst (voteController.castVoteInSession body reqUser now db)) <> 201 /\
   res_status (fst (voteController.castVoteInSession body reqUser now db)) <> 409).
Proof.
  unfold voteController.castVoteInSession.
  destruct (b_votingSessionId body) as [sid|] eqn:Hsid;
    [|right; simpl; repeat split; discriminate].
  destruct (blank (b_candidateName body)) eqn:Hblank;
    [right; simpl; repeat split; discriminate|].
  destruct (VotingSession.findById db sid) as [s|] eqn:Hfind;
    [|right; simpl; repeat split; discriminate].
  destruct (VotingSession.isUserAssignedToSession db sid (u_id reqUser)) eqn:Hassigned;
    [|right; simpl; repeat split; discriminate].
  destruct (SessionStatus_eqb (status s) active) eqn:Hstatus;
    [|right; simpl; repeat split; discriminate].
  destruct (voteController.notStarted s now) eqn:Hstart;
    [right; simpl; repeat split; discriminate|].
  destruct (voteController.hasEnded s now) eqn:Hend;
    [right; simpl; repeat split; discriminate|].
  simpl negb. cbv iota.
  destruct (_ && negb (allowNewCandidates s)) eqn:Hcustom;
    [right; simpl; repeat split; discriminate|].
  destruct (voteController.candidateMissing s _ (b_candidateId body)) eqn:Hcand;
    [right; simpl; repeat split; discriminate|].
  left. exists sid, s. unfold passesGuards.
  apply SessionStatus_eqb_eq in Hstatus. rewrite Hsid. auto 10.
Qed.

(** ** Casting into a session that is not active *)

(** C4, as the spec words it, fails: into a draft session, an assigned
    user's cast with an empty candidate name is refused as invalid input
    ('Candidate name is required'), and an unassigned user's cast as
    forbidden; neither is an invalid-state reply. *)
Lemma draft_session_cast_not_always_invalid_state :
  let blankName := fst (voteController.castVoteInSession
                          (mkCastBody (Some 10) (Some "") (Some 11) None)
                          alice 150%Z (sampleDb draft)) in
  let unassigned := fst (voteController.castVoteInSession
                           (mkCastBody (Some 10) (Some "Alice") (Some 11) None)
                           dave 150%Z (sampleDb draft)) in
  blankName = reply 400 "Candidate name is required" /\
  errorKind blankName = Some InvalidInput /\
  errorKind blankName <> Some InvalidState /\
  unassigned = reply 403 "You are not assigned to this voting session" /\
  errorKind unassigned <> Some InvalidState.
Proof.
  cbv zeta. repeat split; discriminate.
Qed.

(** C4, amended: a cast into an existing session whose status is not
    active never creates a ballot and is refused: as invalid input when the
    candidate name is blank, else as forbidden when the caller is not
    assigned, else with the invalid-state reply 400 'Voting session is not
    active', whatever the candidate id and the custom flag are. *)
Theorem castVoteInSession_inactive_session
  (body : CastBody) (reqUser : UserDoc) (now : Date) (db : Db)
  (sid : ObjectId) (s : SessionDoc) :
  b_votingSessionId body = Some sid ->
  VotingSession.findById db sid = Some s ->
  status s <> active ->
  voteController.castVoteInSession body reqUser now db
  = (if blank (b_candidateName body)
     then reply 400 "Candidate name is required"
     else if VotingSession.isUserAssignedToSession db sid (u_id reqUser)
          then reply 400 "Voting session is not active"
          else reply 403 "You are not assigned to this voting session",
     db)
  /\ errorKind (reply 400 "Voting session is not active") = Some InvalidState.
Proof.
  intros Hsid Hfind Hstatus. split; [|reflexivity].
  unfold voteController.castVoteInSession. rewrite Hsid, Hfind.
  destruct (blank (b_candidateName body)); [reflexivity|].
  destruct (VotingSession.isUserAssignedToSession db sid (u_id reqUser)); [|reflexivity].
  destruct (SessionStatus_eqb (status s) active) eqn:E; [|reflexivity].
  apply SessionStatus_eqb_eq in E. contradiction.
Qed.

Lemma castVoteInSession_inactive_session_witness :
  voteController.castVoteInSession (mkCastBody (Some 10) (Some "Zed") (Some 77) (Some true))
                                   alice 150%Z (sampleDb closed)
  = (reply 400 "Voting session is not active", sampleDb closed).
Proof.
  refine (proj1 (castVoteInSession_inactive_session
                   (mkCastBody (Some 10) (Some "Zed") (Some 77) (Some true))
                   alice 150%Z (sampleDb closed) 10 (board closed) eq_refl eq_refl _)).
  discriminate.
Defined.

(** ** The ballot model *)

Lemma save_session_vote uid sid cid name custom now db :
  trim name <> "" ->
  existsb (Vote.sameKey uid (Some sid)) (votes db) = false ->
  Vote.save (mkVoteInit (Some uid) (Some sid) cid (Some name) (Some custom)) now db
  = (inr (mkVote (nextId db) uid (Some sid) cid (trim name) now custom),
     mkDb (users db) (sessions db)
          (votes db ++ [mkVote (nextId db) uid (Some sid) cid (trim name) now custom])
          (S (nextId db))).
Proof.
  intros Hname Hfree. unfold Vote.save, Vote.missingPaths. simpl.
  apply String.eqb_neq in Hname. rewrite Hname. simpl. now rewrite Hfree.
Qed.

(** A first cast of a user in a session stores exactly the ballot asked
    for. *)
Lemma model_cast_fresh uid sid cd now db :
  Vote.findOne db uid sid = None ->
  trim (cd_candidateName cd) <> "" ->
  let vote := mkVote (nextId db) uid (Some sid) (cd_candidateId cd)
                     (trim (cd_candidateName cd)) now (cd_isCustomCandidate cd) in
  Vote.castVoteInSession uid sid cd now db
  = (inr vote, mkDb (users db) (sessions db) (votes db ++ [vote]) (S (nextId db))).
Proof.
  intros Hnone Hname vote. unfold Vote.castVoteInSession. rewrite Hnone.
  rewrite save_session_vote.
  - subst vote. now rewrite trim_idempotent.
  - now rewrite trim_idempotent.
  - now apply find_none_existsb.
Qed.

(** Once a ballot of the user is in the session, the model refuses. *)
Lemma model_cast_again uid sid cd now db existing :
  Vote.findOne db uid sid = Some existing ->
  Vote.castVoteInSession uid sid cd now db
  = (inl (Error "User has already voted in this voting session"), db).
Proof.
  intros H. unfold Vote.castVoteInSession. now rewrite H.
Qed.

Lemma sameKey_refl uid sid v :
  userId v = uid -> votingSessionId v = sid -> Vote.sameKey uid sid v = true.
Proof.
  intros <- <-. unfold Vote.sameKey. rewrite Nat.eqb_refl. simpl.
  destruct (votingSessionId v); simpl; [apply Nat.eqb_refl|reflexivity].
Qed.

Lemma sameKey_indexKey uid sid v :
  Vote.sameKey uid sid v = true <-> Vote.indexKey v = (uid, sid).
Proof.
  unfold Vote.sameKey, Vote.indexKey. rewrite andb_true_iff, Nat.eqb_eq.
  destruct (votingSessionId v) as [x|], sid as [y|]; simpl;
    rewrite ?Nat.eqb_eq; split; intros H;
    try (destruct H; congruence); try (inversion H; auto).
Qed.

(** ** A cast by name only *)

(** C9: with the custom flag off (false or absent) and no candidate id, a
    cast that passes the checks on the session (it exists, the caller is
    assigned, it is active and inside its time window) and comes first for
    the caller is accepted for any non-blank name: the reply is 201 and the
    ballot stored carries the trimmed name, no candidate id and the custom
    flag off.  Nothing is assumed of the session's candidate list or of its
    [allowNewCandidates] flag. *)
Theorem castVoteInSession_name_only_unchecked
  (body : CastBody) (reqUser : UserDoc) (now : Date) (db : Db)
  (sid : ObjectId) (s : SessionDoc) (name : string) :
  b_votingSessionId body = Some sid ->
  b_candidateName body = Some name ->
  trim name <> "" ->
  b_candidateId body = None ->
  (b_isCustomCandidate body = None \/ b_isCustomCandidate body = Some false) ->
  VotingSession.findById db sid = Some s ->
  VotingSession.isUserAssignedToSession db sid (u_id reqUser) = true ->
  status s = active ->
  voteController.notStarted s now = false ->
  voteController.hasEnded s now = false ->
  Vote.findOne db (u_id reqUser) sid = None ->
  let vote := mkVote (nextId db) (u_id reqUser) (Some sid) None (trim name) now false in
  voteController.castVoteInSession body reqUser now db
  = (mkResponse 201 "Vote cast successfully" (VotePayload vote),
     mkDb (users db) (sessions db) (votes db ++ [vote]) (S (nextId db))).
Proof.
  intros Hsid Hname Htrim Hcid Hcustom Hfind Hassigned Hstatus Hstart Hend Hfirst vote.
  assert (Hflag : match b_isCustomCandidate body with Some b => b | None => false end = false)
    by (destruct Hcustom as [-> | ->]; reflexivity).
  rewrite (castVoteInSession_past_guards body reqUser now db sid s).
  - unfold candidateDataOf. rewrite Hname, Hcid, Hflag.
    rewrite model_cast_fresh; simpl; rewrite ?trim_idempotent; trivial.
  - unfold passesGuards. rewrite Hflag, Hcid, Hname. simpl.
    repeat split; trivial. now apply blank_false.
Qed.

Lemma castVoteInSession_name_only_unchecked_witness :
  voteController.castVoteInSession (mkCastBody (Some 10) (Some " Mallory ") None None)
                                   alice 150%Z (sampleDb active)
  = (mkResponse 201 "Vote cast successfully"
       (VotePayload (mkVote 20 2 (Some 10) None "Mallory" 150%Z false)),
     mkDb people [board active]
          [mkVote 20 2 (Some 10) None "Mallory" 150%Z false] 21)
  /\ existsb (fun c => String.eqb (c_name c) "Mallory") (candidates (board active)) = false
  /\ allowNewCandidates (board active) = false.
Proof.
  split; [|split; reflexivity].
  refine (castVoteInSession_name_only_unchecked
            (mkCastBody (Some 10) (Some " Mallory ") None None)
            alice 150%Z (sampleDb active) 10 (board active) " Mallory "
            eq_refl eq_refl _ eq_refl (or_introl eq_refl) eq_refl eq_refl eq_refl
            eq_refl eq_refl eq_refl).
  discriminate.
Defined.

(** ** The time window *)

Lemma castVoteInSession_201_in_window body reqUser now db :
  res_status (fst (voteController.castVoteInSession body reqUser now db)) = 201 ->
  exists sid s, passesGuards body reqUser now db sid s.
Proof.
  intros H.
  destruct (castVoteInSession_guards_or_refused body reqUser now db)
    as [Hpass | (_ & Hno & _)]; [exact Hpass|contradiction].
Qed.

(** C3, as the spec words it, fails on the session path: a cast at the
    very millisecond of [endDate] is not refused as 'has ended'; it
    succeeds. *)
Lemma session_cast_at_end_date_succeeds :
  endDate (board active) = Some 200%Z /\
  voteController.castVoteInSession (mkCastBody (Some 10) (Some "Alice") (Some 11) None)
                                   alice 200%Z (sampleDb active)
  = (mkResponse 201 "Vote cast successfully"
       (VotePayload (mkVote 20 2 (Some 10) (Some 11) "Alice" 200%Z false)),
     mkDb people [board active]
          [mkVote 20 2 (Some 10) (Some 11) "Alice" 200%Z false] 21) /\
  errorKind (fst (voteController.castVoteInSession
                    (mkCastBody (Some 10) (Some "Alice") (Some 11) None)
                    alice 200%Z (sampleDb active))) <> Some InvalidState.
Proof.
  repeat split. discriminate.
Qed.

(** C3, amended: on the session path both ends of the window are
    inclusive.  A cast succeeds only at a time that is not before the start
    date and not after the end date, where set; a request that passes the
    earlier checks is answered 400 'Voting session has not started yet'
    before the start date and 400 'Voting session has ended' after the end
    date, and at the end date itself it is never answered 'has ended'.  The
    poll's own activity test treats the end date as past. *)
Theorem castVoteInSession_time_window
  (body : CastBody) (reqUser : UserDoc) (now : Date) (db : Db)
  (sid : ObjectId) (s : SessionDoc) :
  b_votingSessionId body = Some sid ->
  VotingSession.findById db sid = Some s ->
  let r := fst (voteController.castVoteInSession body reqUser now db) in
  (res_status r = 201 ->
   (forall a, startDate s = Some a -> (a <= now)%Z) /\
   (forall b, endDate s = Some b -> (now <= b)%Z)) /\
  (blank (b_candidateName body) = false ->
   VotingSession.isUserAssignedToSession db sid (u_id reqUser) = true ->
   status s = active ->
   (forall a, startDate s = Some a -> (now < a)%Z ->
              r = reply 400 "Voting session has not started yet") /\
   (forall b, endDate s = Some b -> (b < now)%Z ->
              voteController.notStarted s now = false ->
              r = reply 400 "Voting session has ended")) /\
  (forall b, endDate s = Some b -> now = b ->
             res_message r <> "Voting session has ended") /\
  (forall pollActive start finish,
      voteController.pollNotCurrentlyActive pollActive start finish finish = true).
Proof.
  intros Hsid Hfind r. repeat apply conj.
  - intros H201.
    destruct (castVoteInSession_201_in_window _ _ _ _ H201)
      as (sid' & s' & Hsid' & _ & Hfind' & _ & _ & Hstart & Hend & _).
    assert (sid' = sid) by congruence; subst sid'.
    assert (s' = s) by congruence; subst s'.
    unfold voteController.notStarted in Hstart.
    unfold voteController.hasEnded in Hend.
    split; intros x Hx; rewrite Hx in *; lia.
  - intros Hblank Hassigned Hstatus. subst r.
    unfold voteController.castVoteInSession.
    rewrite Hsid, Hblank, Hfind, Hassigned, Hstatus. simpl. split.
    + intros a Ha Hlt. unfold voteController.notStarted. rewrite Ha.
      apply Z.ltb_lt in Hlt. now rewrite Hlt.
    + intros b Hb Hlt Hstart. rewrite Hstart.
      unfold voteController.hasEnded. rewrite Hb.
      assert (E : (now >? b)%Z = true) by lia. now rewrite E.
  - intros b Hb ->. subst r.
    assert (Hend : voteController.hasEnded s b = false).
    { unfold voteController.hasEnded. rewrite Hb. lia. }
    unfold voteController.castVoteInSession. rewrite Hsid, Hfind, Hend.
    repeat (peel_guard; simpl; try discriminate).
    all: destruct (Vote.castVoteInSession _ _ _ _ _) as [[error|vote] db']; simpl;
      try discriminate.
    all: unfold voteController.castCatch;
      destruct (String.eqb _ _) eqn:E; simpl; try discriminate.
    all: apply String.eqb_eq in E; rewrite E; discriminate.
  - intros pollActive start finish. unfold voteController.pollNotCurrentlyActive.
    rewrite Z.leb_refl. now rewrite orb_true_r.
Qed.

Lemma castVoteInSession_time_window_witness :
  fst (voteController.castVoteInSession (mkCastBody (Some 10) (Some "Alice") (Some 11) None)
                                        alice 201%Z (sampleDb active))
  = reply 400 "Voting session has ended" /\
  fst (voteController.castVoteInSession (mkCastBody (Some 10) (Some "Alice") (Some 11) None)
                                        alice 99%Z (sampleDb active))
  = reply 400 "Voting session has not started yet" /\
  res_message (fst (voteController.castVoteInSession
                      (mkCastBody (Some 10) (Some "Alice") (Some 11) None)
                      alice 200%Z (sampleDb active)))
  <> "Voting session has ended".
Proof.
  pose proof (castVoteInSession_time_window
                (mkCastBody (Some 10) (Some "Alice") (Some 11) None)
                alice 201%Z (sampleDb active) 10 (board active) eq_refl eq_refl) as Hlate.
  pose proof (castVoteInSession_time_window
                (mkCastBody (Some 10) (Some "Alice") (Some 11) None)
                alice 99%Z (sampleDb active) 10 (board active) eq_refl eq_refl) as Hearly.
  pose proof (castVoteInSession_time_window
                (mkCastBody (Some 10) (Some "Alice") (Some 11) None)
                alice 200%Z (sampleDb active) 10 (board active) eq_refl eq_refl) as Hedge.
  cbv zeta in Hlate, Hearly, Hedge.
  destruct Hlate as (_ & Hlate & _).
  destruct Hearly as (_ & Hearly & _).
  destruct Hedge as (_ & _ & Hedge & _).
  split; [|split].
  - exact (proj2 (Hlate eq_refl eq_refl eq_refl) 200%Z eq_refl eq_refl eq_refl).
  - exact (proj1 (Hearly eq_refl eq_refl eq_refl) 100%Z eq_refl eq_refl).
  - exact (Hedge 200%Z eq_refl eq_refl).
Defined.

(** ** One ballot per user and session *)

Lemma filter_keeps_distinct_keys {K V : Type} (key : V -> K) (keep : V -> bool) :
  forall items : list V, NoDup (map key items) -> NoDup (map key (filter keep items)).
Proof.
  intros items. induction items as [|item items IH]; simpl; intros H; [constructor|].
  apply NoDup_cons_iff in H as [Hfresh Hrest].
  destruct (keep item); simpl; [|now apply IH].
  constructor; [|now apply IH].
  intros Hin. apply Hfresh. apply in_map_iff in Hin as (other & Hkey & Hother).
  apply filter_In in Hother as [Hother _]. apply in_map_iff. now exists other.
Qed.

Lemma NoDup_map_snoc {A B : Type} (f : A -> B) (l : list A) (x : A) :
  NoDup (map f l) -> ~ In (f x) (map f l) -> NoDup (map f (l ++ [x])).
Proof.
  intros Hl Hx. rewrite map_app. simpl.
  apply (Permutation_NoDup (l := f x :: map f l)).
  - apply Permutation_cons_append.
  - now constructor.
Qed.

Lemma uniqueIndex_deleteMany matches db :
  uniqueIndex db -> uniqueIndex (snd (Vote.deleteMany matches db)).
Proof. unfold uniqueIndex. simpl. apply filter_keeps_distinct_keys. Qed.

(** The unique index is what [save] keeps, with or without a check by the
    caller beforehand. *)
Lemma uniqueIndex_save d now db :
  uniqueIndex db -> uniqueIndex (snd (Vote.save d now db)).
Proof.
  intros H. unfold Vote.save.
  destruct (Vote.missingPaths d); [|exact H].
  destruct (i_userId d) as [uid|]; [|exact H].
  destruct (i_candidateName d) as [name|]; [|exact H].
  destruct (existsb _ _) eqn:Hfree; [exact H|].
  unfold uniqueIndex. cbn [snd votes].
  apply NoDup_map_snoc; [exact H|].
  intros Hin. apply in_map_iff in Hin as (v & Hv & Hvin).
  assert (Hhit : existsb (Vote.sameKey uid (i_votingSessionId d)) (votes db) = true).
  { apply existsb_exists. exists v. split; [exact Hvin|].
    apply sameKey_indexKey. exact Hv. }
  congruence.
Qed.

Lemma uniqueIndex_model_cast uid sid cd now db :
  uniqueIndex db -> uniqueIndex (snd (Vote.castVoteInSession uid sid cd now db)).
Proof.
  intros H. unfold Vote.castVoteInSession.
  destruct (Vote.findOne db uid sid); [exact H|now apply uniqueIndex_save].
Qed.

Lemma uniqueIndex_createVote uid name now db :
  uniqueIndex db -> uniqueIndex (snd (Vote.createVote uid name now db)).
Proof.
  intros H. unfold Vote.createVote.
  destruct (Vote.findOneLegacy db uid) as [existing|]; [|now apply uniqueIndex_save].
  destruct (negb _); [exact H|now apply uniqueIndex_save].
Qed.

Lemma deleteUser_other id reqUser db :
  userController.deleteUser id reqUser db
  = (if Nat.eqb id (u_id reqUser)
     then reply 403 "Cannot delete your own account"
     else reply 500 "Server error deleting user", db).
Proof.
  unfold userController.deleteUser. now destruct (Nat.eqb id (u_id reqUser)).
Qed.

Lemma uniqueIndex_perform w db : uniqueIndex db -> uniqueIndex (perform w db).
Proof.
  intros H. destruct w as [body u now|name u now|id u|id| |uid|us ss]; simpl.
  - destruct (castVoteInSession_guards_or_refused body u now db)
      as [(sid & s & Hpass) | (-> & _)]; [|exact H].
    rewrite (castVoteInSession_past_guards _ _ _ _ _ _ Hpass).
    pose proof (uniqueIndex_model_cast (u_id u) sid (candidateDataOf body) now db H) as Hm.
    now destruct (Vote.castVoteInSession _ _ _ _ _) as [[e|v] db'].
  - unfold voteController.castVote. destruct (blank name); [exact H|].
    pose proof (uniqueIndex_createVote (u_id u)
                  (trim (match name with Some s => s | None => "" end)) now db H) as Hm.
    destruct (Vote.createVote _ _ _ _) as [[e|v] db']; [|exact Hm].
    now destruct (String.eqb _ _).
  - rewrite deleteUser_other. exact H.
  - unfold votingSessionController.deleteVotingSession, VotingSession.deleteById.
    destruct (VotingSession.findById db id); [|exact H].
    unfold Vote.deleteVotesBySessionId, Vote.deleteMany, uniqueIndex. simpl.
    apply filter_keeps_distinct_keys. exact H.
  - apply (uniqueIndex_deleteMany (fun _ => true)). exact H.
  - unfold Vote.deleteVotesByUserId, Vote.deleteMany, uniqueIndex. simpl.
    apply filter_keeps_distinct_keys. exact H.
  - exact H.
Qed.







(** ** Aggregation of results *)

Lemma string_leb_trans (a b c : string) :
  String.leb a b = true -> String.leb b c = true -> String.leb a c = true.
Proof.
  unfold String.leb.
  revert b c. induction a as [|x a IH]; intros [|y b] [|z c]; simpl; try congruence.
  unfold Ascii.compare.
  destruct (N.compare_spec (N_of_ascii x) (N_of_ascii y)) as [Exy|Lxy|Gxy];
    destruct (N.compare_spec (N_of_ascii y) (N_of_ascii z)) as [Eyz|Lyz|Gyz];
    try congruence; intros Hab Hbc.
  - rewrite Exy, Eyz, N.compare_refl. now apply (IH b c).
  - rewrite Exy. apply N.compare_lt_iff in Lyz. now rewrite Lyz.
  - rewrite <- Eyz. apply N.compare_lt_iff in Lxy. now rewrite Lxy.
  - assert (L : (N_of_ascii x < N_of_ascii z)%N) by lia.
    apply N.compare_lt_iff in L. now rewrite L.
Qed.

Lemma Sorted_map_rel {A B : Type} (f : A -> B) (R : A -> A -> Prop) (R' : B -> B -> Prop)
  (l : list A) :
  (forall a b, R a b -> R' (f a) (f b)) -> Sorted R l -> Sorted R' (map f l).
Proof.
  intros HR. induction 1 as [|a l Hs IH Hd]; simpl; constructor; trivial.
  destruct Hd; simpl; constructor. now apply HR.
Qed.

Lemma countIn_accumulate n v groups :
  countIn n (Vote.accumulate v groups)
  = countIn n groups + (if String.eqb (candidateName v) n then 1 else 0).
Proof.
  unfold countIn. induction groups as [|g rest IH]; simpl.
  - destruct (String.eqb (candidateName v) n); reflexivity.
  - destruct (String.eqb (g_key g) (candidateName v)) eqn:E; simpl.
    + apply String.eqb_eq in E. rewrite <- E.
      destruct (String.eqb (g_key g) n); simpl; lia.
    + destruct (String.eqb (g_key g) n); simpl; rewrite IH; lia.
Qed.

Lemma customIn_accumulate n v groups :
  customIn n (Vote.accumulate v groups)
  = customIn n groups
    + (if String.eqb (candidateName v) n && isCustomCandidate v then 1 else 0).
Proof.
  unfold customIn. induction groups as [|g rest IH]; simpl.
  - unfold Vote.cond.
    destruct (String.eqb (candidateName v) n), (isCustomCandidate v); reflexivity.
  - destruct (String.eqb (g_key g) (candidateName v)) eqn:E; simpl.
    + apply String.eqb_eq in E. rewrite <- E. unfold Vote.cond.
      destruct (String.eqb (g_key g) n), (isCustomCandidate v); simpl; lia.
    + destruct (String.eqb (g_key g) n); simpl; rewrite IH; lia.
Qed.

Lemma keys_accumulate k v groups :
  In k (map g_key (Vote.accumulate v groups))
  <-> In k (map g_key groups) \/ k = candidateName v.
Proof.
  induction groups as [|g rest IH]; simpl.
  - intuition.
  - destruct (String.eqb (g_key g) (candidateName v)) eqn:E; simpl.
    + apply String.eqb_eq in E. intuition congruence.
    + rewrite IH. intuition.
Qed.

Lemma NoDup_keys_accumulate v groups :
  NoDup (map g_key groups) -> NoDup (map g_key (Vote.accumulate v groups)).
Proof.
  induction groups as [|g rest IH]; simpl; intros H.
  - repeat constructor. intros [].
  - inversion H as [|? ? Hnotin Hrest]; subst.
    destruct (String.eqb (g_key g) (candidateName v)) eqn:E; simpl.
    + now constructor.
    + constructor; [|now apply IH].
      rewrite keys_accumulate. intros [Hin|Heq]; [contradiction|].
      apply String.eqb_neq in E. congruence.
Qed.

Lemma positive_accumulate v groups :
  Forall (fun g => 1 <= g_voteCount g) groups ->
  Forall (fun g => 1 <= g_voteCount g) (Vote.accumulate v groups).
Proof.
  induction 1 as [|g rest Hg Hrest IH]; simpl.
  - repeat constructor.
  - destruct (String.eqb (g_key g) (candidateName v)); constructor; simpl; trivial. lia.
Qed.

(** What the [$group] stage computes, for any accumulator it starts from. *)
Lemma group_fold docs : forall groups,
  let out := fold_left (fun gs v => Vote.accumulate v gs) docs groups in
  (forall n, countIn n out = countIn n groups + votesFor n docs) /\
  (forall n, customIn n out = customIn n groups + customVotesFor n docs) /\
  (forall k, In k (map g_key out)
             <-> In k (map g_key groups) \/ In k (map candidateName docs)) /\
  (NoDup (map g_key groups) -> NoDup (map g_key out)) /\
  (Forall (fun g => 1 <= g_voteCount g) groups -> Forall (fun g => 1 <= g_voteCount g) out).
Proof.
  induction docs as [|v docs IH]; intros groups; cbv zeta; simpl.
  - unfold votesFor, customVotesFor. simpl. repeat split; auto; tauto.
  - destruct (IH (Vote.accumulate v groups)) as (Hc & Hx & Hk & Hn & Hp).
    repeat apply conj.
    + intros n. rewrite Hc, countIn_accumulate. unfold votesFor. simpl.
      destruct (String.eqb (candidateName v) n); simpl; lia.
    + intros n. rewrite Hx, customIn_accumulate. unfold customVotesFor. simpl.
      destruct (String.eqb (candidateName v) n && isCustomCandidate v); simpl; lia.
    + intros k. rewrite Hk, keys_accumulate. intuition.
    + intros H. apply Hn. now apply NoDup_keys_accumulate.
    + intros H. apply Hp. now apply positive_accumulate.
Qed.

(** With distinct keys, the group of a key holds all that is counted for
    the key. *)
Lemma countIn_own groups g :
  NoDup (map g_key groups) -> In g groups ->
  countIn (g_key g) groups = g_voteCount g /\
  customIn (g_key g) groups = g_customCandidateCount g.
Proof.
  unfold countIn, customIn.
  induction groups as [|h rest IH]; simpl; intros Hnd Hin; [contradiction|].
  inversion Hnd as [|? ? Hnotin Hrest]; subst.
  destruct Hin as [->|Hin].
  - rewrite String.eqb_refl. simpl.
    assert (E : filter (fun x => String.eqb (g_key x) (g_key g)) rest = []).
    { apply find_none_filter. apply find_none_existsb.
      destruct (existsb _ rest) eqn:Ex; [|reflexivity].
      apply existsb_exists in Ex as (y & Hy & Hyk). apply String.eqb_eq in Hyk.
      exfalso. apply Hnotin. apply in_map_iff. now exists y. }
    rewrite E. simpl. lia.
  - destruct (String.eqb (g_key h) (g_key g)) eqn:E.
    + apply String.eqb_eq in E. exfalso. apply Hnotin. rewrite E.
      apply in_map_iff. now exists g.
    + now apply IH.
Qed.

Lemma named_iff_counted n docs :
  In n (map candidateName docs) <-> 1 <= votesFor n docs.
Proof.
  unfold votesFor. induction docs as [|v docs IH]; simpl.
  - split; [intros []|lia].
  - destruct (String.eqb (candidateName v) n) eqn:E; simpl.
    + apply String.eqb_eq in E. split; [lia|now left].
    + apply String.eqb_neq in E. rewrite <- IH. intuition.
Qed.

Lemma group_keys_project groups :
  map r_candidateName (map Vote.project groups) = map g_key groups.
Proof. rewrite map_map. reflexivity. Qed.

(** C5: the results read of a session returns one entry per distinct
    candidate name that has at least one ballot in the session, carrying
    the number of those ballots and the number of them that are custom
    submissions; the entries come by vote count, largest first; with them
    come the number of ballots of the session, the number of distinct names,
    and the distinct names in ascending order.  On ballots A, B, A (one A
    custom) the answer is A:2 before B:1, total 3, 2 candidates. *)
Theorem getSessionResults_aggregates (sid : ObjectId) (db : Db) :
  let ballots := filter (Vote.inSession sid) (votes db) in
  let R := Vote.getSessionResults sid db in
  NoDup (map r_candidateName (results R)) /\
  (forall n, In n (map r_candidateName (results R)) <-> 1 <= votesFor n ballots) /\
  (forall e, In e (results R) ->
             r_voteCount e = votesFor (r_candidateName e) ballots /\
             r_customCandidateCount e = customVotesFor (r_candidateName e) ballots) /\
  StronglySorted (fun a b => r_voteCount b <= r_voteCount a) (results R) /\
  totalVotes R = List.length ballots /\
  totalCandidates R = List.length (results R) /\
  List.length (candidateNames R) = totalCandidates R /\
  NoDup (candidateNames R) /\
  StronglySorted (fun a b => String.leb a b = true) (candidateNames R) /\
  (forall n, In n (candidateNames R) <-> In n (map r_candidateName (results R))) /\
  Vote.getSessionResults 10 tallyDb
  = mkResults [mkEntry "A" 2 1; mkEntry "B" 1 0] 3 2 ["A"; "B"].
Proof.
  intros ballots R.
  destruct (group_fold ballots []) as (Hc & Hx & Hk & Hn & Hp). cbv zeta in *.
  fold (Vote.group ballots) in *.
  assert (Hnd : NoDup (map g_key (Vote.group ballots))) by (apply Hn; constructor).
  pose proof (sortBy_perm (fun a b => Nat.leb (g_voteCount b) (g_voteCount a))
                          (Vote.group ballots)) as Hperm.
  fold (Vote.sortByVoteCountDesc (Vote.group ballots)) in Hperm.
  assert (Hres : results R = map Vote.project (Vote.sortByVoteCountDesc (Vote.group ballots)))
    by reflexivity.
  assert (Hkeys : forall n, In n (map r_candidateName (results R))
                            <-> In n (map candidateName ballots)).
  { intros n. rewrite Hres, group_keys_project. split.
    - intros H. apply (Permutation_in _ (Permutation_map g_key Hperm)) in H.
      apply Hk in H. simpl in H. tauto.
    - intros H. apply (Permutation_in _ (Permutation_sym (Permutation_map g_key Hperm))).
      apply Hk. now right. }
  assert (Hnames : Permutation (candidateNames R) (nodup string_dec (map candidateName ballots)))
    by apply sortBy_perm.
  repeat apply conj.
  - rewrite Hres, group_keys_project.
    apply (Permutation_NoDup (Permutation_sym (Permutation_map g_key Hperm))). exact Hnd.
  - intros n. rewrite Hkeys. apply named_iff_counted.
  - intros e He. rewrite Hres in He. apply in_map_iff in He as (g & <- & Hg).
    apply (Permutation_in _ Hperm) in Hg.
    destruct (countIn_own _ g Hnd Hg) as [E1 E2]. simpl.
    rewrite <- E1, <- E2, Hc, Hx. split; reflexivity.
  - rewrite Hres. apply Sorted_StronglySorted.
    + intros a b c Hab Hbc. lia.
    + apply (Sorted_map_rel Vote.project
               (fun a b => Nat.leb (g_voteCount b) (g_voteCount a) = true)).
      * intros a b H. apply Nat.leb_le in H. exact H.
      * apply sortBy_sorted. intros a b.
        destruct (Nat.le_ge_cases (g_voteCount a) (g_voteCount b)) as [H|H];
          apply Nat.leb_le in H; auto.
  - reflexivity.
  - change (totalCandidates R)
      with (List.length (nodup string_dec (map candidateName ballots))).
    rewrite Hres, length_map. rewrite (Permutation_length Hperm).
    rewrite <- (length_map g_key). apply Permutation_length.
    apply NoDup_Permutation; [apply NoDup_nodup|exact Hnd|].
    intros n. rewrite nodup_In, (Hk n). simpl. tauto.
  - apply (Permutation_length Hnames).
  - apply (Permutation_NoDup (Permutation_sym Hnames)). apply NoDup_nodup.
  - apply Sorted_StronglySorted.
    + intros a b c. apply string_leb_trans.
    + apply sortBy_sorted. apply String.leb_total.
  - intros n. rewrite Hkeys. split; intros H.
    + apply (Permutation_in _ Hnames) in H. now apply nodup_In in H.
    + apply (Permutation_in _ (Permutation_sym Hnames)). now apply nodup_In.
  - reflexivity.
Qed.

(** ** Deleting a user *)

(** C6, at the failing input: the administrator (id 1) deletes alice
    (id 2), who has a ballot in session 10.  The handler reads [userId],
    which nothing binds; the reference error is caught and answered 500.
    Alice and her ballot stay, and the session's results still count three
    ballots.  Deleting the other administrator is answered 500 as well,
    not 403; only the self-delete is refused as the claim says. *)
Theorem deleteUser_reference_error :
  userController.resolve "userId" (userController.deleteUserScope 2)
  = inl (ReferenceError "userId") /\
  userController.deleteUser 2 root tallyDb
  = (reply 500 "Server error deleting user", tallyDb) /\
  User.findById (snd (userController.deleteUser 2 root tallyDb)) 2 = Some alice /\
  ballotsOf 2 10 (snd (userController.deleteUser 2 root tallyDb)) = 1 /\
  totalVotes (Vote.getSessionResults 10 (snd (userController.deleteUser 2 root tallyDb))) = 3 /\
  userController.deleteUser 5 root staffedDb
  = (reply 500 "Server error deleting user", staffedDb) /\
  userController.deleteUser 1 root tallyDb
  = (reply 403 "Cannot delete your own account", tallyDb).
Proof.
  repeat split.
Qed.

(** ** The legacy cast *)

(** C7, at the failing input and in general: the legacy cast builds its
    document without [votingSessionId], which the schema requires, so
    [save] throws a validation error and the handler answers 500.  No
    legacy cast is ever answered 201 and none changes the store; a first
    cast by alice with the name "John Doe" is answered 500, and so is her
    second. *)
Theorem legacy_cast_never_stores :
  (forall (name : option string) (reqUser : UserDoc) (now : Date) (db : Db),
      snd (voteController.castVote name reqUser now db) = db /\
      res_status (fst (voteController.castVote name reqUser now db)) <> 201) /\
  Vote.save (mkVoteInit (Some 2) None None (Some "John Doe") None) 150%Z (sampleDb active)
  = (inl (ValidationError ["votingSessionId"]), sampleDb active) /\
  voteController.castVote (Some "John Doe") alice 150%Z (sampleDb active)
  = (reply 500 "Server error during vote casting", sampleDb active) /\
  voteController.castVote (Some "Jane Smith") alice 160%Z
    (snd (voteController.castVote (Some "John Doe") alice 150%Z (sampleDb active)))
  = (reply 500 "Server error during vote casting", sampleDb active).
Proof.
  split; [|repeat split].
  intros name reqUser now db. unfold voteController.castVote.
  destruct (blank name); [split; [reflexivity|discriminate]|].
  unfold Vote.createVote.
  destruct (Vote.findOneLegacy db (u_id reqUser)) as [existing|].
  - destruct (negb _); simpl; split; try reflexivity; discriminate.
  - simpl. split; [reflexivity|discriminate].
Qed.

(** ** Authentication *)

(** C8, as the spec words it, fails in its last part: a token that
    verifies but names a user who is gone is answered 404 'User not found',
    which is the not-found kind, neither 401 nor 403. *)
Lemma valid_token_of_deleted_user_is_not_found :
  sampleVerify "ghost.jwt" = Some 99 /\
  User.findById tallyDb 99 = None /\
  auth.authenticateToken sampleVerify (Some "Bearer ghost.jwt") tallyDb
  = Rejected (reply 404 "User not found") /\
  errorKind (reply 404 "User not found") = Some NotFound /\
  errorKind (reply 404 "User not found") <> Some Unauthenticated /\
  errorKind (reply 404 "User not found") <> Some Forbidden.
Proof.
  repeat split; discriminate.
Qed.

(** C8, amended: a request without an authorization header, or whose
    header carries no token, is answered 401 'Access token required'; a
    token that does not verify is answered 403 'Invalid or expired token';
    a token that verifies but names a user who no longer exists is answered
    404 'User not found'; otherwise the user found becomes the request's
    user. *)
Theorem authenticateToken_replies
  (verify : string -> option ObjectId) (authHeader : option string) (db : Db) :
  auth.authenticateToken verify None db = Rejected (reply 401 "Access token required") /\
  (auth.bearerToken authHeader = None \/ auth.bearerToken authHeader = Some "" ->
   auth.authenticateToken verify authHeader db
   = Rejected (reply 401 "Access token required")) /\
  (forall tok, auth.bearerToken authHeader = Some tok -> tok <> "" ->
               verify tok = None ->
               auth.authenticateToken verify authHeader db
               = Rejected (reply 403 "Invalid or expired token")) /\
  (forall tok id, auth.bearerToken authHeader = Some tok -> tok <> "" ->
                  verify tok = Some id -> User.findById db id = None ->
                  auth.authenticateToken verify authHeader db
                  = Rejected (reply 404 "User not found")) /\
  (forall tok id fullUser, auth.bearerToken authHeader = Some tok -> tok <> "" ->
                           verify tok = Some id -> User.findById db id = Some fullUser ->
                           auth.authenticateToken verify authHeader db = Next fullUser) /\
  errorKind (reply 401 "Access token required") = Some Unauthenticated /\
  errorKind (reply 404 "User not found") = Some NotFound.
Proof.
  unfold auth.authenticateToken. repeat apply conj; try reflexivity.
  - intros [-> | ->]; reflexivity.
  - intros tok -> Hne ->. apply String.eqb_neq in Hne. now rewrite Hne.
  - intros tok id -> Hne -> ->. apply String.eqb_neq in Hne. now rewrite Hne.
  - intros tok id fullUser -> Hne -> ->. apply String.eqb_neq in Hne. now rewrite Hne.
Qed.

Lemma authenticateToken_replies_witness :
  auth.authenticateToken sampleVerify (Some "Bearer") tallyDb
  = Rejected (reply 401 "Access token required") /\
  auth.authenticateToken sampleVerify (Some "Bearer forged.jwt") tallyDb
  = Rejected (reply 403 "Invalid or expired token") /\
  auth.authenticateToken sampleVerify (Some "Bearer ghost.jwt") tallyDb
  = Rejected (reply 404 "User not found") /\
  auth.authenticateToken sampleVerify (Some "Bearer carol.jwt") tallyDb = Next carol.
Proof.
  repeat apply conj.
  - destruct (authenticateToken_replies sampleVerify (Some "Bearer") tallyDb)
      as (_ & H & _).
    apply H. left. reflexivity.
  - destruct (authenticateToken_replies sampleVerify (Some "Bearer forged.jwt") tallyDb)
      as (_ & _ & H & _).
    apply (H "forged.jwt"); [reflexivity|discriminate|reflexivity].
  - destruct (authenticateToken_replies sampleVerify (Some "Bearer ghost.jwt") tallyDb)
      as (_ & _ & _ & H & _).
    apply (H "ghost.jwt" 99); [reflexivity|discriminate|reflexivity|reflexivity].
  - destruct (authenticateToken_replies sampleVerify (Some "Bearer carol.jwt") tallyDb)
      as (_ & _ & _ & _ & H & _).
    apply (H "carol.jwt" 4); [reflexivity|discriminate|reflexivity|reflexivity].
Defined.

(** ** Reading a session by id *)

(** C10: behind the token check alone, the read of a session by id answers
    any authenticated caller, assigned or not, administrator or not, with
    the session, its aggregated results and one record per ballot of the
    session, each carrying the voter's id, username and email; the caller
    plays no part in the answer.  The results endpoint, for the same
    caller, answers 403 'You are not assigned to this voting session' when
    the caller is neither an administrator nor assigned. *)
Theorem getVotingSessionById_open_to_any_caller
  (verify : string -> option ObjectId) (authHeader : option string)
  (id : ObjectId) (db : Db) (reqUser : UserDoc) (s : SessionDoc) :
  auth.authenticateToken verify authHeader db = Next reqUser ->
  VotingSession.findById db id = Some s ->
  votingSessionsRouter.get_id verify authHeader id db
  = mkResponse 200 "Voting session retrieved successfully"
      (SessionPayload s (Vote.getSessionResults id db)
         (map (votingSessionController.voteView db) (Vote.getSessionVotes id db))) /\
  (forall other : UserDoc,
      votingSessionController.getVotingSessionById id other db
      = votingSessionController.getVotingSessionById id reqUser db) /\
  (forall v, In v (votes db) -> votingSessionId v = Some id ->
             In (votingSessionController.voteView db v)
                (map (votingSessionController.voteView db) (Vote.getSessionVotes id db)) /\
             vv_user (votingSessionController.voteView db v)
             = votingSessionController.populateUser db (userId v)) /\
  (role reqUser = user ->
   VotingSession.isUserAssignedToSession db id (u_id reqUser) = false ->
   votingSessionsRouter.get_results verify authHeader id db
   = reply 403 "You are not assigned to this voting session").
Proof.
  intros Hauth Hfind. repeat apply conj.
  - unfold votingSessionsRouter.get_id. rewrite Hauth.
    unfold votingSessionController.getVotingSessionById. now rewrite Hfind.
  - reflexivity.
  - intros v Hin Hsid. split; [|reflexivity].
    apply in_map. unfold Vote.getSessionVotes.
    apply (Permutation_in _ (Permutation_sym (sortBy_perm _ _))).
    apply filter_In. split; [exact Hin|].
    unfold Vote.inSession. rewrite Hsid. simpl. apply Nat.eqb_refl.
  - intros Hrole Hassigned. unfold votingSessionsRouter.get_results. rewrite Hauth.
    unfold voteController.getSessionResults. now rewrite Hfind, Hrole, Hassigned.
Qed.

Lemma getVotingSessionById_open_to_any_caller_witness :
  VotingSession.isUserAssignedToSession tallyDb 10 (u_id dave) = false /\
  votingSessionsRouter.get_id sampleVerify (Some "Bearer dave.jwt") 10 tallyDb
  = mkResponse 200 "Voting session retrieved successfully"
      (SessionPayload (board active)
         (mkResults [mkEntry "A" 2 1; mkEntry "B" 1 0] 3 2 ["A"; "B"])
         [ mkVoteView 22 "A" (Some (4, "carol", "carol@example.com")) 130%Z true;
           mkVoteView 21 "B" (Some (3, "bob", "bob@example.com")) 120%Z false;
           mkVoteView 20 "A" (Some (2, "alice", "alice@example.com")) 110%Z false ]) /\
  votingSessionsRouter.get_results sampleVerify (Some "Bearer dave.jwt") 10 tallyDb
  = reply 403 "You are not assigned to this voting session".
Proof.
  destruct (getVotingSessionById_open_to_any_caller
              sampleVerify (Some "Bearer dave.jwt") 10 tallyDb dave (board active)
              eq_refl eq_refl) as (Hget & _ & _ & Hres).
  split; [reflexivity|]. split.
  - exact Hget.
  - apply Hres; reflexivity.
Defined.

(** * Further properties of the handlers *)

(** ** More facts about lists *)

Lemma filter_filter {A : Type} (p q : A -> bool) (l : list A) :
  filter p (filter q l) = filter (fun x => q x && p x) l.
Proof.
  induction l as [|x l IH]; simpl; [reflexivity|].
  destruct (q x); simpl; [|exact IH]. destruct (p x); simpl; now rewrite IH.
Qed.

Lemma filter_split_length {A : Type} (p q : A -> bool) (l : list A) :
  List.length (filter p l)
  = List.length (filter (fun x => p x && q x) l)
    + List.length (filter (fun x => p x && negb (q x)) l).
Proof.
  induction l as [|x l IH]; simpl; [reflexivity|].
  destruct (p x), (q x); simpl; lia.
Qed.

Lemma filter_same {A : Type} (p q : A -> bool) (l : list A) :
  (forall x, In x l -> p x = q x) -> filter p l = filter q l.
Proof.
  induction l as [|x l IH]; simpl; intros H; [reflexivity|].
  rewrite (H x (or_introl eq_refl)), IH; [reflexivity|]. intros y Hy. apply H. now right.
Qed.

Lemma filter_none {A : Type} (p : A -> bool) (l : list A) :
  (forall x, In x l -> p x = false) -> filter p l = [].
Proof.
  induction l as [|x l IH]; simpl; intros H; [reflexivity|].
  rewrite (H x (or_introl eq_refl)). apply IH. intros y Hy. apply H. now right.
Qed.

Lemma find_snoc_first {A : Type} (p : A -> bool) (l : list A) (x : A) :
  find p l = None -> p x = true -> find p (l ++ [x]) = Some x.
Proof.
  intros Hnone Hx. induction l as [|y l IH]; simpl in *.
  - now rewrite Hx.
  - destruct (p y); [discriminate|now apply IH].
Qed.

Lemma optId_eqb_eq (a b : option ObjectId) : optId_eqb a b = true <-> a = b.
Proof.
  destruct a as [x|], b as [y|]; simpl; rewrite ?Nat.eqb_eq;
    split; intros H; try congruence; try discriminate.
Qed.

(** ** A cast writes one ballot or nothing *)

(** Whatever the request, [castVoteInSession] leaves users and sessions
    alone; unless it answers 201 the whole store is unchanged; and when it
    answers 201 exactly one ballot is appended, which is the one in the
    reply: it is the caller's, in the session asked for, under the trimmed
    name, stamped with the time of the request, and the caller had no
    ballot in that session before. *)
Theorem castVoteInSession_writes_one_ballot_or_nothing
  (body : CastBody) (reqUser : UserDoc) (now : Date) (db : Db) :
  let r := fst (voteController.castVoteInSession body reqUser now db) in
  let db' := snd (voteController.castVoteInSession body reqUser now db) in
  users db' = users db /\
  sessions db' = sessions db /\
  (res_status r <> 201 -> db' = db) /\
  (res_status r = 201 ->
   exists sid name vote,
     b_votingSessionId body = Some sid /\
     b_candidateName body = Some name /\
     votes db' = (votes db ++ [vote])%list /\
     res_payload r = VotePayload vote /\
     userId vote = u_id reqUser /\
     votingSessionId vote = Some sid /\
     candidateName vote = trim name /\
     timestamp vote = now /\
     ballotsOf (u_id reqUser) sid db = 0).
Proof.
  cbv zeta.
  destruct (castVoteInSession_guards_or_refused body reqUser now db)
    as [(sid & s & Hpass) | (Hsame & Hno & _)].
  2:{ rewrite Hsame. repeat split; trivial. intros H. contradiction. }
  rewrite (castVoteInSession_past_guards _ _ _ _ _ _ Hpass).
  destruct Hpass as (Hsid & Hblank & _).
  destruct (blank_false_inv _ Hblank) as (name & Hname & Htrim).
  destruct (Vote.findOne db (u_id reqUser) sid) as [existing|] eqn:Hfind.
  - rewrite (model_cast_again _ _ _ _ _ _ Hfind). simpl.
    repeat split; trivial. discriminate.
  - assert (Hcd : trim (cd_candidateName (candidateDataOf body)) <> "").
    { unfold candidateDataOf. rewrite Hname. simpl. now rewrite trim_idempotent. }
    rewrite (model_cast_fresh _ _ _ _ _ Hfind Hcd). simpl.
    repeat split; trivial.
    + intros H. now contradiction H.
    + intros _. exists sid, name.
      eexists. repeat split; try reflexivity; trivial.
      * simpl. rewrite Hname. apply trim_idempotent.
      * unfold ballotsOf. unfold Vote.findOne in Hfind.
        now rewrite (find_none_filter _ _ Hfind).
Qed.

(** ** Deleting the ballots of a user *)

Lemma ballotsOf_filter uid sid keep db :
  ballotsOf uid sid (withVotes db (filter keep (votes db)))
  = List.length (filter (fun v => keep v && Vote.sameKey uid (Some sid) v) (votes db)).
Proof. unfold ballotsOf. simpl. now rewrite filter_filter. Qed.

(** [Vote.deleteVotesByUserId] removes the ballots of the user and nothing
    else: users, sessions and the ballots of everyone else stay; the user
    is left without a ballot in any session; the value returned tells
    whether there was one; and each session's total drops by the number of
    ballots the user had in it. *)
Theorem deleteVotesByUserId_removes_exactly_the_users_ballots (uid : ObjectId) (db : Db) :
  let db' := snd (Vote.deleteVotesByUserId uid db) in
  users db' = users db /\
  sessions db' = sessions db /\
  (forall v, In v (votes db') <-> In v (votes db) /\ userId v <> uid) /\
  (forall sid, ballotsOf uid sid db' = 0) /\
  (forall other sid, other <> uid -> ballotsOf other sid db' = ballotsOf other sid db) /\
  (fst (Vote.deleteVotesByUserId uid db) = true <-> ballotsBy uid db <> []) /\
  (forall sid, totalVotes (Vote.getSessionResults sid db') + ballotsOf uid sid db
               = totalVotes (Vote.getSessionResults sid db)).
Proof.
  unfold Vote.deleteVotesByUserId, Vote.deleteMany. cbn [fst snd].
  repeat apply conj; try reflexivity.
  - intros v. cbn [votes withVotes]. rewrite filter_In, negb_true_iff, Nat.eqb_neq. tauto.
  - intros sid. rewrite ballotsOf_filter. rewrite filter_none; [reflexivity|].
    intros v _. unfold Vote.sameKey. destruct (Nat.eqb (userId v) uid); reflexivity.
  - intros other sid Hne. rewrite ballotsOf_filter. unfold ballotsOf. f_equal.
    apply filter_same. intros v _. unfold Vote.sameKey.
    destruct (Nat.eqb (userId v) uid) eqn:E; simpl; [|reflexivity].
    apply Nat.eqb_eq in E. rewrite E.
    assert (Nat.eqb uid other = false) by (apply Nat.eqb_neq; congruence).
    now rewrite H.
  - unfold ballotsBy. destruct (filter _ (votes db)); cbv; intros; congruence.
  - unfold ballotsBy. destruct (filter _ (votes db)); cbv; intros; congruence.
  - intros sid. unfold Vote.getSessionResults, Vote.countDocuments, ballotsOf. simpl.
    rewrite filter_filter.
    rewrite (filter_split_length (Vote.inSession sid)
                                 (fun v => Nat.eqb (userId v) uid) (votes db)).
    rewrite Nat.add_comm. f_equal; f_equal; apply filter_same; intros v _.
    + unfold Vote.sameKey, Vote.inSession. apply andb_comm.
    + apply andb_comm.
Qed.

(** ** Deleting a session *)

Lemma find_filter_out {A : Type} (key : A -> nat) (id other : nat) (l : list A) :
  other <> id ->
  find (fun x => Nat.eqb (key x) other) (filter (fun x => negb (Nat.eqb (key x) id)) l)
  = find (fun x => Nat.eqb (key x) other) l.
Proof.
  intros Hne. induction l as [|x l IH]; simpl; [reflexivity|].
  destruct (Nat.eqb (key x) id) eqn:E; simpl.
  - apply Nat.eqb_eq in E.
    assert (H : Nat.eqb (key x) other = false) by (apply Nat.eqb_neq; congruence).
    now rewrite H.
  - now rewrite IH.
Qed.

Lemma find_filter_gone {A : Type} (key : A -> nat) (id : nat) (l : list A) :
  find (fun x => Nat.eqb (key x) id) (filter (fun x => negb (Nat.eqb (key x) id)) l) = None.
Proof.
  induction l as [|x l IH]; simpl; [reflexivity|].
  destruct (Nat.eqb (key x) id) eqn:E; simpl; [exact IH|now rewrite E].
Qed.

Lemma inSession_true sid v : Vote.inSession sid v = true <-> votingSessionId v = Some sid.
Proof. unfold Vote.inSession. apply optId_eqb_eq. Qed.

Lemma session_ballots_after_cascade id other (l : list VoteDoc) :
  other <> id ->
  filter (Vote.inSession other) (filter (fun v => negb (Vote.inSession id v)) l)
  = filter (Vote.inSession other) l.
Proof.
  intros Hne. rewrite filter_filter. apply filter_same. intros v _.
  destruct (Vote.inSession other v) eqn:E; [|apply andb_false_r].
  apply inSession_true in E.
  destruct (Vote.inSession id v) eqn:E'; [|reflexivity].
  apply inSession_true in E'. congruence.
Qed.

(** Deleting a session cascades.  When the session exists the reply is
    200, the session is gone, the other sessions and the users are as
    before, exactly the ballots of the session are removed, its results
    read as empty, and the results of every other session are unchanged.
    When it does not exist the reply is 404 and nothing changes. *)
Theorem deleteVotingSession_cascades (id : ObjectId) (db : Db) :
  (VotingSession.findById db id = None ->
   votingSessionController.deleteVotingSession id db
   = (reply 404 "Voting session not found", db)) /\
  (forall s, VotingSession.findById db id = Some s ->
     let db' := snd (votingSessionController.deleteVotingSession id db) in
     fst (votingSessionController.deleteVotingSession id db)
     = reply 200 "Voting session and associated votes deleted successfully" /\
     users db' = users db /\
     VotingSession.findById db' id = None /\
     (forall other, other <> id ->
                    VotingSession.findById db' other = VotingSession.findById db other) /\
     (forall v, In v (votes db') <-> In v (votes db) /\ votingSessionId v <> Some id) /\
     Vote.getSessionResults id db' = mkResults [] 0 0 [] /\
     (forall other, other <> id ->
                    Vote.getSessionResults other db' = Vote.getSessionResults other db)).
Proof.
  unfold votingSessionController.deleteVotingSession, VotingSession.deleteById. split.
  - intros ->. reflexivity.
  - intros s ->. cbv zeta.
    unfold Vote.deleteVotesBySessionId, Vote.deleteMany. cbn [fst snd].
    repeat apply conj; try reflexivity.
    + unfold VotingSession.findById. cbn [sessions withVotes].
      apply (find_filter_gone s_id).
    + intros other Hne. unfold VotingSession.findById. cbn [sessions withVotes].
      now apply (find_filter_out s_id).
    + cbn [votes withVotes]. intros v. rewrite filter_In, negb_true_iff.
      split; intros [Hin Hv]; (split; [exact Hin|]).
      * intros E. apply inSession_true in E. congruence.
      * destruct (Vote.inSession id v) eqn:E; [|reflexivity].
        apply inSession_true in E. contradiction.
    + unfold Vote.getSessionResults, Vote.aggregate, Vote.countDocuments, Vote.distinct.
      cbn [votes withVotes]. rewrite filter_filter.
      rewrite (filter_none (fun x => negb (Vote.inSession id x) && Vote.inSession id x)).
      * reflexivity.
      * intros v _. now destruct (Vote.inSession id v).
    + intros other Hne.
      unfold Vote.getSessionResults, Vote.aggregate, Vote.countDocuments, Vote.distinct.
      cbn [votes withVotes]. now rewrite session_ballots_after_cascade.
Qed.

Lemma deleteVotingSession_cascades_witness :
  votingSessionController.deleteVotingSession 77 tallyDb
  = (reply 404 "Voting session not found", tallyDb) /\
  Vote.getSessionResults 10 (snd (votingSessionController.deleteVotingSession 10 tallyDb))
  = mkResults [] 0 0 [] /\
  Vote.getSessionResults 30 (snd (votingSessionController.deleteVotingSession 10 tallyDb))
  = Vote.getSessionResults 30 tallyDb.
Proof.
  split.
  - exact (proj1 (deleteVotingSession_cascades 77 tallyDb) eq_refl).
  - destruct (proj2 (deleteVotingSession_cascades 10 tallyDb) (board active) eq_refl)
      as (_ & _ & _ & _ & _ & Hempty & Hother).
    split; [exact Hempty|]. apply Hother. discriminate.
Defined.

(** ** Casting and looking the ballot up *)

Lemma find_snoc_miss {A : Type} (p : A -> bool) (l : list A) (x : A) :
  p x = false -> find p (l ++ [x]) = find p l.
Proof.
  intros Hx. induction l as [|y l IH]; simpl.
  - now rewrite Hx.
  - destruct (p y); [reflexivity|exact IH].
Qed.

(** [Vote.castVoteInSession] succeeds exactly when
    [Vote.hasUserVotedInSession] says no.  After a success the user has
    voted in the session, [getUserVoteInSession] returns the ballot just
    stored, which carries the trimmed name, the candidate id and the custom
    flag given, and the lookups of every other user or session answer as
    before.  When the user has voted already the model throws 'User has
    already voted in this voting session' and stores nothing. *)
Theorem cast_then_lookup
  (uid sid : ObjectId) (cd : CandidateData) (now : Date) (db : Db) :
  trim (cd_candidateName cd) <> "" ->
  (Vote.hasUserVotedInSession db uid sid = false ->
   exists vote db',
     Vote.castVoteInSession uid sid cd now db = (inr vote, db') /\
     Vote.hasUserVotedInSession db' uid sid = true /\
     Vote.getUserVoteInSession db' uid sid = Some vote /\
     candidateName vote = trim (cd_candidateName cd) /\
     candidateId vote = cd_candidateId cd /\
     isCustomCandidate vote = cd_isCustomCandidate cd /\
     (forall uid' sid', (uid', sid') <> (uid, sid) ->
        Vote.getUserVoteInSession db' uid' sid' = Vote.getUserVoteInSession db uid' sid')) /\
  (Vote.hasUserVotedInSession db uid sid = true ->
   Vote.castVoteInSession uid sid cd now db
   = (inl (Error "User has already voted in this voting session"), db)).
Proof.
  intros Hname. unfold Vote.hasUserVotedInSession, Vote.getUserVoteInSession. split.
  - intros Hno. destruct (Vote.findOne db uid sid) eqn:Hfind; [discriminate|].
    pose proof (model_cast_fresh uid sid cd now db Hfind Hname) as Hcast.
    cbv zeta in Hcast.
    set (vote := mkVote (nextId db) uid (Some sid) (cd_candidateId cd)
                        (trim (cd_candidateName cd)) now (cd_isCustomCandidate cd)) in *.
    exists vote. eexists. split; [exact Hcast|].
    assert (Hkey : Vote.sameKey uid (Some sid) vote = true)
      by (now apply sameKey_refl).
    unfold Vote.findOne in *. cbn [votes].
    rewrite (find_snoc_first _ _ vote Hfind Hkey).
    repeat split.
    intros uid' sid' Hne. apply find_snoc_miss.
    destruct (Vote.sameKey uid' (Some sid') vote) eqn:E; [|reflexivity].
    apply sameKey_indexKey in E. unfold Vote.indexKey in E. simpl in E.
    exfalso. apply Hne. congruence.
  - intros Hyes. destruct (Vote.findOne db uid sid) eqn:Hfind; [|discriminate].
    now apply (model_cast_again uid sid cd now db v).
Qed.

Lemma cast_then_lookup_witness :
  exists vote db',
    Vote.castVoteInSession 3 10 (mkCandidateData (Some 12) " Bob " false) 150%Z
                           (sampleDb active) = (inr vote, db') /\
    Vote.getUserVoteInSession db' 3 10 = Some vote /\
    candidateName vote = "Bob" /\
    Vote.castVoteInSession 3 10 (mkCandidateData (Some 11) "Alice" false) 160%Z db'
    = (inl (Error "User has already voted in this voting session"), db').
Proof.
  destruct (cast_then_lookup 3 10 (mkCandidateData (Some 12) " Bob " false) 150%Z
                             (sampleDb active)) as [Hfresh _]; [discriminate|].
  destruct (Hfresh eq_refl) as (vote & db' & Hcast & Hvoted & Hget & Hname & _).
  exists vote, db'. repeat split; trivial.
  apply (cast_then_lookup 3 10 (mkCandidateData (Some 11) "Alice" false) 160%Z db');
    [discriminate|exact Hvoted].
Defined.

(** ** The legacy results *)







(** ** The ballots of a session, newest first *)

(** [Vote.getSessionVotes] returns the ballots of the session, each once,
    by time stamp with the newest first; there are as many as the results
    of the session count. *)
Theorem getSessionVotes_newest_first (sid : ObjectId) (db : Db) :
  Permutation (Vote.getSessionVotes sid db) (filter (Vote.inSession sid) (votes db)) /\
  (forall v, In v (Vote.getSessionVotes sid db)
             <-> In v (votes db) /\ votingSessionId v = Some sid) /\
  StronglySorted (fun a b => (timestamp b <= timestamp a)%Z) (Vote.getSessionVotes sid db) /\
  List.length (Vote.getSessionVotes sid db) = totalVotes (Vote.getSessionResults sid db).
Proof.
  assert (Hperm : Permutation (Vote.getSessionVotes sid db)
                              (filter (Vote.inSession sid) (votes db)))
    by apply sortBy_perm.
  repeat apply conj.
  - exact Hperm.
  - intros v. rewrite <- inSession_true, <- filter_In. split; intros H.
    + now apply (Permutation_in _ Hperm).
    + now apply (Permutation_in _ (Permutation_sym Hperm)).
  - apply Sorted_StronglySorted.
    + intros a b c Hab Hbc. lia.
    + assert (Hs : Sorted (fun a b => Z.leb (timestamp b) (timestamp a) = true)
                          (Vote.getSessionVotes sid db)).
      { apply sortBy_sorted. intros a b.
        destruct (Z.le_ge_cases (timestamp a) (timestamp b)) as [H|H];
          apply Z.leb_le in H; auto. }
      pose proof (Sorted_map_rel (fun v : VoteDoc => v) _
                    (fun a b => (timestamp b <= timestamp a)%Z) _
                    (fun a b H => proj1 (Z.leb_le _ _) H) Hs) as Hm.
      now rewrite map_id in Hm.
  - apply (Permutation_length Hperm).
Qed.

(** ** The ballots of a user *)

Lemma findById_session_id db sid s :
  VotingSession.findById db sid = Some s -> s_id s = sid.
Proof.
  unfold VotingSession.findById. intros H. apply find_some in H as [_ H].
  now apply Nat.eqb_eq.
Qed.

Lemma userVoteViews_all db (l : list VoteDoc) :
  (forall v, In v l -> Vote.populateSession db v <> None) ->
  exists views, Vote.userVoteViews db l = inr views /\ Forall2 shows views l.
Proof.
  induction l as [|v l IH]; simpl; intros H.
  - exists []. split; [reflexivity|constructor].
  - destruct (Vote.populateSession db v) as [s|] eqn:E;
      [|exfalso; now apply (H v (or_introl eq_refl))].
    destruct IH as (views & -> & Hviews); [intros x Hx; apply H; now right|].
    eexists. split; [reflexivity|]. constructor; [|exact Hviews].
    unfold Vote.populateSession in E.
    destruct (votingSessionId v) as [sid|] eqn:Hsid; [|discriminate].
    apply findById_session_id in E. unfold shows. simpl. rewrite E. auto.
Qed.

Lemma userVoteViews_dangling db (l : list VoteDoc) :
  (exists v, In v l /\ Vote.populateSession db v = None) ->
  Vote.userVoteViews db l = inl (CannotReadProperty "_id").
Proof.
  induction l as [|v l IH]; simpl; intros (x & Hin & Hx); [contradiction|].
  destruct (Vote.populateSession db v) as [s|] eqn:E; [|reflexivity].
  destruct Hin as [->|Hin]; [congruence|].
  rewrite IH; [reflexivity|]. now exists x.
Qed.

Lemma Forall2_shows_timestamps views l :
  Forall2 shows views l -> map Vote.uv_timestamp views = map timestamp l.
Proof.
  induction 1 as [|view v views l Hs _ IH]; simpl; [reflexivity|].
  destruct Hs as (_ & _ & _ & _ & Ht). now rewrite Ht, IH.
Qed.

Lemma Forall2_shows_each views l :
  Forall2 shows views l ->
  List.length views = List.length l /\
  (forall view, In view views -> exists v, In v l /\ shows view v) /\
  (forall v, In v l -> exists view, In view views /\ shows view v).
Proof.
  induction 1 as [|view v views l Hs _ (IH1 & IH2 & IH3)]; simpl.
  - repeat split; intros ? [].
  - repeat split.
    + now rewrite IH1.
    + intros x [<-|Hx]; [exists v; auto|].
      destruct (IH2 x Hx) as (y & Hy & Hxy). exists y. auto.
    + intros y [<-|Hy]; [exists view; auto|].
      destruct (IH3 y Hy) as (x & Hx & Hxy). exists x. auto.
Qed.

(** GET /votes/user/my-votes.  When every ballot of the caller names a
    session that exists, the reply is 200 and lists the caller's ballots,
    each once and nobody else's, newest first, each with the id of its
    session, and [totalVotes] is their number.  When one ballot of the
    caller names a session that is gone, the whole listing fails with
    500. *)
Theorem getUserVotes_lists_or_fails (reqUser : UserDoc) (db : Db) :
  ((forall v, In v (ballotsBy (u_id reqUser) db) -> Vote.populateSession db v <> None) ->
   exists views,
     voteController.getUserVotes reqUser db
     = send 200 "User votes retrieved successfully" (views, List.length views) /\
     List.length views = List.length (ballotsBy (u_id reqUser) db) /\
     StronglySorted (fun a b => (b <= a)%Z) (map Vote.uv_timestamp views) /\
     (forall view, In view views ->
        exists v, In v (votes db) /\ userId v = u_id reqUser /\ shows view v) /\
     (forall v, In v (votes db) -> userId v = u_id reqUser ->
        exists view, In view views /\ shows view v)) /\
  ((exists v, In v (ballotsBy (u_id reqUser) db) /\ Vote.populateSession db v = None) ->
   voteController.getUserVotes reqUser db = refuse 500 "Server error retrieving user votes").
Proof.
  set (uid := u_id reqUser).
  set (sorted := sortBy (fun a b => Z.leb (timestamp b) (timestamp a)) (ballotsBy uid db)).
  assert (Hperm : Permutation sorted (ballotsBy uid db)) by apply sortBy_perm.
  assert (Hget : Vote.getUserVotes db uid = Vote.userVoteViews db sorted) by reflexivity.
  unfold voteController.getUserVotes. fold uid. rewrite Hget. split.
  - intros Hall.
    destruct (userVoteViews_all db sorted) as (views & -> & Hviews).
    { intros v Hv. apply Hall. now apply (Permutation_in _ Hperm). }
    destruct (Forall2_shows_each _ _ Hviews) as (Hlen & Hfrom & Hto).
    exists views. repeat apply conj.
    + reflexivity.
    + rewrite Hlen. apply (Permutation_length Hperm).
    + rewrite (Forall2_shows_timestamps _ _ Hviews).
      apply Sorted_StronglySorted; [intros a b c Hab Hbc; lia|].
      apply (Sorted_map_rel timestamp
               (fun a b => Z.leb (timestamp b) (timestamp a) = true)).
      * intros a b H. now apply Z.leb_le.
      * apply sortBy_sorted. intros a b.
        destruct (Z.le_ge_cases (timestamp a) (timestamp b)) as [H|H];
          apply Z.leb_le in H; auto.
    + intros view Hview. destruct (Hfrom view Hview) as (v & Hv & Hs).
      apply (Permutation_in _ Hperm) in Hv. apply filter_In in Hv as [Hin Hu].
      apply Nat.eqb_eq in Hu. exists v. auto.
    + intros v Hin Hu. apply Hto. apply (Permutation_in _ (Permutation_sym Hperm)).
      apply filter_In. split; [exact Hin|]. now apply Nat.eqb_eq.
  - intros (v & Hv & Hnone). rewrite userVoteViews_dangling; [reflexivity|].
    exists v. split; [|exact Hnone]. now apply (Permutation_in _ (Permutation_sym Hperm)).
Qed.

Lemma getUserVotes_lists_or_fails_witness :
  voteController.getUserVotes alice tallyDb
  = send 200 "User votes retrieved successfully"
         ([ Vote.mkUserVoteView 23 30 "Annex" "C" false 140%Z;
            Vote.mkUserVoteView 20 10 "Board election" "A" false 110%Z ], 2) /\
  voteController.getUserVotes alice (mkDb people [board active] (votes tallyDb) 24)
  = refuse 500 "Server error retrieving user votes".
Proof.
  split; [reflexivity|].
  apply (proj2 (getUserVotes_lists_or_fails alice
                  (mkDb people [board active] (votes tallyDb) 24))).
  exists (mkVote 23 2 (Some 30) None "C" 140%Z false). split; [|reflexivity].
  simpl. auto.
Defined.

(** ** The authorization header *)

Lemma split_spaceless (s : string) : spaceless s = true -> split " "%char s = [s].
Proof.
  induction s as [|c rest IH]; simpl; [reflexivity|].
  intros H. apply andb_true_iff in H as [Hc Hrest]. apply negb_true_iff in Hc.
  rewrite Hc, (IH Hrest). reflexivity.
Qed.

Lemma split_first_word (word rest : string) :
  spaceless word = true ->
  split " "%char (word ++ String " "%char rest) = word :: split " "%char rest.
Proof.
  induction word as [|c word IH]; simpl; [reflexivity|].
  intros H. apply andb_true_iff in H as [Hc Hword]. apply negb_true_iff in Hc.
  rewrite Hc, (IH Hword). reflexivity.
Qed.

Lemma split_nonempty (s : string) : split " "%char s <> [].
Proof.
  destruct s as [|c rest]; simpl; [discriminate|].
  destruct (Ascii.eqb c " "%char); [discriminate|].
  destruct (split " "%char rest); discriminate.
Qed.

(** The token is the second word of the header, whatever the first word
    is: the scheme is never compared with 'Bearer', and what follows a
    second space is dropped.  A header of one word carries no token and is
    answered 401. *)
Theorem bearerToken_is_second_word (scheme token : string) :
  spaceless scheme = true ->
  spaceless token = true ->
  auth.bearerToken (Some (scheme ++ " " ++ token)) = Some token /\
  (forall trailer,
      auth.bearerToken (Some (scheme ++ " " ++ token ++ " " ++ trailer)) = Some token) /\
  (forall verify db,
      auth.authenticateToken verify (Some (scheme ++ " " ++ token)) db
      = auth.authenticateToken verify (Some ("Bearer " ++ token)) db) /\
  (forall verify db,
      scheme <> "" ->
      auth.authenticateToken verify (Some scheme) db
      = Rejected (reply 401 "Access token required")).
Proof.
  intros Hscheme Htoken.
  assert (Hhead : forall rest, String.eqb (scheme ++ String " "%char rest) "" = false).
  { intros rest. apply String.eqb_neq. destruct scheme; discriminate. }
  assert (Hone : auth.bearerToken (Some (scheme ++ " " ++ token)) = Some token).
  { unfold auth.bearerToken. simpl String.append. rewrite Hhead.
    rewrite (split_first_word scheme token Hscheme), (split_spaceless token Htoken).
    reflexivity. }
  repeat apply conj.
  - exact Hone.
  - intros trailer. unfold auth.bearerToken. simpl String.append. rewrite Hhead.
    rewrite (split_first_word scheme _ Hscheme), (split_first_word token _ Htoken).
    reflexivity.
  - intros verify db. unfold auth.authenticateToken. rewrite Hone.
    assert (Hb : auth.bearerToken (Some ("Bearer " ++ token)) = Some token).
    { unfold auth.bearerToken. simpl. now rewrite (split_spaceless token Htoken). }
    now rewrite Hb.
  - intros verify db Hne. unfold auth.authenticateToken, auth.bearerToken.
    apply String.eqb_neq in Hne. rewrite Hne.
    now rewrite (split_spaceless scheme Hscheme).
Qed.

Lemma bearerToken_is_second_word_witness :
  auth.bearerToken (Some "Basic carol.jwt") = Some "carol.jwt" /\
  auth.authenticateToken sampleVerify (Some "Basic carol.jwt") tallyDb = Next carol /\
  auth.authenticateToken sampleVerify (Some "carol.jwt") tallyDb
  = Rejected (reply 401 "Access token required").
Proof.
  destruct (bearerToken_is_second_word "Basic" "carol.jwt" eq_refl eq_refl)
    as (H1 & _ & H3 & H4).
  split; [|split].
  - exact H1.
  - exact (eq_trans (H3 sampleVerify tallyDb) eq_refl).
  - destruct (bearerToken_is_second_word "carol.jwt" "x" eq_refl eq_refl)
      as (_ & _ & _ & H). apply H. discriminate.
Defined.

(** ** Who may call what *)

Lemma requireUser_passes (reqUser : UserDoc) : auth.requireUser reqUser = Next reqUser.
Proof. unfold auth.requireUser. now destruct (role reqUser). Qed.



(** On the routes behind [requireUser] the second middleware never
    rejects: every caller the token check lets through reaches the
    handler, whatever the role.  Without a valid token the handler is not
    reached and the store is unchanged. *)
Theorem requireUser_routes_admit_every_authenticated_caller
  (verify : string -> option ObjectId) (authHeader : option string) (db : Db) :
  (forall reqUser, auth.authenticateToken verify authHeader db = Next reqUser ->
     (forall name now, votesRouter.post_root verify authHeader name now db
                       = voteController.castVote name reqUser now db) /\
     votesRouter.get_my_votes verify authHeader db
     = (voteController.getUserVotes reqUser db, db)) /\
  (forall r, auth.authenticateToken verify authHeader db = Rejected r ->
     (forall name now, votesRouter.post_root verify authHeader name now db = (r, db)) /\
     (forall body now, votingSessionsRouter.post_vote verify authHeader body now db = (r, db)) /\
     (res_status r = 401 \/ res_status r = 403 \/ res_status r = 404)).
Proof.
  unfold votesRouter.post_root, votesRouter.get_my_votes, votingSessionsRouter.post_vote,
    anyUser. split.
  - intros reqUser ->. rewrite requireUser_passes. split; reflexivity.
  - intros r Hr. rewrite Hr. repeat split.
    unfold auth.authenticateToken in Hr.
    repeat match type of Hr with
           | context [match ?x with _ => _ end] => destruct x
           end; inversion Hr; simpl; auto.
Qed.

Lemma requireUser_routes_admit_every_authenticated_caller_witness :
  votesRouter.get_my_votes sampleVerify (Some "Bearer carol.jwt") tallyDb
  = (voteController.getUserVotes carol tallyDb, tallyDb) /\
  votesRouter.post_root sampleVerify None (Some "Ann") 150%Z tallyDb
  = (reply 401 "Access token required", tallyDb).
Proof.
  split.
  - apply (proj1 (requireUser_routes_admit_every_authenticated_caller
                    sampleVerify (Some "Bearer carol.jwt") tallyDb) carol eq_refl).
  - apply (proj2 (requireUser_routes_admit_every_authenticated_caller
                    sampleVerify None tallyDb) _ eq_refl).
Defined.

(** ** Assigning users to a session *)

Lemma existsb_eqb_In (x : ObjectId) (l : list ObjectId) :
  existsb (Nat.eqb x) l = true <-> In x l.
Proof.
  rewrite existsb_exists. split.
  - intros (y & Hy & E). apply Nat.eqb_eq in E. now subst.
  - intros H. exists x. split; [exact H|apply Nat.eqb_refl].
Qed.

Lemma existsb_eqb_flip (x : ObjectId) (l : list ObjectId) :
  existsb (fun y => Nat.eqb y x) l = existsb (Nat.eqb x) l.
Proof.
  induction l as [|y l IH]; simpl; [reflexivity|]. now rewrite IH, Nat.eqb_sym.
Qed.




Lemma addToSet_extends (values : list ObjectId) : forall set,
  exists added, VotingSession.addToSet values set = (set ++ added)%list /\
                forall x, In x added -> In x values /\ ~ In x set.
Proof.
  unfold VotingSession.addToSet.
  induction values as [|v values IH]; intros set; simpl.
  - exists []. split; [now rewrite app_nil_r|intros x []].
  - destruct (existsb (Nat.eqb v) set) eqn:E.
    + destruct (IH set) as (added & -> & H). exists added. split; [reflexivity|].
      intros x Hx. destruct (H x Hx). auto.
    + destruct (IH (set ++ [v])%list) as (added & E' & H).
      exists (v :: added).
      split; [etransitivity; [exact E'|now rewrite <- app_assoc]|].
      intros x [<-|Hx].
      * split; [now left|]. intros Hin. apply existsb_eqb_In in Hin. congruence.
      * destruct (H x Hx) as [H1 H2]. split; [now right|].
        intros Hin. apply H2. apply in_app_iff. now left.
Qed.


Lemma pullIn_after_addToSet (values set : list ObjectId) :
  (forall x, In x values -> ~ In x set) ->
  VotingSession.pullIn values (VotingSession.addToSet values set) = set.
Proof.
  intros Hnew. destruct (addToSet_extends values set) as (added & -> & Hadded).
  unfold VotingSession.pullIn. rewrite filter_app.
  rewrite (filter_none _ added).
  - rewrite app_nil_r. induction set as [|y set IH]; simpl; [reflexivity|].
    destruct (existsb (Nat.eqb y) values) eqn:E.
    + apply existsb_eqb_In in E. exfalso. apply (Hnew y E). now left.
    + simpl. f_equal. apply IH.
      * intros x Hx Hin. apply (Hnew x Hx). now right.
      * intros x Hx. destruct (Hadded x Hx) as [H1 H2]. split; [exact H1|].
        intros Hin. apply H2. now right.
  - intros x Hx. apply negb_false_iff, existsb_eqb_In. now apply Hadded.
Qed.

(** [findByIdAndUpdate] on the session collection: what it returns and
    what it leaves. *)
Lemma update_miss id update docs :
  find (fun s => Nat.eqb (s_id s) id) docs = None ->
  VotingSession.findByIdAndUpdate id update docs = (None, docs).
Proof.
  induction docs as [|s docs IH]; simpl; [reflexivity|].
  destruct (Nat.eqb (s_id s) id); [discriminate|].
  intros H. now rewrite (IH H).
Qed.

Lemma update_hit id update docs s :
  (forall x, s_id (update x) = s_id x) ->
  find (fun x => Nat.eqb (s_id x) id) docs = Some s ->
  exists docs',
    VotingSession.findByIdAndUpdate id update docs = (Some (update s), docs') /\
    find (fun x => Nat.eqb (s_id x) id) docs' = Some (update s) /\
    (forall other, other <> id ->
       find (fun x => Nat.eqb (s_id x) other) docs'
       = find (fun x => Nat.eqb (s_id x) other) docs) /\
    map s_id docs' = map s_id docs.
Proof.
  intros Hid. induction docs as [|y docs IH]; simpl; [discriminate|].
  destruct (Nat.eqb (s_id y) id) eqn:E.
  - intros H. inversion H; subst y. eexists. split; [reflexivity|].
    simpl. rewrite Hid, E. split; [reflexivity|split].
    + intros other Hne. apply Nat.eqb_eq in E.
      assert (Nat.eqb (s_id s) other = false) by (apply Nat.eqb_neq; congruence).
      now rewrite H0.
    + reflexivity.
  - intros H. destruct (IH H) as (docs' & -> & Hfind & Hother & Hids).
    eexists. split; [reflexivity|]. simpl. rewrite E. split; [exact Hfind|split].
    + intros other Hne. destruct (Nat.eqb (s_id y) other); [reflexivity|now apply Hother].
    + now rewrite Hids.
Qed.

Lemma isUserAssigned_of db id s u :
  VotingSession.findById db id = Some s ->
  VotingSession.isUserAssignedToSession db id u = true <-> In u (assignedUsers s).
Proof.
  intros H. unfold VotingSession.isUserAssignedToSession. rewrite H.
  rewrite existsb_eqb_flip. apply existsb_eqb_In.
Qed.

Lemma all_found_forallb db (ids : list ObjectId) :
  (forall u, In u ids -> User.findById db u <> None) ->
  forallb (fun uid => match User.findById db uid with Some _ => true | None => false end) ids
  = true.
Proof.
  intros H. apply forallb_forall. intros u Hu.
  destruct (User.findById db u) eqn:E; [reflexivity|]. now apply H in Hu.
Qed.



(** ** Removing users from a session *)

Lemma update_twice id f g docs s :
  (forall x, s_id (f x) = s_id x) ->
  find (fun x => Nat.eqb (s_id x) id) docs = Some s ->
  g (f s) = s ->
  snd (VotingSession.findByIdAndUpdate id g
         (snd (VotingSession.findByIdAndUpdate id f docs))) = docs.
Proof.
  intros Hid. induction docs as [|y docs IH]; simpl; [discriminate|].
  destruct (Nat.eqb (s_id y) id) eqn:E.
  - intros H Hback. inversion H; subst y. simpl. rewrite Hid, E. simpl. now rewrite Hback.
  - intros H Hback.
    destruct (VotingSession.findByIdAndUpdate id f docs) as [found rest] eqn:Ef.
    simpl. rewrite E.
    specialize (IH H Hback). simpl in IH.
    destruct (VotingSession.findByIdAndUpdate id g rest) as [found' rest'] eqn:Eg.
    simpl in *. now rewrite IH.
Qed.

Lemma cast_by_unassigned body reqUser now db sid s :
  b_votingSessionId body = Some sid ->
  blank (b_candidateName body) = false ->
  VotingSession.findById db sid = Some s ->
  VotingSession.isUserAssignedToSession db sid (u_id reqUser) = false ->
  voteController.castVoteInSession body reqUser now db
  = (reply 403 "You are not assigned to this voting session", db).
Proof.
  intros Hsid Hblank Hfind Hassigned. unfold voteController.castVoteInSession.
  now rewrite Hsid, Hblank, Hfind, Hassigned.
Qed.




(** Assigning users who were not assigned and removing them again gives
    the store back as it was. *)
Theorem assign_then_remove_restores
  (id : ObjectId) (ids : list ObjectId) (db : Db) (s : SessionDoc) :
  ids <> [] ->
  (forall u, In u ids -> User.findById db u <> None) ->
  VotingSession.findById db id = Some s ->
  (forall u, In u ids -> ~ In u (assignedUsers s)) ->
  snd (votingSessionController.removeUsersFromSession id (Some ids)
         (snd (votingSessionController.assignUsersToSession id (Some ids) db))) = db.
Proof.
  intros Hne Hknown Hfind Hnew.
  unfold votingSessionController.assignUsersToSession,
    votingSessionController.removeUsersFromSession.
  destruct ids as [|i rest]; [contradiction|].
  rewrite (all_found_forallb db (i :: rest) Hknown). simpl negb. cbv iota.
  unfold VotingSession.assignUsersToSession, VotingSession.removeUsersFromSession.
  set (f := fun x => VotingSession.withAssignedUsers
                       x (VotingSession.addToSet (i :: rest) (assignedUsers x))).
  set (g := fun x => VotingSession.withAssignedUsers
                       x (VotingSession.pullIn (i :: rest) (assignedUsers x))).
  pose proof (update_twice id f g (sessions db) s (fun x => eq_refl) Hfind) as Hback.
  destruct (update_hit id f (sessions db) s (fun x => eq_refl) Hfind)
    as (docs1 & Hup1 & Hfind1 & _).
  rewrite Hup1 in *. cbn [fst snd sessions] in *.
  destruct (update_hit id g docs1 (f s) (fun x => eq_refl) Hfind1)
    as (docs2 & Hup2 & _).
  rewrite Hup2 in *. cbn [fst snd users votes nextId] in *.
  rewrite Hback; [now destruct db|].
  unfold g, f, VotingSession.withAssignedUsers. cbn [assignedUsers].
  rewrite pullIn_after_addToSet by exact Hnew. now destruct s.
Qed.

Lemma assign_then_remove_restores_witness :
  snd (votingSessionController.removeUsersFromSession 10 (Some [6])
         (snd (votingSessionController.assignUsersToSession 10 (Some [6]) tallyDb)))
  = tallyDb.
Proof.
  apply (assign_then_remove_restores 10 [6] tallyDb (board active)).
  - discriminate.
  - intros u [<-|[]]. discriminate.
  - reflexivity.
  - intros u [<-|[]]. simpl. intuition discriminate.
Defined.

(** What assigning and removing refuse, without touching the store: a
    missing or empty list of ids (400); for assigning, an id that is no
    user's (400), checked before the session is looked up; and a session
    that does not exist (404). *)
Theorem assignment_refusals (id : ObjectId) (db : Db) :
  votingSessionController.assignUsersToSession id None db
  = (refuse 400 "User IDs array is required", db) /\
  votingSessionController.assignUsersToSession id (Some []) db
  = (refuse 400 "User IDs array is required", db) /\
  votingSessionController.removeUsersFromSession id None db
  = (refuse 400 "User IDs array is required", db) /\
  votingSessionController.removeUsersFromSession id (Some []) db
  = (refuse 400 "User IDs array is required", db) /\
  (forall ids u, In u ids -> User.findById db u = None ->
     votingSessionController.assignUsersToSession id (Some ids) db
     = (refuse 400 "Some user IDs are invalid", db)) /\
  (forall ids, ids <> [] -> (forall u, In u ids -> User.findById db u <> None) ->
     VotingSession.findById db id = None ->
     votingSessionController.assignUsersToSession id (Some ids) db
     = (refuse 404 "Voting session not found", db)) /\
  (forall ids, ids <> [] -> VotingSession.findById db id = None ->
     votingSessionController.removeUsersFromSession id (Some ids) db
     = (refuse 404 "Voting session not found", db)).
Proof.
  repeat apply conj; try reflexivity.
  - intros ids u Hin Hnone. unfold votingSessionController.assignUsersToSession.
    destruct ids as [|i rest]; [contradiction|].
    assert (E : forallb (fun uid => match User.findById db uid with
                                    | Some _ => true | None => false end) (i :: rest) = false).
    { apply not_true_is_false. intros Hall.
      rewrite forallb_forall in Hall. specialize (Hall u Hin). now rewrite Hnone in Hall. }
    now rewrite E.
  - intros ids Hne Hknown Hfind. unfold votingSessionController.assignUsersToSession.
    destruct ids as [|i rest]; [contradiction|].
    rewrite (all_found_forallb db (i :: rest) Hknown). simpl negb. cbv iota.
    unfold VotingSession.assignUsersToSession.
    rewrite (update_miss id _ (sessions db) Hfind). now destruct db.
  - intros ids Hne Hfind. unfold votingSessionController.removeUsersFromSession.
    destruct ids as [|i rest]; [contradiction|].
    unfold VotingSession.removeUsersFromSession.
    rewrite (update_miss id _ (sessions db) Hfind). now destruct db.
Qed.

Lemma assignment_refusals_witness :
  votingSessionController.assignUsersToSession 77 (Some [2; 99]) tallyDb
  = (refuse 400 "Some user IDs are invalid", tallyDb) /\
  votingSessionController.assignUsersToSession 77 (Some [2]) tallyDb
  = (refuse 404 "Voting session not found", tallyDb).
Proof.
  destruct (assignment_refusals 77 tallyDb) as (_ & _ & _ & _ & H5 & H6 & _).
  split.
  - apply (H5 [2; 99] 99); [simpl; auto|reflexivity].
  - apply H6; [discriminate| |reflexivity].
    intros u [<-|[]]. discriminate.
Defined.

(** ** The candidates of a session *)

Lemma candidateMissing_present s cid :
  voteController.candidateMissing s false (Some cid) = false
  <-> exists c, In c (candidates s) /\ c_id c = cid.
Proof.
  unfold voteController.candidateMissing. simpl. rewrite negb_false_iff, existsb_exists.
  split; intros (c & Hc & E); exists c; (split; [exact Hc|]); now apply Nat.eqb_eq.
Qed.

(** Adding a candidate to a session that exists, under a name that is not
    blank: the reply is 200; the session gains one candidate, last in the
    list, with the trimmed name and description and an id of its own, and
    is otherwise as before; users and ballots are untouched; and from then
    on a ballot may name the new candidate's id, as it may name any id
    that was accepted before. *)
Theorem addCandidateToSession_adds
  (id : ObjectId) (name : string) (description : option string) (db : Db) (s : SessionDoc) :
  trim name <> "" ->
  VotingSession.findById db id = Some s ->
  let added := mkCandidate (nextId db) (trim name)
                 (trim (match description with Some d => d | None => "" end)) in
  exists s' db',
    votingSessionController.addCandidateToSession id (Some name) description db
    = (send 200 "Candidate added to voting session successfully"
            (s', (c_name added, c_description added)), db') /\
    VotingSession.findById db' id = Some s' /\
    s' = VotingSession.withCandidates s (candidates s ++ [added]) /\
    users db' = users db /\ votes db' = votes db /\
    (forall other, other <> id ->
       VotingSession.findById db' other = VotingSession.findById db other) /\
    voteController.candidateMissing s' false (Some (c_id added)) = false /\
    (forall cid, voteController.candidateMissing s false (Some cid) = false ->
                 voteController.candidateMissing s' false (Some cid) = false).
Proof.
  intros Hname Hfind added.
  set (update := fun x => VotingSession.withCandidates x (candidates x ++ [added])).
  destruct (update_hit id update (sessions db) s (fun x => eq_refl) Hfind)
    as (docs' & Hup & Hfind' & Hother & _).
  exists (update s), (mkDb (users db) docs' (votes db) (S (nextId db))).
  repeat apply conj; try reflexivity.
  - unfold votingSessionController.addCandidateToSession.
    rewrite (blank_false name Hname). unfold VotingSession.addCandidate.
    rewrite !trim_idempotent. fold added. fold update. now rewrite Hup.
  - exact Hfind'.
  - exact Hother.
  - apply candidateMissing_present. exists added. split; [|reflexivity].
    simpl. apply in_app_iff. right. now left.
  - intros cid H. apply candidateMissing_present in H as (c & Hc & E).
    apply candidateMissing_present. exists c. split; [|exact E].
    simpl. apply in_app_iff. now left.
Qed.

Lemma addCandidateToSession_adds_witness :
  exists s' db',
    votingSessionController.addCandidateToSession 10 (Some " Carol ") None (sampleDb active)
    = (send 200 "Candidate added to voting session successfully" (s', ("Carol", "")), db') /\
    candidates s' = [mkCandidate 11 "Alice" ""; mkCandidate 12 "Bob" "";
                     mkCandidate 20 "Carol" ""].
Proof.
  destruct (addCandidateToSession_adds 10 " Carol " None (sampleDb active) (board active))
    as (s' & db' & Hctl & _ & Hs & _).
  - discriminate.
  - reflexivity.
  - exists s', db'. split; [exact Hctl|]. rewrite Hs. reflexivity.
Defined.

(** Removing a candidate from a session that exists: the reply is 200; the
    candidates with that id are gone and the others stay in order; users
    and ballots are untouched, so the ballots already cast for the
    candidate stay in the results; and a later cast that names the removed
    id, without the custom flag, is refused with 400 'Candidate not found
    in this voting session' once it has passed the earlier checks. *)
Theorem removeCandidateFromSession_removes
  (id cid : ObjectId) (db : Db) (s : SessionDoc) :
  VotingSession.findById db id = Some s ->
  exists s' db',
    votingSessionController.removeCandidateFromSession id cid db
    = (send 200 "Candidate removed from voting session successfully" s', db') /\
    VotingSession.findById db' id = Some s' /\
    s' = VotingSession.withCandidates s
           (filter (fun c => negb (Nat.eqb (c_id c) cid)) (candidates s)) /\
    (forall c, In c (candidates s') <-> In c (candidates s) /\ c_id c <> cid) /\
    users db' = users db /\ votes db' = votes db /\
    Vote.getSessionResults id db' = Vote.getSessionResults id db /\
    (forall body reqUser now,
        b_votingSessionId body = Some id ->
        blank (b_candidateName body) = false ->
        b_candidateId body = Some cid ->
        (b_isCustomCandidate body = None \/ b_isCustomCandidate body = Some false) ->
        VotingSession.isUserAssignedToSession db id (u_id reqUser) = true ->
        status s = active ->
        voteController.notStarted s now = false ->
        voteController.hasEnded s now = false ->
        voteController.castVoteInSession body reqUser now db'
        = (reply 400 "Candidate not found in this voting session", db')).
Proof.
  intros Hfind.
  set (update := fun x => VotingSession.withCandidates
                   x (filter (fun c => negb (Nat.eqb (c_id c) cid)) (candidates x))).
  destruct (update_hit id update (sessions db) s (fun x => eq_refl) Hfind)
    as (docs' & Hup & Hfind' & Hother & _).
  set (db' := mkDb (users db) docs' (votes db) (nextId db)).
  exists (update s), db'. repeat apply conj; try reflexivity.
  - unfold votingSessionController.removeCandidateFromSession,
      VotingSession.removeCandidate. fold update. now rewrite Hup.
  - exact Hfind'.
  - intros c. simpl. rewrite filter_In, negb_true_iff, Nat.eqb_neq. tauto.
  - intros body reqUser now Hsid Hblank Hcid Hflag Hassigned Hstatus Hstart Hend.
    assert (Hcustom : match b_isCustomCandidate body with Some b => b | None => false end
                      = false) by (destruct Hflag as [-> | ->]; reflexivity).
    assert (Hassigned' : VotingSession.isUserAssignedToSession db' id (u_id reqUser) = true).
    { apply (isUserAssigned_of db' id (update s) _ Hfind').
      now apply (isUserAssigned_of db id s _ Hfind). }
    assert (Hmissing : voteController.candidateMissing (update s) false (Some cid) = true).
    { destruct (voteController.candidateMissing (update s) false (Some cid)) eqn:E;
        [reflexivity|].
      apply candidateMissing_present in E as (c & Hc & E). simpl in Hc.
      apply filter_In in Hc as [_ Hc]. apply negb_true_iff, Nat.eqb_neq in Hc.
      contradiction. }
    assert (Hf : VotingSession.findById db' id = Some (update s)) by exact Hfind'.
    unfold voteController.castVoteInSession.
    rewrite Hsid, Hblank, Hf, Hassigned', Hcustom, Hcid.
    change (status (update s)) with (status s).
    change (voteController.notStarted (update s) now)
      with (voteController.notStarted s now).
    change (voteController.hasEnded (update s) now) with (voteController.hasEnded s now).
    now rewrite Hstatus, Hstart, Hend, Hmissing.
Qed.

Lemma removeCandidateFromSession_removes_witness :
  exists s' db',
    votingSessionController.removeCandidateFromSession 10 12 (sampleDb active)
    = (send 200 "Candidate removed from voting session successfully" s', db') /\
    candidates s' = [mkCandidate 11 "Alice" ""] /\
    voteController.castVoteInSession (mkCastBody (Some 10) (Some "Bob") (Some 12) None)
                                     bob 150%Z db'
    = (reply 400 "Candidate not found in this voting session", db').
Proof.
  destruct (removeCandidateFromSession_removes 10 12 (sampleDb active) (board active) eq_refl)
    as (s' & db' & Hctl & _ & Hs & _ & _ & _ & _ & Hcast).
  exists s', db'. split; [exact Hctl|]. split.
  - rewrite Hs. reflexivity.
  - apply Hcast; try reflexivity. now left.
Defined.

(** ** The sessions listed for a user *)

Lemma hasEnded_false_iff (s : SessionDoc) (now : Date) :
  voteController.hasEnded s now = false
  <-> match endDate s with Some finish => Z.geb finish now | None => true end = true.
Proof.
  unfold voteController.hasEnded. destruct (endDate s) as [finish|]; [|tauto].
  rewrite Z.gtb_ltb, Z.geb_leb, Z.ltb_ge, Z.leb_le. tauto.
Qed.

(** The sessions [getActiveSessionsForUser] returns at a time are those of
    the collection to which the user is assigned, whose status is active
    and whose end date, if set, is not past; the start date is not looked
    at.  Every session the user can cast a ballot in at that time is
    listed; a listed session that has not started yet still refuses the
    cast with 400 'Voting session has not started yet'. *)
Theorem getActiveSessionsForUser_ignores_start_date
  (uid : ObjectId) (now : Date) (db : Db) :
  (forall s, In s (VotingSession.getActiveSessionsForUser db uid now)
             <-> In s (sessions db) /\ In uid (assignedUsers s) /\
                 status s = active /\ voteController.hasEnded s now = false) /\
  (forall body reqUser sid s,
      u_id reqUser = uid ->
      passesGuards body reqUser now db sid s ->
      In s (VotingSession.getActiveSessionsForUser db uid now)) /\
  (forall body reqUser s,
      u_id reqUser = uid ->
      In s (VotingSession.getActiveSessionsForUser db uid now) ->
      VotingSession.findById db (s_id s) = Some s ->
      voteController.notStarted s now = true ->
      b_votingSessionId body = Some (s_id s) ->
      blank (b_candidateName body) = false ->
      voteController.castVoteInSession body reqUser now db
      = (reply 400 "Voting session has not started yet", db)).
Proof.
  assert (Hlisted : forall s, In s (VotingSession.getActiveSessionsForUser db uid now)
             <-> In s (sessions db) /\ In uid (assignedUsers s) /\
                 status s = active /\ voteController.hasEnded s now = false).
  { intros s. unfold VotingSession.getActiveSessionsForUser.
    rewrite filter_In, !andb_true_iff, existsb_eqb_In, SessionStatus_eqb_eq,
      hasEnded_false_iff. tauto. }
  repeat apply conj.
  - exact Hlisted.
  - intros body reqUser sid s Hu (_ & _ & Hfind & Hassigned & Hstatus & _ & Hend & _).
    apply Hlisted. repeat split; trivial.
    + unfold VotingSession.findById in Hfind. now apply find_some in Hfind.
    + apply (isUserAssigned_of db sid s uid Hfind). now rewrite <- Hu.
  - intros body reqUser s Hu Hin Hfind Hstart Hsid Hblank.
    apply Hlisted in Hin as (_ & Hassigned & Hstatus & _).
    unfold voteController.castVoteInSession. rewrite Hsid, Hblank, Hfind.
    assert (Ha : VotingSession.isUserAssignedToSession db (s_id s) (u_id reqUser) = true).
    { apply (isUserAssigned_of db (s_id s) s _ Hfind). now rewrite Hu. }
    now rewrite Ha, Hstatus, Hstart.
Qed.

Lemma getActiveSessionsForUser_ignores_start_date_witness :
  VotingSession.getActiveSessionsForUser (sampleDb active) 2 50%Z = [board active] /\
  voteController.castVoteInSession (mkCastBody (Some 10) (Some "Alice") None None)
                                   alice 50%Z (sampleDb active)
  = (reply 400 "Voting session has not started yet", sampleDb active).
Proof.
  split; [reflexivity|].
  destruct (getActiveSessionsForUser_ignores_start_date 2 50%Z (sampleDb active))
    as (_ & _ & H).
  apply (H _ alice (board active)); try reflexivity. simpl. auto.
Defined.

(** GET /voting-sessions/my-sessions answers 200 with one entry per
    session listed for the caller, in the same order.  An entry is marked
    as voted exactly when the caller has a ballot in that session, and then
    shows the candidate name, the time and the custom flag of a ballot of
    the caller in that session; otherwise it shows no ballot. *)
Theorem getUserVotingSessions_marks_votes (reqUser : UserDoc) (now : Date) (db : Db) :
  exists entries,
    votingSessionController.getUserVotingSessions reqUser now db
    = send 200 "User voting sessions retrieved successfully"
           (entries, List.length entries) /\
    map votingSessionController.sw_session entries
    = VotingSession.getActiveSessionsForUser db (u_id reqUser) now /\
    (forall e, In e entries ->
       let sid := s_id (votingSessionController.sw_session e) in
       (votingSessionController.sw_hasVoted e = true
        <-> 1 <= ballotsOf (u_id reqUser) sid db) /\
       (votingSessionController.sw_hasVoted e = false ->
        votingSessionController.sw_userVote e = None) /\
       (votingSessionController.sw_hasVoted e = true ->
        exists v, In v (votes db) /\ userId v = u_id reqUser /\
                  votingSessionId v = Some sid /\
                  votingSessionController.sw_userVote e
                  = Some (candidateName v, timestamp v, isCustomCandidate v))).
Proof.
  unfold votingSessionController.getUserVotingSessions. eexists. split; [reflexivity|].
  split; [rewrite map_map; apply map_id|].
  intros e He. apply in_map_iff in He as (s & <- & _). cbv zeta. simpl.
  unfold Vote.hasUserVotedInSession, Vote.getUserVoteInSession, ballotsOf, Vote.findOne.
  destruct (find (Vote.sameKey (u_id reqUser) (Some (s_id s))) (votes db)) as [v|] eqn:E.
  - repeat split; try discriminate.
    + intros _. apply find_some in E as [Hin Hv].
      assert (Hf : In v (filter (Vote.sameKey (u_id reqUser) (Some (s_id s))) (votes db)))
        by (apply filter_In; auto).
      destruct (filter _ (votes db)); [contradiction|simpl; lia].
    + intros _. apply find_some in E as [Hin Hv].
      apply sameKey_indexKey in Hv. unfold Vote.indexKey in Hv.
      exists v. repeat split; trivial; congruence.
  - repeat split; try discriminate.
    rewrite (find_none_filter _ _ E). simpl. lia.
Qed.

(** ** Creating a session *)

Lemma newCandidates_named cs : forall first,
  forallb (fun name => match name with
                       | Some n => negb (String.eqb (trim n) "")
                       | None => false
                       end) (map fst cs) = true ->
  List.length (VotingSession.newCandidates first cs) = List.length cs /\
  forall c, In c (VotingSession.newCandidates first cs) -> c_name c <> "".
Proof.
  induction cs as [|[name description] cs IH]; intros first; simpl.
  - intros _. split; [reflexivity|intros c []].
  - intros H. apply andb_true_iff in H as [Hn Hrest].
    destruct (IH (S first) Hrest) as [Hlen Hall]. split; [now rewrite Hlen|].
    intros c [<-|Hc]; [|now apply Hall]. simpl.
    destruct name as [n|]; [|discriminate].
    apply negb_true_iff, String.eqb_neq in Hn. exact Hn.
Qed.

Lemma no_invalid_users db (ids : list ObjectId) :
  Nat.ltb 0 (List.length
               (filter (fun uid => negb (existsb (fun u => Nat.eqb (u_id u) uid)
                                                 (User.findAll db))) ids)) = false ->
  forall u, In u ids -> User.findById db u <> None.
Proof.
  intros H u Hu Hnone.
  apply find_none_existsb in Hnone.
  assert (Hin : In u (filter (fun uid => negb (existsb (fun x => Nat.eqb (u_id x) uid)
                                                       (User.findAll db))) ids)).
  { apply filter_In. split; [exact Hu|]. unfold User.findAll. now rewrite Hnone. }
  destruct (filter (fun uid => negb (existsb (fun x => Nat.eqb (u_id x) uid)
                                            (User.findAll db))) ids);
    [contradiction|discriminate].
Qed.

(** POST /voting-sessions either answers 201 and stores one new session,
    or stores nothing.  The new session is a draft created by the caller,
    its title is the trimmed title sent, not empty and at most 200 long,
    every candidate has a name, and every assigned user exists.  Being a
    draft under an id of its own, it accepts no ballot as it is: any cast
    that names it is refused and writes nothing. *)
Theorem createVotingSession_starts_as_draft
  (body : votingSessionController.SessionBody) (reqUser : UserDoc) (db : Db) :
  let r := fst (votingSessionController.createVotingSession body reqUser db) in
  let db' := snd (votingSessionController.createVotingSession body reqUser db) in
  (ans_status r <> 201 -> db' = db) /\
  (ans_status r = 201 ->
   exists s,
     ans_body r = Some s /\
     users db' = users db /\ votes db' = votes db /\
     sessions db' = (sessions db ++ [s])%list /\
     s_id s = nextId db /\
     status s = draft /\
     createdBy s = u_id reqUser /\
     title s <> "" /\ String.length (title s) <= 200 /\
     List.length (candidates s)
     = List.length (votingSessionController.sb_candidates body) /\
     (forall c, In c (candidates s) -> c_name c <> "") /\
     assignedUsers s = votingSessionController.sb_assignedUsers body /\
     (forall u, In u (assignedUsers s) -> User.findById db u <> None) /\
     (VotingSession.findById db (nextId db) = None ->
      forall cast voter now,
        b_votingSessionId cast = Some (s_id s) ->
        snd (voteController.castVoteInSession cast voter now db') = db' /\
        res_status (fst (voteController.castVoteInSession cast voter now db')) <> 201)).
Proof.
  cbv zeta. unfold votingSessionController.createVotingSession.
  destruct (blank (votingSessionController.sb_title body)) eqn:Hblank;
    [simpl; split; [reflexivity|discriminate]|].
  destruct (Nat.ltb 0 _) eqn:Husers; [simpl; split; [reflexivity|discriminate]|].
  unfold VotingSession.create.
  destruct (VotingSession.invalidPaths _ _ _) as [|p ps] eqn:Hvalid;
    [|simpl; split; [reflexivity|discriminate]].
  cbn [fst snd ans_status ans_body send]. split; [intros H; now contradiction H|].
  intros _. eexists. split; [reflexivity|].
  apply blank_false_inv in Hblank as (t & Ht & Htrim).
  rewrite Ht in *.
  unfold VotingSession.invalidPaths in Hvalid.
  apply app_eq_nil in Hvalid as [Htitle Hvalid].
  apply app_eq_nil in Hvalid as [_ Hcands].
  rewrite trim_idempotent in Htitle.
  destruct (Nat.eqb (String.length (trim t)) 0 || Nat.ltb 200 (String.length (trim t)))
    eqn:Hlen; [discriminate|].
  apply orb_false_iff in Hlen as [_ Hlen]. apply Nat.ltb_ge in Hlen.
  match type of Hcands with
  | (if ?c then _ else _) = _ => destruct c eqn:Hnames; [|discriminate]
  end.
  destruct (newCandidates_named _ (S (nextId db)) Hnames) as [Hcount Hnamed].
  rewrite length_map in Hcount.
  cbn [users votes sessions s_id status createdBy title candidates assignedUsers].
  rewrite trim_idempotent.
  repeat apply conj; trivial.
  - now apply no_invalid_users.
  - intros Hfresh cast voter now Hsid.
    match goal with
    | |- context [voteController.castVoteInSession cast voter now ?d] => set (db' := d)
    end.
    match goal with
    | _ : _ |- _ =>
        match eval unfold db' in db' with
        | mkDb _ (_ ++ [?x])%list _ _ => set (s := x) in *
        end
    end.
    assert (Hfind : VotingSession.findById db' (nextId db) = Some s).
    { unfold VotingSession.findById. cbn [sessions db'].
      apply find_snoc_first; [exact Hfresh|]. simpl. apply Nat.eqb_refl. }
    destruct (castVoteInSession_guards_or_refused cast voter now db')
      as [(sid & s0 & Hpass) | (Hsame & Hno & _)]; [|now split].
    destruct Hpass as (Hsid' & _ & Hfind' & _ & Hstatus & _).
    assert (sid = nextId db) by (simpl in Hsid; congruence). subst sid.
    assert (s0 = s) by congruence. subst s0. discriminate.
Qed.

Lemma createVotingSession_starts_as_draft_witness :
  exists s db',
    votingSessionController.createVotingSession
      (votingSessionController.mkSessionBody (Some " Budget ") None
         [(Some "Yes", None); (Some "No", Some " keep ")] [2; 3] None None None)
      root (sampleDb active)
    = (send 201 "Voting session created successfully" s, db') /\
    s = mkSession 20 "Budget" [mkCandidate 21 "Yes" ""; mkCandidate 22 "No" "keep"]
                  [2; 3] draft None None false 1 /\
    voteController.castVoteInSession (mkCastBody (Some 20) (Some "Yes") (Some 21) None)
                                     alice 150%Z db'
    = (reply 400 "Voting session is not active", db').
Proof.
  pose proof (createVotingSession_starts_as_draft
                (votingSessionController.mkSessionBody (Some " Budget ") None
                   [(Some "Yes", None); (Some "No", Some " keep ")] [2; 3] None None None)
                root (sampleDb active)) as [_ H].
  destruct (H eq_refl) as (s & Hbody & _).
  eexists. eexists. split; [reflexivity|]. split; reflexivity.
Defined.

(** ** The default administrator *)

Lemma find_some_existsb {A : Type} (p : A -> bool) (l : list A) (x : A) :
  find p l = Some x -> existsb p l = true.
Proof.
  intros H. destruct (existsb p l) eqn:E; [reflexivity|].
  apply find_none_existsb in E. congruence.
Qed.

(** [initializeDefaultAdmin] leaves a store that has a user named 'admin'
    as it is.  Otherwise it appends the user admin, with the default
    address and the role admin, unless the default address is taken: then
    the error of the unique index is dropped and no administrator is
    created.  It never touches sessions, ballots or the users present, and
    running it a second time changes nothing. *)
Theorem initializeDefaultAdmin_once (db : Db) :
  let db' := User.initializeDefaultAdmin db in
  sessions db' = sessions db /\ votes db' = votes db /\
  (User.findByUsername db "admin" <> None -> db' = db) /\
  (User.findByUsername db "admin" = None ->
   User.findByEmail db "admin@voting-app.com" = None ->
   users db' = (users db ++ [mkUser (nextId db) "admin" "admin@voting-app.com" admin])%list) /\
  (User.findByUsername db "admin" = None ->
   User.findByEmail db "admin@voting-app.com" <> None ->
   db' = db) /\
  (exists added, users db' = (users db ++ added)%list) /\
  User.initializeDefaultAdmin db' = db'.
Proof.
  cbv zeta. unfold User.initializeDefaultAdmin.
  destruct (User.findByUsername db "admin") as [existing|] eqn:Hname.
  - rewrite Hname. repeat split; try congruence.
    exists []. now rewrite app_nil_r.
  - unfold User.save. cbn [User.invalidPaths].
    change (User.invalidPaths "admin" "admin@voting-app.com" "admin123") with (@nil string).
    change (trim "admin") with "admin".
    change (User.toLowerCase (trim "admin@voting-app.com")) with "admin@voting-app.com".
    unfold User.findByUsername in Hname.
    rewrite (proj1 (find_none_existsb _ _) Hname).
    unfold User.findByEmail.
    destruct (find (fun u => String.eqb (email u) "admin@voting-app.com") (users db))
      as [holder|] eqn:Hmail.
    + rewrite (find_some_existsb _ _ _ Hmail). cbn [snd].
      unfold User.findByUsername. rewrite Hname.
      rewrite (proj1 (find_none_existsb _ _) Hname), (find_some_existsb _ _ _ Hmail).
      repeat split; try congruence.
      exists []. now rewrite app_nil_r.
    + rewrite (proj1 (find_none_existsb _ _) Hmail). cbn [snd users sessions votes].
      repeat split; try congruence.
      * now eexists.
      * unfold User.findByUsername. cbn [users].
        now rewrite (find_snoc_first
                       _ _ (mkUser (nextId db) "admin" "admin@voting-app.com" admin)
                       Hname eq_refl).
Qed.

Lemma initializeDefaultAdmin_once_witness :
  User.initializeDefaultAdmin tallyDb = tallyDb /\
  users (User.initializeDefaultAdmin (mkDb [alice] [] [] 7))
  = [alice; mkUser 7 "admin" "admin@voting-app.com" admin].
Proof.
  destruct (initializeDefaultAdmin_once tallyDb) as (_ & _ & H & _).
  destruct (initializeDefaultAdmin_once (mkDb [alice] [] [] 7)) as (_ & _ & _ & H' & _).
  split.
  - apply H. discriminate.
  - apply H'; reflexivity.
Defined.

(** ** User statistics *)

Lemma roles_partition (l : list UserDoc) :
  List.length l
  = List.length (filter (fun u => Role_eqb (role u) user) l)
    + List.length (filter (fun u => Role_eqb (role u) admin) l).
Proof.
  induction l as [|u l IH]; simpl; [reflexivity|].
  destruct (role u); simpl; lia.
Qed.

Lemma voted_iff_listed db (uid : ObjectId) :
  existsb (Nat.eqb uid) (map userId (Vote.getAllVotes db)) = Vote.hasUserVoted db uid.
Proof.
  unfold Vote.hasUserVoted, Vote.getUserVote, Vote.getAllVotes.
  induction (votes db) as [|v l IH]; simpl; [reflexivity|].
  rewrite (Nat.eqb_sym uid). destruct (Nat.eqb (userId v) uid); simpl; [reflexivity|exact IH].
Qed.

(** GET /users/stats.  When every ballot belongs to a user who exists, the
    reply is 200 and the numbers add up: all users are the regular ones
    plus the administrators, the regular users are those who voted plus
    those who did not, [usersWhoVoted] counts the regular users with a
    ballot in any session, which is the [votedCount] of GET
    /users/with-votes, and [totalVotes] is the size of the ballot
    collection.  When one ballot belongs to a user who is gone, the reply
    is 500. *)
Theorem getUserStats_adds_up (db : Db) :
  ((forall v, In v (votes db) -> User.findById db (userId v) <> None) ->
   exists st,
     userController.getUserStats db
     = send 200 "User statistics retrieved successfully" st /\
     userController.st_totalUsers st = List.length (users db) /\
     userController.st_totalUsers st
     = userController.st_regularUsers st + userController.st_adminUsers st /\
     userController.st_regularUsers st
     = userController.st_usersWhoVoted st + userController.st_usersWhoNotVoted st /\
     userController.st_usersWhoVoted st
     = List.length (filter (fun u => Vote.hasUserVoted db (u_id u)) (User.findAllUsers db)) /\
     (exists listed,
        ans_body (userController.getUsersWithVoteStatus db)
        = Some (listed, userController.st_regularUsers st,
                userController.st_usersWhoVoted st)) /\
     userController.st_totalVotes st = List.length (votes db)) /\
  ((exists v, In v (votes db) /\ User.findById db (userId v) = None) ->
   userController.getUserStats db = refuse 500 "Server error retrieving user statistics").
Proof.
  unfold userController.getUserStats. split.
  - intros Hall.
    assert (E : forallb (fun vote => match User.findById db (userId vote) with
                                     | Some _ => true | None => false end)
                        (Vote.getAllVotes db) = true).
    { apply forallb_forall. intros v Hv.
      destruct (User.findById db (userId v)) eqn:Hf; [reflexivity|].
      now apply Hall in Hv. }
    rewrite E. eexists. split; [reflexivity|].
    cbn [userController.st_totalUsers userController.st_regularUsers
         userController.st_adminUsers userController.st_usersWhoVoted
         userController.st_usersWhoNotVoted userController.st_totalVotes].
    assert (Hsame : filter (fun u => existsb (Nat.eqb (u_id u))
                                             (map userId (Vote.getAllVotes db)))
                           (User.findAllUsers db)
                    = filter (fun u => Vote.hasUserVoted db (u_id u)) (User.findAllUsers db)).
    { apply filter_same. intros u _. apply voted_iff_listed. }
    rewrite Hsame.
    pose proof (filter_length_le (fun u => Vote.hasUserVoted db (u_id u))
                                 (User.findAllUsers db)) as Hle.
    repeat apply conj; try reflexivity.
    + apply roles_partition.
    + lia.
    + unfold userController.getUsersWithVoteStatus. cbn [ans_body send].
      eexists. rewrite length_map. f_equal. f_equal.
      clear. induction (User.findAllUsers db) as [|u l IH]; simpl; [reflexivity|].
      destruct (Vote.hasUserVoted db (u_id u)); simpl; now rewrite IH.
  - intros (v & Hv & Hnone).
    assert (E : forallb (fun vote => match User.findById db (userId vote) with
                                     | Some _ => true | None => false end)
                        (Vote.getAllVotes db) = false).
    { apply not_true_is_false. intros Hall. rewrite forallb_forall in Hall.
      specialize (Hall v Hv). now rewrite Hnone in Hall. }
    now rewrite E.
Qed.

Lemma getUserStats_adds_up_witness :
  userController.getUserStats tallyDb
  = send 200 "User statistics retrieved successfully" (userController.mkStats 5 4 1 3 1 4) /\
  userController.getUserStats (mkDb [root; bob] (sessions tallyDb) (votes tallyDb) 24)
  = refuse 500 "Server error retrieving user statistics".
Proof.
  split; [reflexivity|].
  apply (proj2 (getUserStats_adds_up (mkDb [root; bob] (sessions tallyDb) (votes tallyDb) 24))).
  exists (mkVote 20 2 (Some 10) None "A" 110%Z false). split; [simpl; auto|reflexivity].
Defined.

(** ** Saving a user *)

(** [save] of a user keeps user names and addresses unique.  What it
    stores is the trimmed name, 3 to 50 long, and the trimmed address in
    lower case, under a password of 6 or more; the new user is last in the
    collection and is the one [findByUsername] then finds.  When it throws
    nothing is stored. *)
Theorem user_save_keeps_names_unique
  (name address password : string) (r : Role) (db : Db) :
  NoDup (map username (users db)) ->
  NoDup (map email (users db)) ->
  let db' := snd (User.save name address password r db) in
  NoDup (map username (users db')) /\
  NoDup (map email (users db')) /\
  sessions db' = sessions db /\ votes db' = votes db /\
  (forall e, fst (User.save name address password r db) = inl e -> db' = db) /\
  (forall u, fst (User.save name address password r db) = inr u ->
     users db' = (users db ++ [u])%list /\
     username u = trim name /\
     email u = User.toLowerCase (trim address) /\
     role u = r /\
     3 <= String.length (username u) <= 50 /\
     email u <> "" /\
     6 <= String.length password /\
     User.findByUsername db' (username u) = Some u).
Proof.
  intros Hnames Hmails. cbv zeta. unfold User.save.
  destruct (User.invalidPaths name address password) as [|p ps] eqn:Hvalid;
    [|repeat split; trivial; discriminate].
  destruct (existsb (fun u => String.eqb (username u) (trim name)) (users db)) eqn:Hn;
    [repeat split; trivial; discriminate|].
  destruct (existsb (fun u => String.eqb (email u) (User.toLowerCase (trim address)))
                    (users db)) eqn:Hm;
    [repeat split; trivial; discriminate|].
  cbn [fst snd users sessions votes].
  unfold User.invalidPaths in Hvalid.
  apply app_eq_nil in Hvalid as [Hv1 Hv2]. apply app_eq_nil in Hv2 as [Hv2 Hv3].
  destruct (Nat.eqb (String.length (trim name)) 0 || Nat.ltb (String.length (trim name)) 3
            || Nat.ltb 50 (String.length (trim name))) eqn:Hlen; [discriminate|].
  apply orb_false_iff in Hlen as [Hlen Hmax]. apply orb_false_iff in Hlen as [_ Hmin].
  apply Nat.ltb_ge in Hmin, Hmax.
  destruct (String.eqb (User.toLowerCase (trim address)) "") eqn:Haddr; [discriminate|].
  apply String.eqb_neq in Haddr.
  destruct (Nat.ltb (String.length password) 6) eqn:Hpw; [discriminate|].
  apply Nat.ltb_ge in Hpw.
  repeat apply conj; trivial; try discriminate.
  - apply NoDup_map_snoc; [exact Hnames|]. intros Hin.
    apply in_map_iff in Hin as (x & Hx & Hxin).
    assert (existsb (fun u => String.eqb (username u) (trim name)) (users db) = true).
    { apply existsb_exists. exists x. split; [exact Hxin|]. now apply String.eqb_eq. }
    congruence.
  - apply NoDup_map_snoc; [exact Hmails|]. intros Hin.
    apply in_map_iff in Hin as (x & Hx & Hxin).
    assert (existsb (fun u => String.eqb (email u) (User.toLowerCase (trim address)))
                    (users db) = true).
    { apply existsb_exists. exists x. split; [exact Hxin|]. now apply String.eqb_eq. }
    congruence.
  - intros u Hu. inversion Hu; subst u. cbn [username email role].
    repeat split; trivial.
    unfold User.findByUsername. cbn [users].
    apply find_snoc_first; [now apply find_none_existsb|]. simpl. apply String.eqb_refl.
Qed.

Lemma user_save_keeps_names_unique_witness :
  fst (User.save " Erin " "Erin@Example.COM" "secret1" user (sampleDb active))
  = inr (mkUser 20 "Erin" "erin@example.com" user) /\
  fst (User.save "alice" "other@example.com" "secret1" user (sampleDb active))
  = inl (User.Duplicate "username") /\
  NoDup (map username
           (users (snd (User.save " Erin " "Erin@Example.COM" "secret1" user
                                  (sampleDb active))))).
Proof.
  split; [reflexivity|]. split; [reflexivity|].
  apply (user_save_keeps_names_unique " Erin " "Erin@Example.COM" "secret1" user
                                      (sampleDb active)).
  - repeat constructor; simpl; intuition discriminate.
  - repeat constructor; simpl; intuition discriminate.
Defined.

(** ** Polls: when a poll is active *)

Lemma Poll_Status_eqb_eq (a b : Poll.Status) : Poll.Status_eqb a b = true <-> a = b.
Proof. destruct a, b; simpl; split; congruence. Qed.

(** The three places that decide whether a poll is open agree: the
    virtual [isActive], the query of [getActiveUserPolls] and the test of
    [castVoteInPoll].  A poll is open from its start date on, that instant
    included, until its end date, that instant excluded; an active poll
    has not ended. *)
Theorem poll_activity_tests_agree
  (polls : Poll.Polls) (uid : ObjectId) (now : Date) (poll : Poll.PollDoc) :
  (In poll (Poll.getActiveUserPolls polls uid now)
   <-> In poll (Poll.docs polls) /\ In uid (Poll.p_assignedUsers poll) /\
       Poll.isActive poll now = true) /\
  voteController.pollNotCurrentlyActive
    (Poll.Status_eqb (Poll.p_status poll) Poll.active)
    (Poll.p_startDate poll) (Poll.p_endDate poll) now
  = negb (Poll.isActive poll now) /\
  (Poll.isActive poll now = true
   <-> Poll.p_status poll = Poll.active /\
       (Poll.p_startDate poll <= now < Poll.p_endDate poll)%Z) /\
  (Poll.isActive poll now = true -> Poll.hasEnded poll now = false) /\
  Poll.isActive poll (Poll.p_endDate poll) = false.
Proof.
  assert (Hact : Poll.isActive poll now = true
                 <-> Poll.p_status poll = Poll.active /\
                     (Poll.p_startDate poll <= now < Poll.p_endDate poll)%Z).
  { unfold Poll.isActive. rewrite !andb_true_iff, Poll_Status_eqb_eq, Z.leb_le, Z.gtb_ltb,
      Z.ltb_lt. tauto. }
  repeat apply conj.
  - unfold Poll.getActiveUserPolls, Poll.isActive.
    rewrite filter_In, !andb_true_iff, existsb_eqb_In. tauto.
  - unfold Poll.getActiveUserPolls, Poll.isActive.
    rewrite filter_In, !andb_true_iff, existsb_eqb_In. tauto.
  - unfold voteController.pollNotCurrentlyActive, Poll.isActive.
    rewrite !Z.gtb_ltb.
    destruct (Poll.Status_eqb (Poll.p_status poll) Poll.active); simpl; [|reflexivity].
    destruct (Z.ltb_spec now (Poll.p_startDate poll)),
             (Z.leb_spec (Poll.p_startDate poll) now),
             (Z.leb_spec (Poll.p_endDate poll) now),
             (Z.ltb_spec now (Poll.p_endDate poll)); simpl; try reflexivity; lia.
  - apply Hact.
  - apply Hact.
  - intros H. apply Hact in H as [Hs [_ Hlt]]. unfold Poll.hasEnded. rewrite Hs. simpl.
    apply Z.leb_gt. exact Hlt.
  - unfold Poll.isActive. rewrite Z.gtb_ltb, Z.ltb_irrefl. apply andb_false_r.
Qed.

(** ** Polls: the status machine *)








(** ** Polls: creation *)

(** POST /polls either answers 201 and stores one new poll, or stores
    nothing.  The new poll is a draft of the caller's whose start is not
    before the time of the request and whose end is after its start; its
    title and description are not empty, every candidate has a name, at
    least one vote per user is allowed, every assigned user exists; being a
    draft it is active at no time. *)
Theorem createPoll_stores_a_draft
  (body : PollBody) (reqUser : UserDoc) (now : Date) (db : Db) (polls : Poll.Polls) :
  let r := fst (pollController.createPoll body reqUser now db polls) in
  let polls' := snd (pollController.createPoll body reqUser now db polls) in
  (ans_status r <> 201 -> polls' = polls) /\
  (ans_status r = 201 ->
   exists poll,
     Poll.docs polls' = (Poll.docs polls ++ [poll])%list /\
     Poll.p_id poll = Poll.fresh polls /\
     Poll.p_status poll = Poll.draft /\
     Poll.p_createdBy poll = u_id reqUser /\
     (now <= Poll.p_startDate poll < Poll.p_endDate poll)%Z /\
     Poll.p_title poll <> "" /\
     Poll.p_description poll <> "" /\
     (1 <= Poll.p_maxVotesPerUser poll)%Z /\
     (forall c, In c (Poll.p_candidates poll) -> c_name c <> "") /\
     (forall u, In u (Poll.p_assignedUsers poll) -> User.findById db u <> None) /\
     (forall t, Poll.isActive poll t = false) /\
     (Poll.findById polls (Poll.fresh polls) = None -> ans_body r = Some poll)).
Proof.
  cbv zeta. unfold pollController.createPoll.
  destruct (pb_startDate body) as [start|];
    [|simpl; split; [reflexivity|discriminate]].
  destruct (pb_endDate body) as [finish|];
    [|simpl; split; [reflexivity|discriminate]].
  destruct (pollController.falsy (pb_title body) || pollController.falsy (pb_description body));
    [simpl; split; [reflexivity|discriminate]|].
  destruct (Z.ltb start now) eqn:Hpast; [simpl; split; [reflexivity|discriminate]|].
  destruct (Z.leb finish start) eqn:Horder; [simpl; split; [reflexivity|discriminate]|].
  destruct (Nat.ltb 0 _) eqn:Husers; [simpl; split; [reflexivity|discriminate]|].
  unfold Poll.createPoll. cbn [Poll.pd_title Poll.pd_description Poll.pd_candidates
    Poll.pd_maxVotesPerUser Poll.pd_assignedUsers Poll.pd_createdBy Poll.pd_startDate
    Poll.pd_endDate Poll.pd_allowNewCandidates Poll.pd_isAnonymous Poll.pd_status].
  destruct (Poll.invalidPaths _ _ _ _) as [|p ps] eqn:Hvalid;
    [|simpl; split; [reflexivity|discriminate]].
  cbn [fst snd ans_status ans_body]. split; [intros H; now contradiction H|].
  intros _. eexists. split; [reflexivity|].
  unfold Poll.invalidPaths in Hvalid.
  apply app_eq_nil in Hvalid as [Htitle Hvalid].
  apply app_eq_nil in Hvalid as [Hdesc Hvalid].
  apply app_eq_nil in Hvalid as [Hcands Hmax].
  match type of Htitle with
  | (if ?c then _ else _) = _ => destruct c eqn:Ht; [discriminate|]
  end.
  match type of Hdesc with
  | (if ?c then _ else _) = _ => destruct c eqn:Hd; [discriminate|]
  end.
  match type of Hcands with
  | (if ?c then _ else _) = _ => destruct c eqn:Hnames; [|discriminate]
  end.
  match type of Hmax with
  | (if ?c then _ else _) = _ => destruct c eqn:Hm; [discriminate|]
  end.
  apply orb_false_iff in Ht as [Ht _]. apply orb_false_iff in Hd as [Hd _].
  apply Nat.eqb_neq in Ht, Hd.
  destruct (newCandidates_named _ (S (Poll.fresh polls)) Hnames) as [_ Hnamed].
  cbn [Poll.p_id Poll.p_status Poll.p_createdBy Poll.p_startDate Poll.p_endDate
       Poll.p_title Poll.p_description Poll.p_maxVotesPerUser Poll.p_candidates
       Poll.p_assignedUsers].
  repeat apply conj; trivial; try lia.
  - intros E. rewrite E in Ht. now apply Ht.
  - intros E. rewrite E in Hd. now apply Hd.
  - now apply no_invalid_users.
  - intros Hfresh. unfold Poll.findById. cbn [Poll.docs Poll.p_id].
    apply find_snoc_first; [exact Hfresh|]. simpl. apply Nat.eqb_refl.
Qed.

Lemma createPoll_stores_a_draft_witness :
  exists poll polls',
    pollController.createPoll
      (mkPollBody (Some "Lunch") (Some "Where to") [(Some "Here", None)] [3]
                  (Some 300%Z) (Some 400%Z) None None None)
      alice 250%Z (sampleDb active) emptyPolls
    = (mkAnswer 201 "Poll created successfully" (Some poll), polls') /\
    Poll.p_status poll = Poll.draft /\
    fst (pollController.createPoll
           (mkPollBody (Some "Lunch") (Some "Where to") [] []
                       (Some 300%Z) (Some 300%Z) None None None)
           alice 250%Z (sampleDb active) emptyPolls)
    = refuse 400 "End date must be after start date".
Proof.
  destruct (createPoll_stores_a_draft
              (mkPollBody (Some "Lunch") (Some "Where to") [(Some "Here", None)] [3]
                          (Some 300%Z) (Some 400%Z) None None None)
              alice 250%Z (sampleDb active) emptyPolls) as [_ H].
  destruct (H eq_refl) as (poll & _ & _ & Hstatus & _ & _ & _ & _ & _ & _ & _ & _ & Hbody).
  exists poll. eexists. split; [|split; [exact Hstatus|reflexivity]].
  specialize (Hbody eq_refl). simpl in Hbody. inversion Hbody. reflexivity.
Defined.

(** ** Polls: who may change them *)

(** A caller who is neither administrator nor creator of a poll changes
    nothing through the handlers that activate, end, assign to, remove
    from or delete it, and none of them answers 200.  Deleting changes
    nothing for any caller: after the permission check the handler calls a
    method the ballot model does not have. *)
Theorem strangers_cannot_change_polls
  (pollId : ObjectId) (reqUser : UserDoc) (db : Db) (polls : Poll.Polls) :
  (forall poll, Poll.findById polls pollId = Some poll -> mayManage reqUser poll = false) ->
  (snd (pollController.activatePoll pollId reqUser db polls) = polls /\
   ans_status (fst (pollController.activatePoll pollId reqUser db polls)) <> 200) /\
  (snd (pollController.endPoll pollId reqUser db polls) = polls /\
   ans_status (fst (pollController.endPoll pollId reqUser db polls)) <> 200) /\
  (forall userIds,
     snd (pollController.assignUsers pollId userIds reqUser db polls) = polls /\
     ans_status (fst (pollController.assignUsers pollId userIds reqUser db polls)) <> 200) /\
  (forall userIds,
     snd (pollController.removeUsers pollId userIds reqUser db polls) = polls /\
     ans_status (fst (pollController.removeUsers pollId userIds reqUser db polls)) <> 200) /\
  (forall anyone,
     snd (pollController.deletePoll pollId anyone db polls) = polls /\
     ans_status (fst (pollController.deletePoll pollId anyone db polls)) <> 200).
Proof.
  intros Hstranger.
  assert (Hgate : forall poll, Poll.findById polls pollId = Some poll ->
            match pollController.isCreator db poll reqUser with
            | inl _ => True
            | inr creator => negb (Role_eqb (role reqUser) admin) && negb creator = true
            end).
  { intros poll Hfind. specialize (Hstranger poll Hfind).
    unfold pollController.isCreator.
    destruct (User.findById db (Poll.p_createdBy poll)) as [creator|] eqn:Hc; [|exact I].
    unfold mayManage in Hstranger. apply orb_false_iff in Hstranger as [Ha Hb].
    unfold User.findById in Hc. apply find_some in Hc as [_ Hc]. apply Nat.eqb_eq in Hc.
    rewrite Hc, Ha, Hb. reflexivity. }
  unfold pollController.activatePoll, pollController.endPoll, pollController.assignUsers,
    pollController.removeUsers, pollController.deletePoll.
  destruct (Poll.findById polls pollId) as [poll|] eqn:Hfind.
  - specialize (Hgate poll eq_refl).
    assert (Hdelete : forall anyone,
              snd (match pollController.isCreator db poll anyone with
                   | inl _ => (refuse 500 "Server error deleting poll", polls)
                   | inr creator =>
                       if negb (Role_eqb (role anyone) admin) && negb creator
                       then (refuse 403 "Access denied", polls)
                       else (@refuse unit 500 "Server error deleting poll", polls)
                   end) = polls /\
              ans_status (fst (match pollController.isCreator db poll anyone with
                   | inl _ => (refuse 500 "Server error deleting poll", polls)
                   | inr creator =>
                       if negb (Role_eqb (role anyone) admin) && negb creator
                       then (refuse 403 "Access denied", polls)
                       else (@refuse unit 500 "Server error deleting poll", polls)
                   end)) <> 200).
    { intros anyone. destruct (pollController.isCreator db poll anyone) as [e|creator];
        [|destruct (negb (Role_eqb (role anyone) admin) && negb creator)];
        simpl; split; try reflexivity; discriminate. }
    destruct (pollController.isCreator db poll reqUser) as [e|creator];
      [|rewrite Hgate]; simpl;
      (split; [split; [reflexivity|discriminate]|]);
      (split; [split; [reflexivity|discriminate]|]);
      (split; [intros [[|i rest]|]; simpl; split; try reflexivity; discriminate|]);
      (split; [intros [[|i rest]|]; simpl; split; try reflexivity; discriminate|]);
      exact Hdelete.
  - simpl. repeat split; try discriminate;
      match goal with
      | |- context [match ?u with _ => _ end] => destruct u as [[|i rest]|]
      end; simpl; try reflexivity; discriminate.
Qed.

Lemma strangers_cannot_change_polls_witness :
  pollController.endPoll 50 dave (sampleDb active) (samplePolls Poll.active)
  = (refuse 403 "Access denied", samplePolls Poll.active) /\
  snd (pollController.deletePoll 50 root (sampleDb active) (samplePolls Poll.active))
  = samplePolls Poll.active.
Proof.
  destruct (strangers_cannot_change_polls 50 dave (sampleDb active) (samplePolls Poll.active))
    as (_ & _ & _ & _ & Hdelete).
  - intros poll H. inversion H. reflexivity.
  - split; [reflexivity|]. apply (Hdelete root).
Defined.

(** ** What every handler keeps *)

Lemma found_iff_id db sid :
  (exists s, VotingSession.findById db sid = Some s) <-> In sid (map s_id (sessions db)).
Proof.
  unfold VotingSession.findById. split.
  - intros (s & H). apply find_some in H as [Hin E]. apply Nat.eqb_eq in E.
    apply in_map_iff. now exists s.
  - intros H. apply in_map_iff in H as (s & E & Hin).
    destruct (find (fun x => Nat.eqb (s_id x) sid) (sessions db)) as [y|] eqn:F;
      [now exists y|].
    apply (find_none _ _ F) in Hin. apply Nat.eqb_neq in Hin. contradiction.
Qed.

Lemma update_ids id update docs :
  (forall x, s_id (update x) = s_id x) ->
  map s_id (snd (VotingSession.findByIdAndUpdate id update docs)) = map s_id docs.
Proof.
  intros Hid. induction docs as [|y docs IH]; simpl; [reflexivity|].
  destruct (Nat.eqb (s_id y) id); simpl; [now rewrite Hid|].
  destruct (VotingSession.findByIdAndUpdate id update docs) as [found rest].
  simpl in *. now rewrite IH.
Qed.

Lemma refines_keeps db db' :
  refines db db' -> ballotsHaveSessions db -> ballotsHaveSessions db'.
Proof.
  intros Href Hint v Hv. destruct (Href v Hv) as [[Hin Hkeep] | (sid & Hsid & Hfound)].
  - destruct (Hint v Hin) as (sid & s & Hsid & Hfind).
    assert (Hid : In sid (map s_id (sessions db'))).
    { apply Hkeep; [exact Hsid|]. apply found_iff_id. now exists s. }
    apply found_iff_id in Hid as (s' & Hs'). now exists sid, s'.
  - apply found_iff_id in Hfound as (s' & Hs'). now exists sid, s'.
Qed.

Lemma refines_same db db' :
  votes db' = votes db -> map s_id (sessions db') = map s_id (sessions db) -> refines db db'.
Proof.
  intros Hv Hs v Hin. left. rewrite Hv in Hin. split; [exact Hin|].
  intros sid _ H. now rewrite Hs.
Qed.

Lemma castVote_stores_nothing name reqUser now db :
  snd (voteController.castVote name reqUser now db) = db.
Proof.
  unfold voteController.castVote. destruct (blank name); [reflexivity|].
  unfold Vote.createVote.
  destruct (Vote.findOneLegacy db (u_id reqUser)) as [existing|];
    [destruct (negb _)|]; reflexivity.
Qed.

Lemma management_frame st db :
  match st with
  | AssignUsers _ _ | RemoveUsers _ _ | AddCandidate _ _ _ | RemoveCandidate _ _ =>
      votes (step st db) = votes db /\
      map s_id (sessions (step st db)) = map s_id (sessions db)
  | CreateSession _ _ =>
      votes (step st db) = votes db /\
      exists added, sessions (step st db) = (sessions db ++ added)%list
  | SaveUser _ _ _ _ | InitializeDefaultAdmin =>
      votes (step st db) = votes db /\ sessions (step st db) = sessions db
  | Ballots _ => True
  end.
Proof.
  destruct st as [w|id ids|id ids|id name description|id cid|body reqUser
                  |name address password r|]; simpl; [exact I| | | | | | |].
  - unfold votingSessionController.assignUsersToSession.
    destruct ids as [[|i rest]|]; try (split; reflexivity).
    destruct (negb _); [split; reflexivity|].
    unfold VotingSession.assignUsersToSession.
    pose proof (update_ids id (fun s => VotingSession.withAssignedUsers
                  s (VotingSession.addToSet (i :: rest) (assignedUsers s)))
                  (sessions db) (fun x => eq_refl)) as Hids.
    destruct (VotingSession.findByIdAndUpdate _ _ _) as [[s|] docs]; simpl in *; auto.
  - unfold votingSessionController.removeUsersFromSession.
    destruct ids as [[|i rest]|]; try (split; reflexivity).
    unfold VotingSession.removeUsersFromSession.
    pose proof (update_ids id (fun s => VotingSession.withAssignedUsers
                  s (VotingSession.pullIn (i :: rest) (assignedUsers s)))
                  (sessions db) (fun x => eq_refl)) as Hids.
    destruct (VotingSession.findByIdAndUpdate _ _ _) as [[s|] docs]; simpl in *; auto.
  - unfold votingSessionController.addCandidateToSession.
    destruct (blank name); [split; reflexivity|].
    unfold VotingSession.addCandidate.
    match goal with
    | |- context [VotingSession.findByIdAndUpdate id ?f (sessions db)] =>
        pose proof (update_ids id f (sessions db) (fun x => eq_refl)) as Hids;
        destruct (VotingSession.findByIdAndUpdate id f (sessions db)) as [[s|] docs]
    end; simpl in *; auto.
  - unfold votingSessionController.removeCandidateFromSession,
      VotingSession.removeCandidate.
    match goal with
    | |- context [VotingSession.findByIdAndUpdate id ?f (sessions db)] =>
        pose proof (update_ids id f (sessions db) (fun x => eq_refl)) as Hids;
        destruct (VotingSession.findByIdAndUpdate id f (sessions db)) as [[s|] docs]
    end; simpl in *; auto.
  - unfold votingSessionController.createVotingSession.
    destruct (blank _); [split; [reflexivity|exists []; now rewrite app_nil_r]|].
    destruct (Nat.ltb 0 _); [split; [reflexivity|exists []; now rewrite app_nil_r]|].
    unfold VotingSession.create.
    destruct (VotingSession.invalidPaths _ _ _); simpl;
      (split; [reflexivity|]); [now eexists|exists []; now rewrite app_nil_r].
  - unfold User.save. destruct (User.invalidPaths _ _ _); [|split; reflexivity].
    destruct (existsb _ _); [split; reflexivity|].
    destruct (existsb _ _); split; reflexivity.
  - unfold User.initializeDefaultAdmin.
    destruct (User.findByUsername db "admin"); [split; reflexivity|].
    unfold User.save. destruct (User.invalidPaths _ _ _); [|split; reflexivity].
    destruct (existsb _ _); [split; reflexivity|].
    destruct (existsb _ _); split; reflexivity.
Qed.

Lemma perform_refines w db :
  handled (Ballots w) -> refines db (perform w db).
Proof.
  destruct w as [body u now|name u now|id u|id| |uid|us ss]; simpl; intros Hh.
  - destruct (castVoteInSession_guards_or_refused body u now db)
      as [(sid & s & Hpass) | (-> & _)]; [|now apply refines_same].
    rewrite (castVoteInSession_past_guards _ _ _ _ _ _ Hpass).
    destruct Hpass as (_ & Hblank & Hfind & _).
    destruct (Vote.findOne db (u_id u) sid) as [existing|] eqn:Hone.
    + rewrite (model_cast_again _ _ _ _ _ _ Hone). now apply refines_same.
    + assert (Hcd : trim (cd_candidateName (candidateDataOf body)) <> "").
      { apply blank_false_inv in Hblank as (n & Hn & Ht).
        unfold candidateDataOf. rewrite Hn. simpl. now rewrite trim_idempotent. }
      rewrite (model_cast_fresh _ _ _ _ _ Hone Hcd). simpl.
      intros v Hv. simpl in Hv. apply in_app_iff in Hv as [Hv|[<-|[]]].
      * left. split; [exact Hv|]. intros x _ H. exact H.
      * right. exists sid. split; [reflexivity|]. simpl.
        apply found_iff_id. now exists s.
  - rewrite castVote_stores_nothing. now apply refines_same.
  - rewrite deleteUser_other. now apply refines_same.
  - unfold votingSessionController.deleteVotingSession, VotingSession.deleteById.
    destruct (VotingSession.findById db id) as [s|]; [|now apply refines_same].
    unfold Vote.deleteVotesBySessionId, Vote.deleteMany. simpl.
    intros v Hv. simpl in Hv. apply filter_In in Hv as [Hin Hv].
    left. split; [exact Hin|]. intros sid Hsid Hfound. simpl.
    apply in_map_iff in Hfound as (x & Hx & Hxin). apply in_map_iff. exists x.
    split; [exact Hx|]. apply filter_In. split; [exact Hxin|].
    apply negb_true_iff, Nat.eqb_neq. intros E.
    apply negb_true_iff in Hv. unfold Vote.inSession in Hv.
    rewrite Hsid in Hv. simpl in Hv. apply Nat.eqb_neq in Hv. congruence.
  - intros v Hv. simpl in Hv. now rewrite (filter_none (fun _ => negb true)) in Hv.
  - unfold Vote.deleteVotesByUserId, Vote.deleteMany. simpl.
    intros v Hv. simpl in Hv. apply filter_In in Hv as [Hin _].
    left. split; [exact Hin|]. intros sid _ H. exact H.
  - contradiction.
Qed.

Lemma step_refines st db : handled st -> refines db (step st db).
Proof.
  intros Hh. pose proof (management_frame st db) as Hf.
  destruct st as [w|id ids|id ids|id name description|id cid|body reqUser
                  |name address password r|].
  - now apply perform_refines.
  - destruct Hf. now apply refines_same.
  - destruct Hf. now apply refines_same.
  - destruct Hf. now apply refines_same.
  - destruct Hf. now apply refines_same.
  - destruct Hf as [Hv (added & Hs)]. intros v Hin. left. rewrite Hv in Hin.
    split; [exact Hin|]. intros sid _ H. rewrite Hs, map_app. apply in_app_iff. now left.
  - destruct Hf as [Hv Hs]. apply refines_same; [exact Hv|now rewrite Hs].
  - destruct Hf as [Hv Hs]. apply refines_same; [exact Hv|now rewrite Hs].
Qed.

Lemma step_keeps_index st db : uniqueIndex db -> uniqueIndex (step st db).
Proof.
  intros H. pose proof (management_frame st db) as Hf. unfold uniqueIndex in *.
  destruct st as [w|id ids|id ids|id name description|id cid|body reqUser
                  |name address password r|];
    [now apply uniqueIndex_perform| | | | | | |];
    destruct Hf as [Hv Hs]; now rewrite Hv.
Qed.

(** Two invariants of the ballot collection hold along every history of
    the modelled handlers: no user has two ballots in one session, and
    every ballot names a session that exists.  The second one needs that
    sessions are deleted through [deleteVotingSession] only, which takes
    the ballots along.  While it holds, the listing of a user's ballots
    never fails. *)
Theorem handlers_keep_ballot_invariants (history : list Step) (db : Db) :
  (uniqueIndex db -> uniqueIndex (steps history db)) /\
  (Forall handled history -> ballotsHaveSessions db ->
   ballotsHaveSessions (steps history db)) /\
  (ballotsHaveSessions db ->
   forall reqUser, ans_status (voteController.getUserVotes reqUser db) = 200).
Proof.
  repeat apply conj.
  - revert db. induction history as [|st history IH]; intros db H; simpl; [exact H|].
    apply IH. now apply step_keeps_index.
  - revert db. induction history as [|st history IH]; intros db Hall H; simpl; [exact H|].
    inversion Hall; subst. apply IH; [assumption|].
    apply (refines_keeps db); [now apply step_refines|exact H].
  - intros Hint reqUser. unfold voteController.getUserVotes, Vote.getUserVotes.
    destruct (userVoteViews_all db
                (sortBy (fun a b => Z.leb (timestamp b) (timestamp a))
                        (filter (fun v => Nat.eqb (userId v) (u_id reqUser)) (votes db))))
      as (views & -> & _); [|reflexivity].
    intros v Hv. apply (Permutation_in _ (sortBy_perm _ _)) in Hv.
    apply filter_In in Hv as [Hin _].
    destruct (Hint v Hin) as (sid & s & Hsid & Hfind).
    unfold Vote.populateSession. rewrite Hsid, Hfind. discriminate.
Qed.

Lemma handlers_keep_ballot_invariants_witness :
  ballotsHaveSessions
    (steps [Ballots (CastInSession (mkCastBody (Some 10) (Some "Alice") (Some 11) None)
                                   alice 150%Z);
            RemoveCandidate 10 11;
            Ballots (DeleteSession 10)] (sampleDb active)) /\
  uniqueIndex
    (steps [Ballots (CastInSession (mkCastBody (Some 10) (Some "Alice") (Some 11) None)
                                   alice 150%Z);
            Ballots (CastInSession (mkCastBody (Some 10) (Some "Bob") (Some 12) None)
                                   alice 160%Z)] (sampleDb active)).
Proof.
  split.
  - apply (proj1 (proj2 (handlers_keep_ballot_invariants _ (sampleDb active)))).
    + repeat constructor.
    + intros v [].
  - apply (proj1 (handlers_keep_ballot_invariants _ (sampleDb active))). constructor.
Defined.

(** ** Custom candidates *)

(** A cast with the custom flag on, once past the checks on the session,
    is decided by the session's [allowNewCandidates] alone.  When the flag
    is off in the session the cast is refused with 400 'Adding new
    candidates is not allowed for this voting session' and nothing is
    stored.  When it is on, the first such cast of the caller is stored as
    a custom ballot under the trimmed name, and a candidate id sent along
    is stored as it is, without being looked up among the candidates. *)
Theorem castVoteInSession_custom_candidates
  (body : CastBody) (reqUser : UserDoc) (now : Date) (db : Db)
  (sid : ObjectId) (s : SessionDoc) (name : string) :
  b_votingSessionId body = Some sid ->
  b_candidateName body = Some name ->
  trim name <> "" ->
  b_isCustomCandidate body = Some true ->
  VotingSession.findById db sid = Some s ->
  VotingSession.isUserAssignedToSession db sid (u_id reqUser) = true ->
  status s = active ->
  voteController.notStarted s now = false ->
  voteController.hasEnded s now = false ->
  (allowNewCandidates s = false ->
   voteController.castVoteInSession body reqUser now db
   = (reply 400 "Adding new candidates is not allowed for this voting session", db)) /\
  (allowNewCandidates s = true ->
   Vote.findOne db (u_id reqUser) sid = None ->
   let vote := mkVote (nextId db) (u_id reqUser) (Some sid) (b_candidateId body)
                      (trim name) now true in
   voteController.castVoteInSession body reqUser now db
   = (mkResponse 201 "Vote cast successfully" (VotePayload vote),
      mkDb (users db) (sessions db) (votes db ++ [vote]) (S (nextId db)))).
Proof.
  intros Hsid Hname Htrim Hcustom Hfind Hassigned Hstatus Hstart Hend. split.
  - intros Hallow. unfold voteController.castVoteInSession.
    rewrite Hsid, Hname, (blank_false name Htrim), Hfind, Hassigned, Hstatus, Hstart,
      Hend, Hcustom, Hallow. reflexivity.
  - intros Hallow Hfirst vote.
    rewrite (castVoteInSession_past_guards body reqUser now db sid s).
    + unfold candidateDataOf. rewrite Hname, Hcustom.
      rewrite model_cast_fresh; simpl; rewrite ?trim_idempotent; trivial.
    + unfold passesGuards. rewrite Hcustom, Hname, Hallow. simpl.
      repeat split; trivial; [now apply blank_false|].
      unfold voteController.candidateMissing. now destruct (b_candidateId body).
Qed.

Lemma castVoteInSession_custom_candidates_witness :
  voteController.castVoteInSession (mkCastBody (Some 10) (Some "Zoe") None (Some true))
                                   alice 150%Z (sampleDb active)
  = (reply 400 "Adding new candidates is not allowed for this voting session",
     sampleDb active) /\
  voteController.castVoteInSession (mkCastBody (Some 30) (Some " Zoe ") (Some 999) (Some true))
                                   alice 150%Z tallyDb
  = (reply 409 "User has already voted in this voting session", tallyDb) /\
  fst (voteController.castVoteInSession
         (mkCastBody (Some 30) (Some " Zoe ") (Some 999) (Some true))
         alice 150%Z (mkDb people [annex] [] 40))
  = mkResponse 201 "Vote cast successfully"
      (VotePayload (mkVote 40 2 (Some 30) (Some 999) "Zoe" 150%Z true)).
Proof.
  split; [|split].
  - assert (Hname : trim "Zoe" <> "") by discriminate.
    exact (proj1 (castVoteInSession_custom_candidates
                    (mkCastBody (Some 10) (Some "Zoe") None (Some true))
                    alice 150%Z (sampleDb active) 10 (board active) "Zoe"
                    eq_refl eq_refl Hname eq_refl eq_refl eq_refl eq_refl eq_refl eq_refl)
                 eq_refl).
  - reflexivity.
  - assert (Hname : trim " Zoe " <> "") by discriminate.
    destruct (castVoteInSession_custom_candidates
                (mkCastBody (Some 30) (Some " Zoe ") (Some 999) (Some true))
                alice 150%Z (mkDb people [annex] [] 40) 30 annex " Zoe "
                eq_refl eq_refl Hname eq_refl eq_refl eq_refl eq_refl eq_refl eq_refl)
      as [_ H].
    exact (f_equal fst (H eq_refl eq_refl)).
Defined.

(** ** Assignment decides who may vote, the role does not *)

(** A caller who is not assigned to an existing session cannot vote in it,
    administrators included: the cast is refused with 403 and nothing is
    stored.  The outcome of a cast depends on the caller's id only, not on
    the role.  The results of the session, though, are open to an
    administrator who is not assigned. *)
Theorem assignment_not_role_decides_the_cast
  (body : CastBody) (reqUser : UserDoc) (now : Date) (db : Db)
  (sid : ObjectId) (s : SessionDoc) :
  b_votingSessionId body = Some sid ->
  blank (b_candidateName body) = false ->
  VotingSession.findById db sid = Some s ->
  VotingSession.isUserAssignedToSession db sid (u_id reqUser) = false ->
  voteController.castVoteInSession body reqUser now db
  = (reply 403 "You are not assigned to this voting session", db) /\
  (forall other, u_id other = u_id reqUser ->
     voteController.castVoteInSession body other now db
     = voteController.castVoteInSession body reqUser now db) /\
  (role reqUser = admin ->
   voteController.getSessionResults sid reqUser db
   = mkResponse 200 "Voting session results retrieved successfully"
       (ResultsPayload s (Vote.getSessionResults sid db))).
Proof.
  intros Hsid Hblank Hfind Hassigned. repeat apply conj.
  - now apply (cast_by_unassigned body reqUser now db sid s).
  - intros other Hother. unfold voteController.castVoteInSession. now rewrite Hother.
  - intros Hrole. unfold voteController.getSessionResults. now rewrite Hfind, Hrole.
Qed.

Lemma assignment_not_role_decides_the_cast_witness :
  voteController.castVoteInSession (mkCastBody (Some 10) (Some "Alice") (Some 11) None)
                                   root 150%Z tallyDb
  = (reply 403 "You are not assigned to this voting session", tallyDb) /\
  res_status (voteController.getSessionResults 10 root tallyDb) = 200.
Proof.
  destruct (assignment_not_role_decides_the_cast
              (mkCastBody (Some 10) (Some "Alice") (Some 11) None)
              root 150%Z tallyDb 10 (board active) eq_refl eq_refl eq_refl eq_refl)
    as (H1 & _ & H3).
  split; [exact H1|]. now rewrite (H3 eq_refl).
Defined.
